(** * vulkantest: a shallow embedding of [src/main.c]

    The program initialises a Vulkan instance, device, swapchain and a
    fixed-function graphics pipeline for a GLFW window, then draws one
    triangle per frame.  Every function of [main.c] is embedded below as a
    Rocq function over

    - [struct vulkan] as a record, threaded explicitly where the C code
      passes [struct vulkan *];
    - computations that take the malloc heap and return their result, the
      heap they leave and the libc / GLFW / Vulkan calls they made, in
      order; a computation in which the process can be killed returns
      [None] in that case;
    - a [driver] record that fixes what the outside world answers to each
      call (enumerated lists, creation results, file contents).

    Unsigned 32-bit quantities are integers in [Z] with the wrap-around
    written out; handles and pointers are natural numbers in [N] with [0]
    as [VK_NULL_HANDLE] / [nullptr].  Diagnostics written to [stderr] are
    not modelled. *)

From Stdlib Require Import ZArith Lia.
From stdpp Require Import base tactics option list numbers strings gmap.

Local Open Scope Z_scope.

(** ** Constants *)

(** [main.c:11] and [main.c:69]. *)
Definition MAX_TMP_BUFFER : Z := 256.
Definition MAX_SWAPCHAIN_IMAGES : Z := 10.

(** From [<stdint.h>]. *)
Definition UINT32_MAX : Z := 4294967295.
Definition UINT64_MAX : Z := 18446744073709551615.

(** Conversion of a C integer to [uint32_t]. *)
Definition to_uint32 (z : Z) : Z := z mod 2 ^ 32.

(** From [<vulkan/vulkan_core.h>]. *)
Definition VK_TRUE : Z := 1.
Definition VK_QUEUE_GRAPHICS_BIT : Z := 1.
Definition VK_FORMAT_B8G8R8A8_SRGB : Z := 50.
Definition VK_COLOR_SPACE_SRGB_NONLINEAR_KHR : Z := 0.
Definition VK_PRESENT_MODE_FIFO_KHR : Z := 2.
Definition VK_KHR_SWAPCHAIN_EXTENSION_NAME : string := "VK_KHR_swapchain".
Definition VK_LAYER_KHRONOS_validation : string := "VK_LAYER_KHRONOS_validation".

Definition handle : Type := N.
Definition ptr : Type := N.
Definition VK_NULL_HANDLE : handle := 0%N.
Definition nullptr : ptr := 0%N.

Inductive VkSharingMode : Type :=
  | VK_SHARING_MODE_EXCLUSIVE
  | VK_SHARING_MODE_CONCURRENT.

(** ** Vulkan structures read or built by the program *)

Record VkExtent2D : Type := Extent2D { width : Z; height : Z }.

Record VkSurfaceCapabilitiesKHR : Type := {
  minImageCount : Z;
  maxImageCount : Z;
  currentExtent : VkExtent2D;
  minImageExtent : VkExtent2D;
  maxImageExtent : VkExtent2D;
  currentTransform : Z;
}.

Record VkSurfaceFormatKHR : Type := SurfaceFormat { format : Z; colorSpace : Z }.

(** One row of the adapter's queue-family table: the [queueFlags] of
    [VkQueueFamilyProperties] and what
    [vkGetPhysicalDeviceSurfaceSupportKHR] reports for that family. *)
Record queuefamily : Type := QueueFamily {
  queueFlags : Z;
  present_support : Z;
}.

Record VkDeviceQueueCreateInfo : Type := {
  queueFamilyIndex : Z;
  queueCount : Z;
}.

Record VkDeviceCreateInfo : Type := {
  pQueueCreateInfos : list VkDeviceQueueCreateInfo;
  queueCreateInfoCount : Z;
  ppEnabledExtensionNames : list string;
  enabledExtensionCount : Z;
}.

(** [pQueueFamilyIndices] is [None] when the designated initialiser leaves
    the pointer null. *)
Record VkSwapchainCreateInfoKHR : Type := {
  sci_surface : handle;
  sci_minImageCount : Z;
  imageFormat : Z;
  imageColorSpace : Z;
  imageExtent : VkExtent2D;
  imageArrayLayers : Z;
  imageSharingMode : VkSharingMode;
  queueFamilyIndexCount : Z;
  pQueueFamilyIndices : option (list Z);
  preTransform : Z;
  presentMode : Z;
  clipped : Z;
  oldSwapchain : handle;
}.

(** ** Calls into libc, GLFW and the Vulkan driver

    Each constructor is one call site of [main.c] with the arguments that
    matter here; a creation call also carries what the driver answered
    ([None] for any result other than [VK_SUCCESS]).  Pure queries
    (enumerations, capability reads, [vkGetDeviceQueue]) are not logged. *)

Inductive call : Type :=
  (* libc *)
  | fopen (filename : string) (opened : bool)
  | fseek (ok : bool)
  | ftell (r : Z)
  | rewind
  | malloc (size : Z) (r : ptr)
  | fread (buffer : ptr) (size : Z) (r : Z)
  | free (p : ptr)
  | fclose (opened : bool)
  (* GLFW *)
  | glfwInit (ok : bool)
  | glfwCreateWindow (w h : Z) (title : string) (r : handle)
  | glfwCreateWindowSurface (inst win : handle) (r : option handle)
  | glfwPollEvents
  | glfwDestroyWindow (win : handle)
  | glfwTerminate
  (* object creation *)
  | vkCreateInstance (layers : list string) (r : option handle)
  | vkCreateDevice (phys : handle) (ci : VkDeviceCreateInfo) (r : option handle)
  | vkCreateSwapchainKHR (dev : handle) (ci : VkSwapchainCreateInfoKHR) (r : option handle)
  | vkCreateImageView (dev image : handle) (fmt : Z) (r : option handle)
  | vkCreateRenderPass (dev : handle) (fmt : Z) (r : option handle)
  | vkCreateShaderModule (dev : handle) (pCode : ptr) (codeSize : Z) (r : option handle)
  | vkCreatePipelineLayout (dev : handle) (r : option handle)
  | vkCreateGraphicsPipelines (dev vert frag layout pass : handle) (r : option handle)
  | vkCreateFramebuffer (dev pass view : handle) (extent : VkExtent2D) (r : option handle)
  | vkCreateCommandPool (dev : handle) (family : Z) (r : option handle)
  | vkAllocateCommandBuffers (dev pool : handle) (r : option handle)
  | vkCreateSemaphore (dev : handle) (r : option handle)
  | vkCreateFence (dev : handle) (signaled : bool) (r : option handle)
  (* object destruction *)
  | vkDestroyShaderModule (dev h : handle)
  | vkDestroySemaphore (dev h : handle)
  | vkDestroyFence (dev h : handle)
  | vkDestroyCommandPool (dev h : handle)
  | vkDestroyFramebuffer (dev h : handle)
  | vkDestroyPipeline (dev h : handle)
  | vkDestroyPipelineLayout (dev h : handle)
  | vkDestroyRenderPass (dev h : handle)
  | vkDestroyImageView (dev h : handle)
  | vkDestroySwapchainKHR (dev h : handle)
  | vkDestroyDevice (h : handle)
  | vkDestroySurfaceKHR (inst h : handle)
  | vkDestroyInstance (h : handle)
  (* per-frame calls *)
  | vkWaitForFences (dev fence : handle) (waitAll : bool) (timeout : Z)
  | vkResetFences (dev fence : handle)
  | vkAcquireNextImageKHR (dev chain : handle) (timeout : Z) (sem fence : handle)
  | vkResetCommandBuffer (cb : handle)
  | vkBeginCommandBuffer (cb : handle)
  | vkCmdBeginRenderPass (cb pass fb : handle) (area : VkExtent2D)
  | vkCmdBindPipeline (cb pipeline : handle)
  | vkCmdSetViewport (cb : handle) (extent : VkExtent2D)
  | vkCmdSetScissor (cb : handle) (extent : VkExtent2D)
  | vkCmdDraw (cb : handle) (vertexCount instanceCount firstVertex firstInstance : Z)
  | vkCmdEndRenderPass (cb : handle)
  | vkEndCommandBuffer (cb : handle)
  | vkQueueSubmit (queue wait_sem cb signal_sem fence : handle)
  | vkQueuePresentKHR (queue wait_sem chain : handle) (image_index : Z).

(** ** Computations: malloc heap in, result, heap and calls out

    A computation takes the heap as it stands and returns its result, the
    heap it leaves and the calls it made, in the order it made them.
    Sequencing runs the second computation on the heap left by the first
    and appends its calls. *)

Abbreviation heap := (gmap ptr (list Byte.byte)).

Definition M (A : Type) : Type := heap → A * heap * list call.

Definition ret {A} (a : A) : M A := λ h, (a, h, []).

Definition bind {A B} (m : M A) (k : A → M B) : M B :=
  λ h, let '(a, h1, l1) := m h in
       let '(b, h2, l2) := k a h1 in
       (b, h2, l1 ++ l2).

Notation "'let*' x ':=' m 'in' k" := (bind m (λ x, k))
  (at level 10, x pattern, m at level 100, k at level 200).
Notation "m ';;' k" := (bind m (λ _, k))
  (at level 100, k at level 200, right associativity).

Definition emit (c : call) : M unit := λ h, (tt, h, [c]).

Definition get_heap : M heap := λ h, (h, h, []).

(** The three components of a finished computation. *)
Definition result {A} (r : A * heap * list call) : A := r.1.1.
Definition heap_after {A} (r : A * heap * list call) : heap := r.1.2.
Definition calls {A} (r : A * heap * list call) : list call := r.2.

(** ** Computations that may not return

    [fclose] has no defined behaviour on a null stream: the C library
    dereferences the stream, and the process is killed inside the call.
    A computation in which this can happen returns [None] when it does,
    together with the heap as it stood and the calls made up to and
    including the fatal one; otherwise it returns [Some] of its result.
    Sequencing stops at the first [None]. *)

Definition K (A : Type) : Type := M (option A).

Definition killed {A} : K A := ret None.

Definition returns {A} (m : M A) : K A := let* a := m in ret (Some a).

Definition bindK {A B} (m : K A) (k : A → K B) : K B :=
  let* o := m in
  match o with
  | Some a => k a
  | None => killed
  end.

Notation "'let?' x ':=' m 'in' k" := (bindK m (λ x, k))
  (at level 10, x pattern, m at level 100, k at level 200).

(** ** libc as the program sees it *)

Record file : Type := {
  file_data : list Byte.byte;
  fseek_ok : bool;
  ftell_ok : bool;
  fread_ok : bool;
}.

Record libc : Type := {
  fs : string → option file;
  malloc_ok : heap → Z → bool;
}.

Definition to_size_t (z : Z) : Z := z mod 2 ^ 64.

(** [malloc]: on success a block at an address that is neither null nor
    in use; its indeterminate contents are taken to be zero bytes. *)
Definition c_malloc (c : libc) (size : Z) : M ptr :=
  λ h,
    if malloc_ok c h size then
      let p : ptr := fresh ({[nullptr]} ∪ dom h) in
      (p, <[p := replicate (Z.to_nat size) Byte.x00]> h, [malloc size p])
    else (nullptr, h, [malloc size nullptr]).

(** [free]: releases the block; [free(nullptr)] does nothing. *)
Definition c_free (p : ptr) : M unit :=
  λ h, (tt, if decide (p = nullptr) then h else delete p h, [free p]).

(** [fread(buffer, size, 1, file)] on a stream positioned at its start:
    returns the number of whole items read, which is [1] only when the
    read works and the item is not empty. *)
Definition c_fread (f : file) (buffer : ptr) (size : Z) : M Z :=
  λ h,
    if fread_ok f && (0 <? size) then
      (1, <[buffer := take (Z.to_nat size) (file_data f)]> h,
       [fread buffer size 1])
    else (0, h, [fread buffer size 0]).

(** [ftell] on a stream positioned at its end: the size of the file, or
    [-1] when the call fails, which it also does when the size does not
    fit a [long]. *)
Definition LONG_MAX : Z := 9223372036854775807.
Definition c_ftell (f : file) : Z :=
  let size := Z.of_nat (length (file_data f)) in
  if ftell_ok f && (size <=? LONG_MAX) then size else -1.

(** [fclose]: closes the stream [fopen] returned; on the null stream
    ([file] is [None]) the process is killed in the call. *)
Definition c_fclose (file : option file) : K unit :=
  emit (fclose (bool_decide (is_Some file)));;
  match file with
  | None => killed
  | Some _ => ret (Some tt)
  end.

(** [main.c:59-66], the [cleanup:] label of [file_read].  [file] is the
    stream if [fopen] returned one; when it did not, the code still calls
    [fclose], on the null stream. *)
Definition file_read_cleanup (success : bool) (read_buffer : ptr)
    (file : option file) : K bool :=
  (if negb success then c_free read_buffer else ret tt);;
  let? _ := c_fclose file in
  ret (Some success).

(** [main.c:18-67].  The out-parameters [*content] and [*content_size]
    are passed in with their current values and returned with the values
    they hold when the function returns. *)
Definition file_read (c : libc) (filename : string) (content : ptr)
    (content_size : Z) : K (bool * (ptr * Z)) :=
  let success := false in
  let read_buffer := nullptr in
  emit (fopen filename (bool_decide (is_Some (fs c filename))));;
  match fs c filename with
  | None =>
      let? r := file_read_cleanup success read_buffer None in
      ret (Some (r, (content, content_size)))
  | Some f =>
      emit (fseek (fseek_ok f));;
      if negb (fseek_ok f) then
        let? r := file_read_cleanup success read_buffer (Some f) in
        ret (Some (r, (content, content_size)))
      else
        let told := c_ftell f in
        emit (ftell told);;
        let file_size := to_size_t told in
        if file_size =? to_size_t (-1) then
          let? r := file_read_cleanup success read_buffer (Some f) in
          ret (Some (r, (content, content_size)))
        else
          emit rewind;;
          let* read_buffer := c_malloc c file_size in
          if decide (read_buffer = nullptr) then
            let? r := file_read_cleanup success read_buffer (Some f) in
            ret (Some (r, (content, content_size)))
          else
            let* n := c_fread f read_buffer file_size in
            if negb (n =? 1) then
              let? r := file_read_cleanup success read_buffer (Some f) in
              ret (Some (r, (content, content_size)))
            else
              let content := read_buffer in
              let content_size := file_size in
              let success := true in
              let? r := file_read_cleanup success read_buffer (Some f) in
              ret (Some (r, (content, content_size)))
  end.

(** ** [struct vulkan] ([main.c:71-109])

    The three fixed arrays of [MAX_SWAPCHAIN_IMAGES] handles are lists;
    [a[i] = x] is the list update [<[i:=x]> a]. *)

Record vulkan : Type := Vulkan {
  application_name : string;
  enable_validation_layers : bool;
  window : handle;
  instance : handle;
  surface : handle;
  physicaldevice : handle;
  device : handle;
  swapchain : handle;
  render_pass : handle;
  pipeline_layout : handle;
  graphics_pipeline : handle;
  command_pool : handle;
  command_buffer : handle;
  swapchain_image_format : Z;
  swapchain_extent : VkExtent2D;
  swapchain_images : list handle;
  swapchain_images_count : Z;
  swapchain_imageviews : list handle;
  swapchain_imageviews_count : Z;
  swapchain_framebuffers : list handle;
  swapchain_framebuffers_count : Z;
  graphics_queuefamily_index : Z;
  graphics_queue : handle;
  present_queuefamily_index : Z;
  present_queue : handle;
  swapchain_image_available : handle;
  render_finished : handle;
  frame_in_flight : handle;
}.

(** Field assignments [vulkan->f = x], one per field. *)

Definition set_application_name (x : string) (v : vulkan) : vulkan :=
  let 'Vulkan v0 v1 v2 v3 v4 v5 v6 v7 v8 v9 v10 v11 v12 v13 v14 v15 v16 v17
    v18 v19 v20 v21 v22 v23 v24 v25 v26 v27 := v in Vulkan x v1 v2 v3 v4 v5
    v6 v7 v8 v9 v10 v11 v12 v13 v14 v15 v16 v17 v18 v19 v20 v21 v22 v23 v24
    v25 v26 v27.
Definition set_enable_validation_layers (x : bool) (v : vulkan) : vulkan :=
  let 'Vulkan v0 v1 v2 v3 v4 v5 v6 v7 v8 v9 v10 v11 v12 v13 v14 v15 v16 v17
    v18 v19 v20 v21 v22 v23 v24 v25 v26 v27 := v in Vulkan v0 x v2 v3 v4 v5
    v6 v7 v8 v9 v10 v11 v12 v13 v14 v15 v16 v17 v18 v19 v20 v21 v22 v23 v24
    v25 v26 v27.
Definition set_window (x : handle) (v : vulkan) : vulkan :=
  let 'Vulkan v0 v1 v2 v3 v4 v5 v6 v7 v8 v9 v10 v11 v12 v13 v14 v15 v16 v17
    v18 v19 v20 v21 v22 v23 v24 v25 v26 v27 := v in Vulkan v0 v1 x v3 v4 v5
    v6 v7 v8 v9 v10 v11 v12 v13 v14 v15 v16 v17 v18 v19 v20 v21 v22 v23 v24
    v25 v26 v27.
Definition set_instance (x : handle) (v : vulkan) : vulkan :=
  let 'Vulkan v0 v1 v2 v3 v4 v5 v6 v7 v8 v9 v10 v11 v12 v13 v14 v15 v16 v17
    v18 v19 v20 v21 v22 v23 v24 v25 v26 v27 := v in Vulkan v0 v1 v2 x v4 v5
    v6 v7 v8 v9 v10 v11 v12 v13 v14 v15 v16 v17 v18 v19 v20 v21 v22 v23 v24
    v25 v26 v27.
Definition set_surface (x : handle) (v : vulkan) : vulkan :=
  let 'Vulkan v0 v1 v2 v3 v4 v5 v6 v7 v8 v9 v10 v11 v12 v13 v14 v15 v16 v17
    v18 v19 v20 v21 v22 v23 v24 v25 v26 v27 := v in Vulkan v0 v1 v2 v3 x v5
    v6 v7 v8 v9 v10 v11 v12 v13 v14 v15 v16 v17 v18 v19 v20 v21 v22 v23 v24
    v25 v26 v27.
Definition set_physicaldevice (x : handle) (v : vulkan) : vulkan :=
  let 'Vulkan v0 v1 v2 v3 v4 v5 v6 v7 v8 v9 v10 v11 v12 v13 v14 v15 v16 v17
    v18 v19 v20 v21 v22 v23 v24 v25 v26 v27 := v in Vulkan v0 v1 v2 v3 v4 x
    v6 v7 v8 v9 v10 v11 v12 v13 v14 v15 v16 v17 v18 v19 v20 v21 v22 v23 v24
    v25 v26 v27.
Definition set_device (x : handle) (v : vulkan) : vulkan :=
  let 'Vulkan v0 v1 v2 v3 v4 v5 v6 v7 v8 v9 v10 v11 v12 v13 v14 v15 v16 v17
    v18 v19 v20 v21 v22 v23 v24 v25 v26 v27 := v in Vulkan v0 v1 v2 v3 v4 v5
    x v7 v8 v9 v10 v11 v12 v13 v14 v15 v16 v17 v18 v19 v20 v21 v22 v23 v24
    v25 v26 v27.
Definition set_swapchain (x : handle) (v : vulkan) : vulkan :=
  let 'Vulkan v0 v1 v2 v3 v4 v5 v6 v7 v8 v9 v10 v11 v12 v13 v14 v15 v16 v17
    v18 v19 v20 v21 v22 v23 v24 v25 v26 v27 := v in Vulkan v0 v1 v2 v3 v4 v5
    v6 x v8 v9 v10 v11 v12 v13 v14 v15 v16 v17 v18 v19 v20 v21 v22 v23 v24
    v25 v26 v27.
Definition set_render_pass (x : handle) (v : vulkan) : vulkan :=
  let 'Vulkan v0 v1 v2 v3 v4 v5 v6 v7 v8 v9 v10 v11 v12 v13 v14 v15 v16 v17
    v18 v19 v20 v21 v22 v23 v24 v25 v26 v27 := v in Vulkan v0 v1 v2 v3 v4 v5
    v6 v7 x v9 v10 v11 v12 v13 v14 v15 v16 v17 v18 v19 v20 v21 v22 v23 v24
    v25 v26 v27.
Definition set_pipeline_layout (x : handle) (v : vulkan) : vulkan :=
  let 'Vulkan v0 v1 v2 v3 v4 v5 v6 v7 v8 v9 v10 v11 v12 v13 v14 v15 v16 v17
    v18 v19 v20 v21 v22 v23 v24 v25 v26 v27 := v in Vulkan v0 v1 v2 v3 v4 v5
    v6 v7 v8 x v10 v11 v12 v13 v14 v15 v16 v17 v18 v19 v20 v21 v22 v23 v24
    v25 v26 v27.
Definition set_graphics_pipeline (x : handle) (v : vulkan) : vulkan :=
  let 'Vulkan v0 v1 v2 v3 v4 v5 v6 v7 v8 v9 v10 v11 v12 v13 v14 v15 v16 v17
    v18 v19 v20 v21 v22 v23 v24 v25 v26 v27 := v in Vulkan v0 v1 v2 v3 v4 v5
    v6 v7 v8 v9 x v11 v12 v13 v14 v15 v16 v17 v18 v19 v20 v21 v22 v23 v24
    v25 v26 v27.
Definition set_command_pool (x : handle) (v : vulkan) : vulkan :=
  let 'Vulkan v0 v1 v2 v3 v4 v5 v6 v7 v8 v9 v10 v11 v12 v13 v14 v15 v16 v17
    v18 v19 v20 v21 v22 v23 v24 v25 v26 v27 := v in Vulkan v0 v1 v2 v3 v4 v5
    v6 v7 v8 v9 v10 x v12 v13 v14 v15 v16 v17 v18 v19 v20 v21 v22 v23 v24
    v25 v26 v27.
Definition set_command_buffer (x : handle) (v : vulkan) : vulkan :=
  let 'Vulkan v0 v1 v2 v3 v4 v5 v6 v7 v8 v9 v10 v11 v12 v13 v14 v15 v16 v17
    v18 v19 v20 v21 v22 v23 v24 v25 v26 v27 := v in Vulkan v0 v1 v2 v3 v4 v5
    v6 v7 v8 v9 v10 v11 x v13 v14 v15 v16 v17 v18 v19 v20 v21 v22 v23 v24
    v25 v26 v27.
Definition set_swapchain_image_format (x : Z) (v : vulkan) : vulkan :=
  let 'Vulkan v0 v1 v2 v3 v4 v5 v6 v7 v8 v9 v10 v11 v12 v13 v14 v15 v16 v17
    v18 v19 v20 v21 v22 v23 v24 v25 v26 v27 := v in Vulkan v0 v1 v2 v3 v4 v5
    v6 v7 v8 v9 v10 v11 v12 x v14 v15 v16 v17 v18 v19 v20 v21 v22 v23 v24
    v25 v26 v27.
Definition set_swapchain_extent (x : VkExtent2D) (v : vulkan) : vulkan :=
  let 'Vulkan v0 v1 v2 v3 v4 v5 v6 v7 v8 v9 v10 v11 v12 v13 v14 v15 v16 v17
    v18 v19 v20 v21 v22 v23 v24 v25 v26 v27 := v in Vulkan v0 v1 v2 v3 v4 v5
    v6 v7 v8 v9 v10 v11 v12 v13 x v15 v16 v17 v18 v19 v20 v21 v22 v23 v24
    v25 v26 v27.
Definition set_swapchain_images (x : list handle) (v : vulkan) : vulkan :=
  let 'Vulkan v0 v1 v2 v3 v4 v5 v6 v7 v8 v9 v10 v11 v12 v13 v14 v15 v16 v17
    v18 v19 v20 v21 v22 v23 v24 v25 v26 v27 := v in Vulkan v0 v1 v2 v3 v4 v5
    v6 v7 v8 v9 v10 v11 v12 v13 v14 x v16 v17 v18 v19 v20 v21 v22 v23 v24
    v25 v26 v27.
Definition set_swapchain_images_count (x : Z) (v : vulkan) : vulkan :=
  let 'Vulkan v0 v1 v2 v3 v4 v5 v6 v7 v8 v9 v10 v11 v12 v13 v14 v15 v16 v17
    v18 v19 v20 v21 v22 v23 v24 v25 v26 v27 := v in Vulkan v0 v1 v2 v3 v4 v5
    v6 v7 v8 v9 v10 v11 v12 v13 v14 v15 x v17 v18 v19 v20 v21 v22 v23 v24
    v25 v26 v27.
Definition set_swapchain_imageviews (x : list handle) (v : vulkan) : vulkan :=
  let 'Vulkan v0 v1 v2 v3 v4 v5 v6 v7 v8 v9 v10 v11 v12 v13 v14 v15 v16 v17
    v18 v19 v20 v21 v22 v23 v24 v25 v26 v27 := v in Vulkan v0 v1 v2 v3 v4 v5
    v6 v7 v8 v9 v10 v11 v12 v13 v14 v15 v16 x v18 v19 v20 v21 v22 v23 v24
    v25 v26 v27.
Definition set_swapchain_imageviews_count (x : Z) (v : vulkan) : vulkan :=
  let 'Vulkan v0 v1 v2 v3 v4 v5 v6 v7 v8 v9 v10 v11 v12 v13 v14 v15 v16 v17
    v18 v19 v20 v21 v22 v23 v24 v25 v26 v27 := v in Vulkan v0 v1 v2 v3 v4 v5
    v6 v7 v8 v9 v10 v11 v12 v13 v14 v15 v16 v17 x v19 v20 v21 v22 v23 v24
    v25 v26 v27.
Definition set_swapchain_framebuffers (x : list handle) (v : vulkan) : vulkan :=
  let 'Vulkan v0 v1 v2 v3 v4 v5 v6 v7 v8 v9 v10 v11 v12 v13 v14 v15 v16 v17
    v18 v19 v20 v21 v22 v23 v24 v25 v26 v27 := v in Vulkan v0 v1 v2 v3 v4 v5
    v6 v7 v8 v9 v10 v11 v12 v13 v14 v15 v16 v17 v18 x v20 v21 v22 v23 v24
    v25 v26 v27.
Definition set_swapchain_framebuffers_count (x : Z) (v : vulkan) : vulkan :=
  let 'Vulkan v0 v1 v2 v3 v4 v5 v6 v7 v8 v9 v10 v11 v12 v13 v14 v15 v16 v17
    v18 v19 v20 v21 v22 v23 v24 v25 v26 v27 := v in Vulkan v0 v1 v2 v3 v4 v5
    v6 v7 v8 v9 v10 v11 v12 v13 v14 v15 v16 v17 v18 v19 x v21 v22 v23 v24
    v25 v26 v27.
Definition set_graphics_queuefamily_index (x : Z) (v : vulkan) : vulkan :=
  let 'Vulkan v0 v1 v2 v3 v4 v5 v6 v7 v8 v9 v10 v11 v12 v13 v14 v15 v16 v17
    v18 v19 v20 v21 v22 v23 v24 v25 v26 v27 := v in Vulkan v0 v1 v2 v3 v4 v5
    v6 v7 v8 v9 v10 v11 v12 v13 v14 v15 v16 v17 v18 v19 v20 x v22 v23 v24
    v25 v26 v27.
Definition set_graphics_queue (x : handle) (v : vulkan) : vulkan :=
  let 'Vulkan v0 v1 v2 v3 v4 v5 v6 v7 v8 v9 v10 v11 v12 v13 v14 v15 v16 v17
    v18 v19 v20 v21 v22 v23 v24 v25 v26 v27 := v in Vulkan v0 v1 v2 v3 v4 v5
    v6 v7 v8 v9 v10 v11 v12 v13 v14 v15 v16 v17 v18 v19 v20 v21 x v23 v24
    v25 v26 v27.
Definition set_present_queuefamily_index (x : Z) (v : vulkan) : vulkan :=
  let 'Vulkan v0 v1 v2 v3 v4 v5 v6 v7 v8 v9 v10 v11 v12 v13 v14 v15 v16 v17
    v18 v19 v20 v21 v22 v23 v24 v25 v26 v27 := v in Vulkan v0 v1 v2 v3 v4 v5
    v6 v7 v8 v9 v10 v11 v12 v13 v14 v15 v16 v17 v18 v19 v20 v21 v22 x v24
    v25 v26 v27.
Definition set_present_queue (x : handle) (v : vulkan) : vulkan :=
  let 'Vulkan v0 v1 v2 v3 v4 v5 v6 v7 v8 v9 v10 v11 v12 v13 v14 v15 v16 v17
    v18 v19 v20 v21 v22 v23 v24 v25 v26 v27 := v in Vulkan v0 v1 v2 v3 v4 v5
    v6 v7 v8 v9 v10 v11 v12 v13 v14 v15 v16 v17 v18 v19 v20 v21 v22 v23 x
    v25 v26 v27.
Definition set_swapchain_image_available (x : handle) (v : vulkan) : vulkan :=
  let 'Vulkan v0 v1 v2 v3 v4 v5 v6 v7 v8 v9 v10 v11 v12 v13 v14 v15 v16 v17
    v18 v19 v20 v21 v22 v23 v24 v25 v26 v27 := v in Vulkan v0 v1 v2 v3 v4 v5
    v6 v7 v8 v9 v10 v11 v12 v13 v14 v15 v16 v17 v18 v19 v20 v21 v22 v23 v24
    x v26 v27.
Definition set_render_finished (x : handle) (v : vulkan) : vulkan :=
  let 'Vulkan v0 v1 v2 v3 v4 v5 v6 v7 v8 v9 v10 v11 v12 v13 v14 v15 v16 v17
    v18 v19 v20 v21 v22 v23 v24 v25 v26 v27 := v in Vulkan v0 v1 v2 v3 v4 v5
    v6 v7 v8 v9 v10 v11 v12 v13 v14 v15 v16 v17 v18 v19 v20 v21 v22 v23 v24
    v25 x v27.
Definition set_frame_in_flight (x : handle) (v : vulkan) : vulkan :=
  let 'Vulkan v0 v1 v2 v3 v4 v5 v6 v7 v8 v9 v10 v11 v12 v13 v14 v15 v16 v17
    v18 v19 v20 v21 v22 v23 v24 v25 v26 v27 := v in Vulkan v0 v1 v2 v3 v4 v5
    v6 v7 v8 v9 v10 v11 v12 v13 v14 v15 v16 v17 v18 v19 v20 v21 v22 v23 v24
    v25 v26 x.

(** [struct vulkan] as [main] zero-initialises it ([main.c:1332]). *)
Definition vulkan_zero : vulkan :=
  let arr := replicate (Z.to_nat MAX_SWAPCHAIN_IMAGES) VK_NULL_HANDLE in
  Vulkan "" false 0%N 0%N 0%N 0%N 0%N 0%N 0%N 0%N 0%N 0%N 0%N
         0 (Extent2D 0 0) arr 0 arr 0 arr 0 0 0%N 0 0%N 0%N 0%N 0%N.

(** Array read [a[i]]. *)
Definition at_index (a : list handle) (i : nat) : handle := nth i a VK_NULL_HANDLE.

(** ** The driver: what the outside world answers

    One field per call site whose answer the program looks at.  Lists are
    what the driver would enumerate in full; creation results are [None]
    for any [VkResult] other than [VK_SUCCESS]. *)

Record driver : Type := {
  drv_libc : libc;
  drv_glfw_init : bool;
  drv_window : handle;
  drv_layers : list string;
  drv_instance : option handle;
  drv_surface : option handle;
  drv_devices : list handle;
  drv_queuefamilies : list queuefamily;
  drv_extensions : list string;
  drv_device : option handle;
  drv_queue : Z → handle;
  drv_surface_formats : list VkSurfaceFormatKHR;
  drv_present_modes : list Z;
  drv_capabilities : VkSurfaceCapabilitiesKHR;
  drv_framebuffer_size : Z * Z;
  drv_swapchain : option handle;
  drv_swapchain_images : list handle;
  drv_imageview : nat → option handle;
  drv_renderpass : option handle;
  drv_shadermodule : list Byte.byte → option handle;
  drv_pipeline_layout : option handle;
  drv_pipeline : option handle;
  drv_framebuffer : nat → option handle;
  drv_commandpool : option handle;
  drv_commandbuffer : option handle;
  drv_image_available : option handle;
  drv_render_finished : option handle;
  drv_fence : option handle;
}.

(** The two-call enumeration idiom of Vulkan: called with a null buffer
    the driver stores the number of available entries in [*count]; called
    with a buffer it writes at most [*count] entries. *)
Definition vk_count {A} (available : list A) : Z := Z.of_nat (length available).
Definition vk_fill {A} (count : Z) (available : list A) : list A :=
  take (Z.to_nat count) available.

(** ** Bounded enumerations

    The six places where the program enumerates a driver list into a
    stack buffer of [MAX_TMP_BUFFER] entries.  Each returns the filled
    part of the buffer, or [None] where the enclosing function executes
    [return false]. *)

(** [main.c:117-128], in [vulkan_validationlayers_check]. *)
Definition enumerate_layers (d : driver) : option (list string) :=
  let layer_count := vk_count (drv_layers d) in
  if layer_count >? MAX_TMP_BUFFER then None
  else Some (vk_fill layer_count (drv_layers d)).

(** [main.c:217-232], in [vulkan_physicaldevice_find]. *)
Definition enumerate_physicaldevices (d : driver) : option (list handle) :=
  let device_count := vk_count (drv_devices d) in
  if device_count =? 0 then None
  else if device_count >? MAX_TMP_BUFFER then None
  else Some (vk_fill device_count (drv_devices d)).

(** [main.c:242-257], in [vulkan_queuefamily_find]. *)
Definition enumerate_queuefamilies (d : driver) : option (list queuefamily) :=
  let queuefamily_count := vk_count (drv_queuefamilies d) in
  if queuefamily_count >? MAX_TMP_BUFFER then None
  else Some (vk_fill queuefamily_count (drv_queuefamilies d)).

(** [main.c:316-331], in [vulkan_device_create]. *)
Definition enumerate_device_extensions (d : driver) : option (list string) :=
  let extension_count := vk_count (drv_extensions d) in
  if extension_count >? MAX_TMP_BUFFER then None
  else Some (vk_fill extension_count (drv_extensions d)).

(** [main.c:386-405], in [vulkan_swapchain_create]. *)
Definition enumerate_surface_formats (d : driver)
    : option (list VkSurfaceFormatKHR) :=
  let surface_format_count := vk_count (drv_surface_formats d) in
  if surface_format_count =? 0 then None
  else if surface_format_count >? MAX_TMP_BUFFER then None
  else Some (vk_fill surface_format_count (drv_surface_formats d)).

(** [main.c:407-429], in [vulkan_swapchain_create]. *)
Definition enumerate_present_modes (d : driver) : option (list Z) :=
  let present_mode_count := vk_count (drv_present_modes d) in
  if present_mode_count =? 0 then None
  else if present_mode_count >? MAX_TMP_BUFFER then None
  else Some (vk_fill present_mode_count (drv_present_modes d)).

(** ** Instance, surface, adapter *)

(** [main.c:114-144]: every requested layer name occurs among the
    enumerated ones. *)
Definition vulkan_validationlayers_check (d : driver)
    (validation_layers : list string) : bool :=
  match enumerate_layers d with
  | None => false
  | Some available_layers =>
      forallb (λ name, existsb (String.eqb name) available_layers)
              validation_layers
  end.

(** [main.c:148-197]. *)
Definition vulkan_instance_create (d : driver) (vk : vulkan) : M (bool * vulkan) :=
  let validation_layers := [VK_LAYER_KHRONOS_validation] in
  if enable_validation_layers vk
     && negb (vulkan_validationlayers_check d validation_layers)
  then ret (false, vk)
  else
    let enabled := if enable_validation_layers vk then validation_layers else [] in
    emit (vkCreateInstance enabled (drv_instance d));;
    match drv_instance d with
    | None => ret (false, vk)
    | Some h => ret (true, set_instance h vk)
    end.

(** [main.c:201-212]. *)
Definition vulkan_surface_create (d : driver) (vk : vulkan) : M (bool * vulkan) :=
  emit (glfwCreateWindowSurface (instance vk) (window vk) (drv_surface d));;
  match drv_surface d with
  | None => ret (false, vk)
  | Some h => ret (true, set_surface h vk)
  end.

(** [main.c:216-237]. *)
Definition vulkan_physicaldevice_find (d : driver) (vk : vulkan)
    : M (bool * vulkan) :=
  match enumerate_physicaldevices d with
  | None => ret (false, vk)
  | Some devices => ret (true, set_physicaldevice (at_index devices 0) vk)
  end.

(** The loop shape [for (i = 0; i < n; i++) if (p(a[i])) { idx = i; break; }]:
    the first index from [i] on at which [p] holds. *)
Fixpoint scan_first {A} (p : A → bool) (a : list A) (i : Z) : option Z :=
  match a with
  | [] => None
  | x :: a' => if p x then Some i else scan_first p a' (i + 1)
  end.

Definition has_graphics (q : queuefamily) : bool :=
  negb (Z.land (queueFlags q) VK_QUEUE_GRAPHICS_BIT =? 0).

Definition has_present (q : queuefamily) : bool :=
  present_support q =? VK_TRUE.

(** [main.c:241-283]. *)
Definition vulkan_queuefamily_find (d : driver) (vk : vulkan)
    : M (bool * vulkan) :=
  match enumerate_queuefamilies d with
  | None => ret (false, vk)
  | Some queuefamilies =>
      let '(found_graphics_queuefamily, vk) :=
        match scan_first has_graphics queuefamilies 0 with
        | Some i => (true, set_graphics_queuefamily_index i vk)
        | None => (false, vk)
        end in
      let '(found_present_queuefamily, vk) :=
        match scan_first has_present queuefamilies 0 with
        | Some i => (true, set_present_queuefamily_index i vk)
        | None => (false, vk)
        end in
      ret (found_graphics_queuefamily && found_present_queuefamily, vk)
  end.

(** ** Logical device *)

(** [main.c:290-314] and [main.c:349-363]: the descriptor handed to
    [vkCreateDevice]. *)
Definition device_create_info (vk : vulkan) : VkDeviceCreateInfo :=
  let queue_create_infos :=
    [ {| queueFamilyIndex := graphics_queuefamily_index vk; queueCount := 1 |};
      {| queueFamilyIndex := present_queuefamily_index vk; queueCount := 1 |} ] in
  let queue_create_infos_count := 2 in
  let queue_create_infos_count :=
    if graphics_queuefamily_index vk =? present_queuefamily_index vk
    then 1 else queue_create_infos_count in
  let device_extensions := [VK_KHR_SWAPCHAIN_EXTENSION_NAME] in
  {| pQueueCreateInfos := queue_create_infos;
     queueCreateInfoCount := queue_create_infos_count;
     ppEnabledExtensionNames := device_extensions;
     enabledExtensionCount := 1 |}.

(** [main.c:287-381]. *)
Definition vulkan_device_create (d : driver) (vk : vulkan) : M (bool * vulkan) :=
  match enumerate_device_extensions d with
  | None => ret (false, vk)
  | Some available_extensions =>
      let found_swapchain_extension :=
        existsb (λ name, String.eqb name VK_KHR_SWAPCHAIN_EXTENSION_NAME)
                available_extensions in
      if negb found_swapchain_extension then ret (false, vk)
      else
        emit (vkCreateDevice (physicaldevice vk) (device_create_info vk)
                             (drv_device d));;
        match drv_device d with
        | None => ret (false, vk)
        | Some h =>
            let vk := set_device h vk in
            let vk := set_graphics_queue
                        (drv_queue d (graphics_queuefamily_index vk)) vk in
            let vk := set_present_queue
                        (drv_queue d (present_queuefamily_index vk)) vk in
            ret (true, vk)
        end
  end.

(** ** Swapchain *)

Definition is_wanted_format (f : VkSurfaceFormatKHR) : bool :=
  (format f =? VK_FORMAT_B8G8R8A8_SRGB)
  && (colorSpace f =? VK_COLOR_SPACE_SRGB_NONLINEAR_KHR).

(** [main.c:453-479]: the swap extent.  [fb_width] and [fb_height] are the
    two [int]s that [glfwGetFramebufferSize] stores. *)
Definition swapchain_image_extent (surface_capabilities : VkSurfaceCapabilitiesKHR)
    (fb_width fb_height : Z) : VkExtent2D :=
  if negb (width (currentExtent surface_capabilities) =? UINT32_MAX) then
    currentExtent surface_capabilities
  else
    let min := width (minImageExtent surface_capabilities) in
    let max := width (maxImageExtent surface_capabilities) in
    let image_extent_width := to_uint32 fb_width in
    let image_extent_width :=
      if image_extent_width <? min then min
      else if image_extent_width >? max then max
      else image_extent_width in
    let min := height (minImageExtent surface_capabilities) in
    let max := height (maxImageExtent surface_capabilities) in
    let image_extent_height := to_uint32 fb_height in
    let image_extent_height :=
      if image_extent_height <? min then min
      else if image_extent_height >? min then max
      else image_extent_height in
    Extent2D image_extent_width image_extent_height.

(** [main.c:481-496]: the requested image count, [None] where the
    function reports that the minimum is too high and returns [false]. *)
Definition swapchain_image_count (surface_capabilities : VkSurfaceCapabilitiesKHR)
    : option Z :=
  if minImageCount surface_capabilities >? MAX_SWAPCHAIN_IMAGES then None
  else
    let image_count := to_uint32 (minImageCount surface_capabilities + 1) in
    let image_count :=
      if (maxImageCount surface_capabilities >? 0)
         && (image_count >? maxImageCount surface_capabilities)
      then maxImageCount surface_capabilities else image_count in
    let image_count :=
      if image_count >? MAX_SWAPCHAIN_IMAGES then MAX_SWAPCHAIN_IMAGES
      else image_count in
    Some image_count.

(** [main.c:498-531]: the descriptor handed to [vkCreateSwapchainKHR]. *)
Definition swapchain_create_info (vk : vulkan)
    (surface_capabilities : VkSurfaceCapabilitiesKHR)
    (surface_format : VkSurfaceFormatKHR) (image_extent : VkExtent2D)
    (image_count : Z) : VkSwapchainCreateInfoKHR :=
  let queue_family_indices :=
    [graphics_queuefamily_index vk; present_queuefamily_index vk] in
  let queue_family_indices_count := 2 in
  let queue_family_indices_count :=
    if graphics_queuefamily_index vk =? present_queuefamily_index vk
    then 1 else queue_family_indices_count in
  let concurrent := queue_family_indices_count >? 1 in
  {| sci_surface := surface vk;
     sci_minImageCount := image_count;
     imageFormat := format surface_format;
     imageColorSpace := colorSpace surface_format;
     imageExtent := image_extent;
     imageArrayLayers := 1;
     imageSharingMode :=
       if concurrent then VK_SHARING_MODE_CONCURRENT
       else VK_SHARING_MODE_EXCLUSIVE;
     queueFamilyIndexCount := if concurrent then queue_family_indices_count else 0;
     pQueueFamilyIndices := if concurrent then Some queue_family_indices else None;
     preTransform := currentTransform surface_capabilities;
     presentMode := VK_PRESENT_MODE_FIFO_KHR;
     clipped := VK_TRUE;
     oldSwapchain := swapchain vk |}.

(** [main.c:385-554]. *)
Definition vulkan_swapchain_create (d : driver) (vk : vulkan) : M (bool * vulkan) :=
  match enumerate_surface_formats d with
  | None => ret (false, vk)
  | Some surface_formats =>
  match enumerate_present_modes d with
  | None => ret (false, vk)
  | Some present_modes =>
  let surface_capabilities := drv_capabilities d in
  match find is_wanted_format surface_formats with
  | None => ret (false, vk)
  | Some surface_format =>
  let image_extent :=
    swapchain_image_extent surface_capabilities
      (fst (drv_framebuffer_size d)) (snd (drv_framebuffer_size d)) in
  match swapchain_image_count surface_capabilities with
  | None => ret (false, vk)
  | Some image_count =>
  let create_info :=
    swapchain_create_info vk surface_capabilities surface_format
                          image_extent image_count in
  emit (vkCreateSwapchainKHR (device vk) create_info (drv_swapchain d));;
  match drv_swapchain d with
  | None => ret (false, vk)
  | Some h =>
      let vk := set_swapchain h vk in
      (* vkGetSwapchainImagesKHR(&image_count, vulkan->swapchain_images) *)
      let images := vk_fill image_count (drv_swapchain_images d) in
      let image_count := vk_count images in
      let vk := set_swapchain_images
                  (images ++ drop (length images) (swapchain_images vk)) vk in
      let vk := set_swapchain_images_count image_count vk in
      let vk := set_swapchain_image_format (format surface_format) vk in
      let vk := set_swapchain_extent image_extent vk in
      ret (true, vk)
  end end end end end.

(** ** Image views, render pass *)

(** The loop of [main.c:559-593] over the indices still to visit. *)
Fixpoint imageviews_loop (d : driver) (todo : list nat) (vk : vulkan)
    : M (bool * vulkan) :=
  match todo with
  | [] => ret (true, vk)
  | i :: todo' =>
      emit (vkCreateImageView (device vk) (at_index (swapchain_images vk) i)
                              (swapchain_image_format vk) (drv_imageview d i));;
      match drv_imageview d i with
      | None => ret (false, vk)
      | Some h =>
          imageviews_loop d todo'
            (set_swapchain_imageviews (<[i:=h]> (swapchain_imageviews vk)) vk)
      end
  end.

(** [main.c:558-597]. *)
Definition vulkan_imageviews_create (d : driver) (vk : vulkan)
    : M (bool * vulkan) :=
  let* (ok, vk) :=
    imageviews_loop d (seq 0 (Z.to_nat (swapchain_images_count vk))) vk in
  if ok then
    ret (true, set_swapchain_imageviews_count (swapchain_images_count vk) vk)
  else ret (false, vk).

(** [main.c:605-625].  [shader_module] is the out-parameter, passed in
    and returned; the driver decides on the bytes at [code]. *)
Definition vulkan_shadermodule_create (d : driver) (vk : vulkan) (code : ptr)
    (code_size : Z) (shader_module : handle) : M (bool * handle) :=
  let* h := get_heap in
  let r := drv_shadermodule d (default [] (h !! code)) in
  emit (vkCreateShaderModule (device vk) code code_size r);;
  match r with
  | None => ret (false, shader_module)
  | Some m => ret (true, m)
  end.

(** [main.c:629-679]. *)
Definition vulkan_renderpass_create (d : driver) (vk : vulkan) : M (bool * vulkan) :=
  emit (vkCreateRenderPass (device vk) (swapchain_image_format vk)
                           (drv_renderpass d));;
  match drv_renderpass d with
  | None => ret (false, vk)
  | Some h => ret (true, set_render_pass h vk)
  end.

(** ** Graphics pipeline *)

(** [main.c:890-896], the [cleanup:] label of
    [vulkan_graphicspipeline_create]. *)
Definition graphicspipeline_cleanup (vk : vulkan) (success : bool)
    (vertex_shader_code fragment_shader_code : ptr)
    (vertex_shadermodule fragment_shadermodule : handle) : K (bool * vulkan) :=
  emit (vkDestroyShaderModule (device vk) fragment_shadermodule);;
  emit (vkDestroyShaderModule (device vk) vertex_shadermodule);;
  c_free fragment_shader_code;;
  c_free vertex_shader_code;;
  ret (Some (success, vk)).

(** [main.c:683-897].  Every [goto cleanup] is a call of
    [graphicspipeline_cleanup] with the locals as they stand; the
    [return false] of [main.c:885] returns directly.  The process can be
    killed in either [file_read]. *)
Definition vulkan_graphicspipeline_create (d : driver) (vk : vulkan)
    : K (bool * vulkan) :=
  let success := false in
  let vertex_shader_code := nullptr in
  let fragment_shader_code := nullptr in
  let vertex_shadermodule := VK_NULL_HANDLE in
  let fragment_shadermodule := VK_NULL_HANDLE in
  let? (ok, (vertex_shader_code, vertex_shader_code_size)) :=
    file_read (drv_libc d) "./shaders/vertex.spv" vertex_shader_code 0 in
  if negb ok then
    graphicspipeline_cleanup vk success vertex_shader_code fragment_shader_code
                             vertex_shadermodule fragment_shadermodule
  else
  let? (ok, (fragment_shader_code, fragment_shader_code_size)) :=
    file_read (drv_libc d) "./shaders/fragment.spv" fragment_shader_code 0 in
  if negb ok then
    graphicspipeline_cleanup vk success vertex_shader_code fragment_shader_code
                             vertex_shadermodule fragment_shadermodule
  else
  let* (ok, vertex_shadermodule) :=
    vulkan_shadermodule_create d vk vertex_shader_code vertex_shader_code_size
                               vertex_shadermodule in
  if negb ok then
    graphicspipeline_cleanup vk success vertex_shader_code fragment_shader_code
                             vertex_shadermodule fragment_shadermodule
  else
  let* (ok, fragment_shadermodule) :=
    vulkan_shadermodule_create d vk fragment_shader_code
                               fragment_shader_code_size fragment_shadermodule in
  if negb ok then
    graphicspipeline_cleanup vk success vertex_shader_code fragment_shader_code
                             vertex_shadermodule fragment_shadermodule
  else
  emit (vkCreatePipelineLayout (device vk) (drv_pipeline_layout d));;
  match drv_pipeline_layout d with
  | None =>
    graphicspipeline_cleanup vk success vertex_shader_code fragment_shader_code
                             vertex_shadermodule fragment_shadermodule
  | Some layout =>
  let vk := set_pipeline_layout layout vk in
  emit (vkCreateGraphicsPipelines (device vk) vertex_shadermodule
          fragment_shadermodule (pipeline_layout vk) (render_pass vk)
          (drv_pipeline d));;
  match drv_pipeline d with
  | None => ret (Some (false, vk))
  | Some pipeline =>
  let vk := set_graphics_pipeline pipeline vk in
  let success := true in
  graphicspipeline_cleanup vk success vertex_shader_code fragment_shader_code
                           vertex_shadermodule fragment_shadermodule
  end end.

(** ** Framebuffers, command pool, command buffer *)

(** The loop of [main.c:902-923] over the indices still to visit. *)
Fixpoint framebuffers_loop (d : driver) (todo : list nat) (vk : vulkan)
    : M (bool * vulkan) :=
  match todo with
  | [] => ret (true, vk)
  | i :: todo' =>
      emit (vkCreateFramebuffer (device vk) (render_pass vk)
              (at_index (swapchain_imageviews vk) i) (swapchain_extent vk)
              (drv_framebuffer d i));;
      match drv_framebuffer d i with
      | None => ret (false, vk)
      | Some h =>
          framebuffers_loop d todo'
            (set_swapchain_framebuffers (<[i:=h]> (swapchain_framebuffers vk)) vk)
      end
  end.

(** [main.c:901-927]. *)
Definition vulkan_framebuffers_create (d : driver) (vk : vulkan)
    : M (bool * vulkan) :=
  let* (ok, vk) :=
    framebuffers_loop d (seq 0 (Z.to_nat (swapchain_imageviews_count vk))) vk in
  if ok then
    ret (true, set_swapchain_framebuffers_count (swapchain_imageviews_count vk) vk)
  else ret (false, vk).

(** [main.c:931-946]. *)
Definition vulkan_commandpool_create (d : driver) (vk : vulkan)
    : M (bool * vulkan) :=
  emit (vkCreateCommandPool (device vk) (graphics_queuefamily_index vk)
                            (drv_commandpool d));;
  match drv_commandpool d with
  | None => ret (false, vk)
  | Some h => ret (true, set_command_pool h vk)
  end.

(** [main.c:950-966]. *)
Definition vulkan_commandbuffer_allocate (d : driver) (vk : vulkan)
    : M (bool * vulkan) :=
  emit (vkAllocateCommandBuffers (device vk) (command_pool vk)
                                 (drv_commandbuffer d));;
  match drv_commandbuffer d with
  | None => ret (false, vk)
  | Some h => ret (true, set_command_buffer h vk)
  end.

(** ** Synchronisation objects *)

(** [main.c:1044-1091]. *)
Definition vulkan_synchronizationobjects_create (d : driver) (vk : vulkan)
    : M (bool * vulkan) :=
  emit (vkCreateSemaphore (device vk) (drv_image_available d));;
  match drv_image_available d with
  | None => ret (false, vk)
  | Some h =>
  let vk := set_swapchain_image_available h vk in
  emit (vkCreateSemaphore (device vk) (drv_render_finished d));;
  match drv_render_finished d with
  | None => ret (false, vk)
  | Some h =>
  let vk := set_render_finished h vk in
  emit (vkCreateFence (device vk) true (drv_fence d));;
  match drv_fence d with
  | None => ret (false, vk)
  | Some h => ret (true, set_frame_in_flight h vk)
  end end end.

(** ** Initialisation *)

(** [if (!stage(vulkan)) return false;] followed by the rest. *)
Definition stage_then (stage : K (bool * vulkan))
    (rest : vulkan → K (bool * vulkan)) : K (bool * vulkan) :=
  let? (ok, vk) := stage in
  if ok then rest vk else ret (Some (false, vk)).

(** [main.c:1164-1231]. *)
Definition vulkan_init (d : driver) (vk : vulkan) : K (bool * vulkan) :=
  stage_then (returns (vulkan_instance_create d vk)) (λ vk,
  stage_then (returns (vulkan_surface_create d vk)) (λ vk,
  stage_then (returns (vulkan_physicaldevice_find d vk)) (λ vk,
  stage_then (returns (vulkan_queuefamily_find d vk)) (λ vk,
  stage_then (returns (vulkan_device_create d vk)) (λ vk,
  stage_then (returns (vulkan_swapchain_create d vk)) (λ vk,
  stage_then (returns (vulkan_imageviews_create d vk)) (λ vk,
  stage_then (returns (vulkan_renderpass_create d vk)) (λ vk,
  stage_then (vulkan_graphicspipeline_create d vk) (λ vk,
  stage_then (returns (vulkan_framebuffers_create d vk)) (λ vk,
  stage_then (returns (vulkan_commandpool_create d vk)) (λ vk,
  stage_then (returns (vulkan_commandbuffer_allocate d vk)) (λ vk,
  stage_then (returns (vulkan_synchronizationobjects_create d vk)) (λ vk,
  ret (Some (true, vk))))))))))))))).

(** ** One frame *)

(** What the driver answers during one frame.  [fd_acquire] is the image
    index when [vkAcquireNextImageKHR] returns [VK_SUCCESS]. *)
Record frame_driver : Type := {
  fd_acquire : option Z;
  fd_reset_ok : bool;
  fd_begin_ok : bool;
  fd_end_ok : bool;
  fd_submit_ok : bool;
  fd_present_ok : bool;
}.

(** [main.c:972-1040].  The viewport's [float] width and height are kept
    as the extent they are converted from. *)
Definition vulkan_commandbuffer_record (fd : frame_driver) (vk : vulkan)
    (command_buffer : handle) (framebuffer_index : Z) : M bool :=
  emit (vkBeginCommandBuffer command_buffer);;
  if negb (fd_begin_ok fd) then ret false
  else
    emit (vkCmdBeginRenderPass command_buffer (render_pass vk)
            (at_index (swapchain_framebuffers vk) (Z.to_nat framebuffer_index))
            (swapchain_extent vk));;
    emit (vkCmdBindPipeline command_buffer (graphics_pipeline vk));;
    emit (vkCmdSetViewport command_buffer (swapchain_extent vk));;
    emit (vkCmdSetScissor command_buffer (swapchain_extent vk));;
    emit (vkCmdDraw command_buffer 3 1 0 0);;
    emit (vkCmdEndRenderPass command_buffer);;
    emit (vkEndCommandBuffer command_buffer);;
    if negb (fd_end_ok fd) then ret false else ret true.

(** [main.c:1095-1160]. *)
Definition vulkan_frame_draw (fd : frame_driver) (vk : vulkan) : M bool :=
  emit (vkWaitForFences (device vk) (frame_in_flight vk) true UINT32_MAX);;
  emit (vkResetFences (device vk) (frame_in_flight vk));;
  emit (vkAcquireNextImageKHR (device vk) (swapchain vk) UINT32_MAX
          (swapchain_image_available vk) VK_NULL_HANDLE);;
  match fd_acquire fd with
  | None => ret false
  | Some swapchain_image_index =>
  emit (vkResetCommandBuffer (command_buffer vk));;
  if negb (fd_reset_ok fd) then ret false
  else
  let* recorded :=
    vulkan_commandbuffer_record fd vk (command_buffer vk) swapchain_image_index in
  if negb recorded then ret false
  else
  emit (vkQueueSubmit (graphics_queue vk) (swapchain_image_available vk)
          (command_buffer vk) (render_finished vk) (frame_in_flight vk));;
  if negb (fd_submit_ok fd) then ret false
  else
  emit (vkQueuePresentKHR (present_queue vk) (render_finished vk)
          (swapchain vk) swapchain_image_index);;
  if negb (fd_present_ok fd) then ret false
  else ret true
  end.

(** ** The application *)

Record application_config : Type := {
  cfg_title : string;
  cfg_width : Z;
  cfg_height : Z;
  cfg_debug : bool;
}.

Record application : Type := Application {
  app_window : handle;
  app_vulkan : vulkan;
}.

(** [main.c:1252-1287]. *)
Definition application_create (d : driver) (config : application_config)
    (app : application) : K (bool * application) :=
  emit (glfwInit (drv_glfw_init d));;
  if negb (drv_glfw_init d) then ret (Some (false, app))
  else
    emit (glfwCreateWindow (cfg_width config) (cfg_height config)
                           (cfg_title config) (drv_window d));;
    if decide (drv_window d = nullptr) then ret (Some (false, app))
    else
      let win := drv_window d in
      let vk := set_window win (app_vulkan app) in
      let vk := set_application_name (cfg_title config) vk in
      let vk := set_enable_validation_layers (cfg_debug config) vk in
      let? (ok, vk) := vulkan_init d vk in
      ret (Some (ok, Application win vk)).

(** The loop shape [for (i = 0; i < n; i++) destroy(a[i]);]. *)
Fixpoint destroy_each (destroy : handle → call) (a : list handle)
    (todo : list nat) : M unit :=
  match todo with
  | [] => ret tt
  | i :: todo' => emit (destroy (at_index a i));; destroy_each destroy a todo'
  end.

(** [main.c:1291-1313]. *)
Definition application_destroy (app : application) : M unit :=
  let vk := app_vulkan app in
  emit (vkDestroySemaphore (device vk) (swapchain_image_available vk));;
  emit (vkDestroySemaphore (device vk) (render_finished vk));;
  emit (vkDestroyFence (device vk) (frame_in_flight vk));;
  emit (vkDestroyCommandPool (device vk) (command_pool vk));;
  destroy_each (vkDestroyFramebuffer (device vk)) (swapchain_framebuffers vk)
    (seq 0 (Z.to_nat (swapchain_framebuffers_count vk)));;
  emit (vkDestroyPipeline (device vk) (graphics_pipeline vk));;
  emit (vkDestroyPipelineLayout (device vk) (pipeline_layout vk));;
  emit (vkDestroyRenderPass (device vk) (render_pass vk));;
  destroy_each (vkDestroyImageView (device vk)) (swapchain_imageviews vk)
    (seq 0 (Z.to_nat (swapchain_imageviews_count vk)));;
  emit (vkDestroySwapchainKHR (device vk) (swapchain vk));;
  emit (vkDestroyDevice (device vk));;
  emit (vkDestroySurfaceKHR (instance vk) (surface vk));;
  emit (vkDestroyInstance (instance vk));;
  emit (glfwDestroyWindow (app_window app));;
  emit glfwTerminate.

(** [main.c:1317-1327].  [frames] lists the driver's answers for the
    iterations that run before [glfwWindowShouldClose] becomes true. *)
Fixpoint application_mainloop (frames : list frame_driver) (app : application)
    : M bool :=
  match frames with
  | [] => ret true
  | fd :: frames' =>
      emit glfwPollEvents;;
      vulkan_frame_draw fd (app_vulkan app);;
      application_mainloop frames' app
  end.

Definition EXIT_SUCCESS : Z := 0.
Definition EXIT_FAILURE : Z := 1.

(** [main.c:1332-1338]: the zero-initialised application and the fixed
    configuration. *)
Definition application_zero : application := Application 0%N vulkan_zero.
Definition main_config : application_config :=
  {| cfg_title := "Vulkan test"; cfg_width := 1280; cfg_height := 720;
     cfg_debug := true |}.

(** [main.c:1329-1356].  The result is the exit status, or [None] when
    the process is killed before [main] returns. *)
Definition main (d : driver) (frames : list frame_driver) : K Z :=
  let application := application_zero in
  let config := main_config in
  let? (ok, application) := application_create d config application in
  if negb ok then application_destroy application;; ret (Some EXIT_FAILURE)
  else
    let* ok := application_mainloop frames application in
    if negb ok then application_destroy application;; ret (Some EXIT_FAILURE)
    else application_destroy application;; ret (Some EXIT_SUCCESS).

(** ** Concrete drivers used as test inputs *)

Definition shader_bytes : list Byte.byte :=
  [Byte.x03; Byte.x02; Byte.x23; Byte.x07].

Definition good_file (data : list Byte.byte) : file :=
  {| file_data := data; fseek_ok := true; ftell_ok := true; fread_ok := true |}.

Definition good_libc : libc :=
  {| fs := λ name,
       if String.eqb name "./shaders/vertex.spv" then
         Some (good_file shader_bytes)
       else if String.eqb name "./shaders/fragment.spv" then
         Some (good_file (shader_bytes ++ shader_bytes))
       else None;
     malloc_ok := λ _ _, true |}.

(** A libc whose files open and cannot be read. *)
Definition unreadable_libc : libc :=
  {| fs := λ _, Some {| file_data := shader_bytes; fseek_ok := true;
                        ftell_ok := true; fread_ok := false |};
     malloc_ok := λ _ _, true |}.

(** A libc that has the vertex shader and no other file, and one that
    has no file at all. *)
Definition vertex_only_libc : libc :=
  {| fs := λ name,
       if String.eqb name "./shaders/vertex.spv" then
         Some (good_file shader_bytes)
       else None;
     malloc_ok := λ _ _, true |}.


Definition undefined_extent : VkExtent2D := Extent2D UINT32_MAX UINT32_MAX.

Definition good_capabilities : VkSurfaceCapabilitiesKHR :=
  {| minImageCount := 2; maxImageCount := 0;
     currentExtent := undefined_extent;
     minImageExtent := Extent2D 1 1;
     maxImageExtent := Extent2D 4096 4096;
     currentTransform := 1 |}.

(** A well-behaved adapter, up to the enumerated devices and queue
    families and the answers to the two pipeline creation calls. *)
Definition test_driver (devices : list handle) (families : list queuefamily)
    (layout pipeline : option handle) : driver :=
  {| drv_libc := good_libc;
     drv_glfw_init := true;
     drv_window := 1%N;
     drv_layers := [VK_LAYER_KHRONOS_validation];
     drv_instance := Some 2%N;
     drv_surface := Some 3%N;
     drv_devices := devices;
     drv_queuefamilies := families;
     drv_extensions := [VK_KHR_SWAPCHAIN_EXTENSION_NAME];
     drv_device := Some 5%N;
     drv_queue := λ family, Z.to_N (6 + family);
     drv_surface_formats := [SurfaceFormat 50 0];
     drv_present_modes := [VK_PRESENT_MODE_FIFO_KHR];
     drv_capabilities := good_capabilities;
     drv_framebuffer_size := (1280, 720);
     drv_swapchain := Some 10%N;
     drv_swapchain_images := [11%N; 12%N; 13%N];
     drv_imageview := λ i, Some (20 + N.of_nat i)%N;
     drv_renderpass := Some 30%N;
     drv_shadermodule := λ code, Some (40 + N.of_nat (length code))%N;
     drv_pipeline_layout := layout;
     drv_pipeline := pipeline;
     drv_framebuffer := λ i, Some (60 + N.of_nat i)%N;
     drv_commandpool := Some 70%N;
     drv_commandbuffer := Some 71%N;
     drv_image_available := Some 80%N;
     drv_render_finished := Some 81%N;
     drv_fence := Some 82%N |}.

(** One queue family that draws and presents; every creation succeeds. *)
Definition good_driver : driver :=
  test_driver [4%N] [QueueFamily 1 1] (Some 50%N) (Some 51%N).

(** The same adapter, except that [vkCreatePipelineLayout] fails. *)
Definition layout_failing_driver : driver :=
  test_driver [4%N] [QueueFamily 1 1] None (Some 51%N).

(** The same adapter, except that [vkCreateGraphicsPipelines] fails. *)
Definition pipeline_failing_driver : driver :=
  test_driver [4%N] [QueueFamily 1 1] (Some 50%N) None.

(** The same adapter, except that it enumerates no physical device. *)
Definition no_device_driver : driver :=
  test_driver [] [QueueFamily 1 1] (Some 50%N) (Some 51%N).

Definition good_frame : frame_driver :=
  {| fd_acquire := Some 0; fd_reset_ok := true; fd_begin_ok := true;
     fd_end_ok := true; fd_submit_ok := true; fd_present_ok := true |}.

(** Capabilities that differ from [good_capabilities] in the two image
    counts only. *)
Definition capabilities_with_counts (m M : Z) : VkSurfaceCapabilitiesKHR :=
  {| minImageCount := m; maxImageCount := M;
     currentExtent := currentExtent good_capabilities;
     minImageExtent := minImageExtent good_capabilities;
     maxImageExtent := maxImageExtent good_capabilities;
     currentTransform := currentTransform good_capabilities |}.

(** [struct vulkan] with the two queue family indices set. *)
Definition vulkan_with_families (graphics present : Z) : vulkan :=
  set_present_queuefamily_index present
    (set_graphics_queuefamily_index graphics vulkan_zero).

(** An adapter whose every enumerated list has 257 entries. *)
Definition oversized_driver : driver :=
  {| drv_libc := good_libc;
     drv_glfw_init := true;
     drv_window := 1%N;
     drv_layers := replicate 257 VK_LAYER_KHRONOS_validation;
     drv_instance := Some 2%N;
     drv_surface := Some 3%N;
     drv_devices := replicate 257 4%N;
     drv_queuefamilies := replicate 257 (QueueFamily 1 1);
     drv_extensions := replicate 257 VK_KHR_SWAPCHAIN_EXTENSION_NAME;
     drv_device := Some 5%N;
     drv_queue := λ family, Z.to_N (6 + family);
     drv_surface_formats := replicate 257 (SurfaceFormat 50 0);
     drv_present_modes := replicate 257 VK_PRESENT_MODE_FIFO_KHR;
     drv_capabilities := good_capabilities;
     drv_framebuffer_size := (1280, 720);
     drv_swapchain := Some 10%N;
     drv_swapchain_images := [11%N; 12%N; 13%N];
     drv_imageview := λ i, Some (20 + N.of_nat i)%N;
     drv_renderpass := Some 30%N;
     drv_shadermodule := λ code, Some (40 + N.of_nat (length code))%N;
     drv_pipeline_layout := Some 50%N;
     drv_pipeline := Some 51%N;
     drv_framebuffer := λ i, Some (60 + N.of_nat i)%N;
     drv_commandpool := Some 70%N;
     drv_commandbuffer := Some 71%N;
     drv_image_available := Some 80%N;
     drv_render_finished := Some 81%N;
     drv_fence := Some 82%N |}.

(** An adapter whose family 0 only draws and whose family 1 only
    presents. *)
Definition split_families_driver : driver :=
  test_driver [4%N] [QueueFamily 1 0; QueueFamily 0 1] (Some 50%N) (Some 51%N).

(** A driver with one answer replaced. *)
Definition with_libc (x : libc) (d : driver) : driver :=
  let 'Build_driver v0 v1 v2 v3 v4 v5 v6 v7 v8 v9 v10 v11 v12 v13 v14 v15
    v16 v17 v18 v19 v20 v21 v22 v23 v24 v25 v26 v27 := d in Build_driver x
    v1 v2 v3 v4 v5 v6 v7 v8 v9 v10 v11 v12 v13 v14 v15 v16 v17 v18 v19 v20
    v21 v22 v23 v24 v25 v26 v27.
Definition with_extensions (x : list string) (d : driver) : driver :=
  let 'Build_driver v0 v1 v2 v3 v4 v5 v6 v7 v8 v9 v10 v11 v12 v13 v14 v15
    v16 v17 v18 v19 v20 v21 v22 v23 v24 v25 v26 v27 := d in Build_driver v0
    v1 v2 v3 v4 v5 v6 v7 x v9 v10 v11 v12 v13 v14 v15 v16 v17 v18 v19 v20
    v21 v22 v23 v24 v25 v26 v27.
Definition with_surface_formats (x : list VkSurfaceFormatKHR) (d : driver) : driver :=
  let 'Build_driver v0 v1 v2 v3 v4 v5 v6 v7 v8 v9 v10 v11 v12 v13 v14 v15
    v16 v17 v18 v19 v20 v21 v22 v23 v24 v25 v26 v27 := d in Build_driver v0
    v1 v2 v3 v4 v5 v6 v7 v8 v9 v10 x v12 v13 v14 v15 v16 v17 v18 v19 v20 v21
    v22 v23 v24 v25 v26 v27.
Definition with_imageview (x : nat → option handle) (d : driver) : driver :=
  let 'Build_driver v0 v1 v2 v3 v4 v5 v6 v7 v8 v9 v10 v11 v12 v13 v14 v15
    v16 v17 v18 v19 v20 v21 v22 v23 v24 v25 v26 v27 := d in Build_driver v0
    v1 v2 v3 v4 v5 v6 v7 v8 v9 v10 v11 v12 v13 v14 v15 v16 x v18 v19 v20 v21
    v22 v23 v24 v25 v26 v27.
Definition with_framebuffer (x : nat → option handle) (d : driver) : driver :=
  let 'Build_driver v0 v1 v2 v3 v4 v5 v6 v7 v8 v9 v10 v11 v12 v13 v14 v15
    v16 v17 v18 v19 v20 v21 v22 v23 v24 v25 v26 v27 := d in Build_driver v0
    v1 v2 v3 v4 v5 v6 v7 v8 v9 v10 v11 v12 v13 v14 v15 v16 v17 v18 v19 v20
    v21 x v23 v24 v25 v26 v27.
Definition with_render_finished (x : option handle) (d : driver) : driver :=
  let 'Build_driver v0 v1 v2 v3 v4 v5 v6 v7 v8 v9 v10 v11 v12 v13 v14 v15
    v16 v17 v18 v19 v20 v21 v22 v23 v24 v25 v26 v27 := d in Build_driver v0
    v1 v2 v3 v4 v5 v6 v7 v8 v9 v10 v11 v12 v13 v14 v15 v16 v17 v18 v19 v20
    v21 v22 v23 v24 v25 x v27.

(** The well-behaved adapter, except that the driver refuses the image
    view (respectively the framebuffer) for slot 1. *)
Definition second_view_failing_driver : driver :=
  with_imageview (λ i, if decide (i = 1%nat) then None
                       else Some (20 + N.of_nat i)%N) good_driver.

Definition second_framebuffer_failing_driver : driver :=
  with_framebuffer (λ i, if decide (i = 1%nat) then None
                         else Some (60 + N.of_nat i)%N) good_driver.

(** The well-behaved adapter on a machine where the fragment shader file
    is missing, and on one where both shader files are. *)
Definition missing_fragment_driver : driver :=
  with_libc vertex_only_libc good_driver.


(** The well-behaved adapter, except that it offers the R8G8B8A8 sRGB
    format and the wanted format in another colour space only. *)
Definition other_formats_driver : driver :=
  with_surface_formats [SurfaceFormat 43 0; SurfaceFormat 50 1] good_driver.

(** [struct vulkan] as it stands after the swapchain step at the
    well-behaved adapter, and after the image-view step. *)
Definition vulkan_after_swapchain : vulkan :=
  (result (vulkan_swapchain_create good_driver
             (set_device 5%N vulkan_zero) ∅)).2.

Definition vulkan_after_imageviews : vulkan :=
  (result (vulkan_imageviews_create good_driver vulkan_after_swapchain ∅)).2.

(** ** Notions used to state the properties *)

(** [i] is the first index of [a] at which [p] holds. *)
Definition first_index {A} (p : A → bool) (a : list A) (i : Z) : Prop :=
  0 ≤ i
  ∧ (∃ x, a !! Z.to_nat i = Some x ∧ p x = true)
  ∧ ∀ (j : nat) x, (j < Z.to_nat i)%nat → a !! j = Some x → p x = false.

(** Clamping [x] into [[lo, hi]], the way the width axis does it. *)
Definition clamp (lo hi x : Z) : Z :=
  if x <? lo then lo else if x >? hi then hi else x.

(** The calls that free block [p], and those that destroy shader module
    [m]. *)
Definition is_free (p : ptr) (c : call) : bool :=
  match c with free q => bool_decide (q = p) | _ => false end.

Definition is_destroy_shadermodule (m : handle) (c : call) : bool :=
  match c with vkDestroyShaderModule _ q => bool_decide (q = m) | _ => false end.

Definition count_calls (p : call → bool) (l : list call) : nat :=
  length (List.filter p l).

(** The blocks [malloc] handed out and the shader modules the driver
    created, in call order. *)
Definition allocated_blocks (l : list call) : list ptr :=
  omap (λ c, match c with
             | malloc _ p => if decide (p = nullptr) then None else Some p
             | _ => None
             end) l.

Definition created_shadermodules (l : list call) : list handle :=
  omap (λ c, match c with
             | vkCreateShaderModule _ _ _ (Some m) => Some m
             | _ => None
             end) l.

(** The non-null blocks passed to [free] and the non-null shader modules
    passed to [vkDestroyShaderModule], in call order. *)
Definition freed_blocks (l : list call) : list ptr :=
  omap (λ c, match c with
             | free p => if decide (p = nullptr) then None else Some p
             | _ => None
             end) l.

Definition destroyed_shadermodules (l : list call) : list handle :=
  omap (λ c, match c with
             | vkDestroyShaderModule _ m =>
                 if decide (m = VK_NULL_HANDLE) then None else Some m
             | _ => None
             end) l.

(** The log records a failed [vkCreateGraphicsPipelines]. *)
Definition pipeline_creation_failed (l : list call) : Prop :=
  ∃ dev vert frag layout pass,
    vkCreateGraphicsPipelines dev vert frag layout pass None ∈ l.

(** The log records a failed [fopen]. *)
Definition fopen_failed (l : list call) : Prop :=
  ∃ filename, fopen filename false ∈ l.

(** The steps of one frame, and the step each per-frame call belongs to. *)
Inductive frame_step : Type :=
  | FenceWait | FenceReset | ImageAcquire | Record | Submit | Present.

Definition step_of (c : call) : option frame_step :=
  match c with
  | vkWaitForFences _ _ _ _ => Some FenceWait
  | vkResetFences _ _ => Some FenceReset
  | vkAcquireNextImageKHR _ _ _ _ _ => Some ImageAcquire
  | vkResetCommandBuffer _ | vkBeginCommandBuffer _
  | vkCmdBeginRenderPass _ _ _ _ | vkCmdBindPipeline _ _
  | vkCmdSetViewport _ _ | vkCmdSetScissor _ _ | vkCmdDraw _ _ _ _ _
  | vkCmdEndRenderPass _ | vkEndCommandBuffer _ => Some Record
  | vkQueueSubmit _ _ _ _ _ => Some Submit
  | vkQueuePresentKHR _ _ _ _ => Some Present
  | _ => None
  end.

(** The calls of a frame in which nothing fails and image [i] is
    acquired. *)
Definition frame_sequence (vk : vulkan) (i : Z) : list call :=
  [ vkWaitForFences (device vk) (frame_in_flight vk) true UINT32_MAX;
    vkResetFences (device vk) (frame_in_flight vk);
    vkAcquireNextImageKHR (device vk) (swapchain vk) UINT32_MAX
      (swapchain_image_available vk) VK_NULL_HANDLE;
    vkResetCommandBuffer (command_buffer vk);
    vkBeginCommandBuffer (command_buffer vk);
    vkCmdBeginRenderPass (command_buffer vk) (render_pass vk)
      (at_index (swapchain_framebuffers vk) (Z.to_nat i)) (swapchain_extent vk);
    vkCmdBindPipeline (command_buffer vk) (graphics_pipeline vk);
    vkCmdSetViewport (command_buffer vk) (swapchain_extent vk);
    vkCmdSetScissor (command_buffer vk) (swapchain_extent vk);
    vkCmdDraw (command_buffer vk) 3 1 0 0;
    vkCmdEndRenderPass (command_buffer vk);
    vkEndCommandBuffer (command_buffer vk);
    vkQueueSubmit (graphics_queue vk) (swapchain_image_available vk)
      (command_buffer vk) (render_finished vk) (frame_in_flight vk);
    vkQueuePresentKHR (present_queue vk) (render_finished vk) (swapchain vk) i ].

(** Objects with a lifetime, named by kind and handle; the object a
    successful creation call brings into being and the object a
    destruction call names. *)
Inductive object_kind : Type :=
  | ObjWindow | ObjInstance | ObjSurface | ObjDevice | ObjSwapchain
  | ObjImageView | ObjRenderPass | ObjShaderModule | ObjPipelineLayout
  | ObjPipeline | ObjFramebuffer | ObjCommandPool | ObjCommandBuffer
  | ObjSemaphore | ObjFence.

Definition object : Type := object_kind * handle.

Definition created_by (c : call) : option object :=
  match c with
  | glfwCreateWindow _ _ _ r =>
      if decide (r = nullptr) then None else Some (ObjWindow, r)
  | vkCreateInstance _ (Some h) => Some (ObjInstance, h)
  | glfwCreateWindowSurface _ _ (Some h) => Some (ObjSurface, h)
  | vkCreateDevice _ _ (Some h) => Some (ObjDevice, h)
  | vkCreateSwapchainKHR _ _ (Some h) => Some (ObjSwapchain, h)
  | vkCreateImageView _ _ _ (Some h) => Some (ObjImageView, h)
  | vkCreateRenderPass _ _ (Some h) => Some (ObjRenderPass, h)
  | vkCreateShaderModule _ _ _ (Some h) => Some (ObjShaderModule, h)
  | vkCreatePipelineLayout _ (Some h) => Some (ObjPipelineLayout, h)
  | vkCreateGraphicsPipelines _ _ _ _ _ (Some h) => Some (ObjPipeline, h)
  | vkCreateFramebuffer _ _ _ _ (Some h) => Some (ObjFramebuffer, h)
  | vkCreateCommandPool _ _ (Some h) => Some (ObjCommandPool, h)
  | vkAllocateCommandBuffers _ _ (Some h) => Some (ObjCommandBuffer, h)
  | vkCreateSemaphore _ (Some h) => Some (ObjSemaphore, h)
  | vkCreateFence _ _ (Some h) => Some (ObjFence, h)
  | _ => None
  end.

Definition destroyed_by (c : call) : option object :=
  match c with
  | glfwDestroyWindow h => Some (ObjWindow, h)
  | vkDestroyInstance h => Some (ObjInstance, h)
  | vkDestroySurfaceKHR _ h => Some (ObjSurface, h)
  | vkDestroyDevice h => Some (ObjDevice, h)
  | vkDestroySwapchainKHR _ h => Some (ObjSwapchain, h)
  | vkDestroyImageView _ h => Some (ObjImageView, h)
  | vkDestroyRenderPass _ h => Some (ObjRenderPass, h)
  | vkDestroyShaderModule _ h => Some (ObjShaderModule, h)
  | vkDestroyPipelineLayout _ h => Some (ObjPipelineLayout, h)
  | vkDestroyPipeline _ h => Some (ObjPipeline, h)
  | vkDestroyFramebuffer _ h => Some (ObjFramebuffer, h)
  | vkDestroyCommandPool _ h => Some (ObjCommandPool, h)
  | vkDestroySemaphore _ h => Some (ObjSemaphore, h)
  | vkDestroyFence _ h => Some (ObjFence, h)
  | _ => None
  end.

(** Shader modules are gone before initialisation ends, and the command
    buffer is never released on its own (it goes with its pool); every
    other kind of object is left for the teardown. *)
Definition left_for_teardown (o : object) : bool :=
  match o.1 with
  | ObjShaderModule | ObjCommandBuffer => false
  | _ => true
  end.

Definition objects_created (l : list call) : list object :=
  List.filter left_for_teardown (omap created_by l).

Definition objects_destroyed (l : list call) : list object :=
  omap destroyed_by l.

(** The objects an initialised application holds, grouped by the
    initialisation step that created them, in creation order. *)
Definition teardown_groups (app : application) : list (list object) :=
  let vk := app_vulkan app in
  let each kind a n := (λ i, (kind, at_index a i)) <$> seq 0 (Z.to_nat n) in
  [ [(ObjWindow, app_window app)];
    [(ObjInstance, instance vk)];
    [(ObjSurface, surface vk)];
    [(ObjDevice, device vk)];
    [(ObjSwapchain, swapchain vk)];
    each ObjImageView (swapchain_imageviews vk) (swapchain_imageviews_count vk);
    [(ObjRenderPass, render_pass vk)];
    [(ObjPipelineLayout, pipeline_layout vk)];
    [(ObjPipeline, graphics_pipeline vk)];
    each ObjFramebuffer (swapchain_framebuffers vk)
         (swapchain_framebuffers_count vk);
    [(ObjCommandPool, command_pool vk)];
    [ (ObjSemaphore, swapchain_image_available vk);
      (ObjSemaphore, render_finished vk);
      (ObjFence, frame_in_flight vk) ] ].

(** A log in which every image acquisition comes directly after a wait on
    the in-flight fence and a reset of it. *)
Definition acquire_follows_fence (vk : vulkan) (log : list call) : Prop :=
  ∀ pre c post,
    log = pre ++ c :: post → step_of c = Some ImageAcquire →
    ∃ pre',
      pre = pre' ++ [ vkWaitForFences (device vk) (frame_in_flight vk) true
                        UINT32_MAX;
                      vkResetFences (device vk) (frame_in_flight vk) ].

(** The call the image-view loop makes for slot [i] ([main.c:560-585])
    and the one the framebuffer loop makes ([main.c:903-915]). *)
Definition imageview_call (d : driver) (vk : vulkan) (i : nat) : call :=
  vkCreateImageView (device vk) (at_index (swapchain_images vk) i)
    (swapchain_image_format vk) (drv_imageview d i).

Definition framebuffer_call (d : driver) (vk : vulkan) (views : list handle)
    (i : nat) : call :=
  vkCreateFramebuffer (device vk) (render_pass vk) (at_index views i)
    (swapchain_extent vk) (drv_framebuffer d i).

Definition is_poll (c : call) : bool :=
  match c with glfwPollEvents => true | _ => false end.

Definition is_fence_wait (c : call) : bool :=
  match c with vkWaitForFences _ _ _ _ => true | _ => false end.

(** The calls of [application_destroy] ([main.c:1294-1312]), in order. *)
Definition teardown_calls (app : application) : list call :=
  let vk := app_vulkan app in
  [ vkDestroySemaphore (device vk) (swapchain_image_available vk);
    vkDestroySemaphore (device vk) (render_finished vk);
    vkDestroyFence (device vk) (frame_in_flight vk);
    vkDestroyCommandPool (device vk) (command_pool vk) ]
  ++ ((λ i, vkDestroyFramebuffer (device vk)
              (at_index (swapchain_framebuffers vk) i))
      <$> seq 0 (Z.to_nat (swapchain_framebuffers_count vk)))
  ++ [ vkDestroyPipeline (device vk) (graphics_pipeline vk);
       vkDestroyPipelineLayout (device vk) (pipeline_layout vk);
       vkDestroyRenderPass (device vk) (render_pass vk) ]
  ++ ((λ i, vkDestroyImageView (device vk)
              (at_index (swapchain_imageviews vk) i))
      <$> seq 0 (Z.to_nat (swapchain_imageviews_count vk)))
  ++ [ vkDestroySwapchainKHR (device vk) (swapchain vk);
       vkDestroyDevice (device vk);
       vkDestroySurfaceKHR (instance vk) (surface vk);
       vkDestroyInstance (instance vk);
       glfwDestroyWindow (app_window app);
       glfwTerminate ].

(** [h'] is [h] with two more blocks allocated. *)
Definition two_blocks_leaked (h h' : heap) : Prop :=
  ∃ p1 p2 data1 data2,
    p1 ≠ p2 ∧ h !! p1 = None ∧ h !! p2 = None
    ∧ h' = <[p2:=data2]> (<[p1:=data1]> h).

(** [h'] is [h], or [h] with one more block allocated. *)
Definition at_most_one_block_leaked (h h' : heap) : Prop :=
  h' = h ∨ ∃ p data, h !! p = None ∧ h' = <[p:=data]> h.

(** What a computation did to the heap it started from, in the three
    ways it can end.  It returned, no [fopen] and no
    [vkCreateGraphicsPipelines] failed in it, and the heap is back to [h].
    Or it returned a failure after a [vkCreateGraphicsPipelines] failed,
    and two blocks are left allocated.  Or the process was killed in it:
    an [fopen] had failed, the last call is the [fclose] on the null
    stream, and at most one block is still allocated. *)
Definition heap_account {A} (failed : A → Prop)
    (r : option A * heap * list call) (h : heap) : Prop :=
  (is_Some (result r) ∧ ¬ fopen_failed (calls r)
   ∧ ¬ pipeline_creation_failed (calls r) ∧ heap_after r = h)
  ∨ ((∃ a, result r = Some a ∧ failed a) ∧ ¬ fopen_failed (calls r)
     ∧ pipeline_creation_failed (calls r)
     ∧ two_blocks_leaked h (heap_after r))
  ∨ (result r = None ∧ fopen_failed (calls r)
     ∧ ¬ pipeline_creation_failed (calls r)
     ∧ last (calls r) = Some (fclose false)
     ∧ at_most_one_block_leaked h (heap_after r)).

(** The two calls after which the program does not carry on as usual. *)
Definition is_failed_pipeline_creation (c : call) : bool :=
  match c with
  | vkCreateGraphicsPipelines _ _ _ _ _ None => true
  | _ => false
  end.

Definition is_failed_fopen (c : call) : bool :=
  match c with
  | fopen _ false => true
  | _ => false
  end.

(** A log without a failed [fopen] or [vkCreateGraphicsPipelines]. *)
Definition quiet (l : list call) : Prop :=
  ∀ c, c ∈ l →
       is_failed_fopen c = false ∧ is_failed_pipeline_creation c = false.

Definition init_failed (r : bool * vulkan) : Prop := r.1 = false.
Definition create_failed (r : bool * application) : Prop := r.1 = false.
Definition exit_failed (code : Z) : Prop := code = EXIT_FAILURE.

Definition is_fopen (c : call) : bool :=
  match c with fopen _ _ => true | _ => false end.

Definition is_fclose (c : call) : bool :=
  match c with fclose _ => true | _ => false end.

(** * Properties *)

(** Unfolds the sequencing of computations so that the branches of a
    function can be taken one by one. *)
Ltac unfold_M :=
  unfold bindK, returns, killed, bind, emit, ret, get_heap, result, heap_after,
    calls; simpl.

Ltac not_in_calls :=
  let Hin := fresh "Hin" in
  intros Hin;
  repeat (apply elem_of_cons in Hin as [Hin|Hin]; [discriminate Hin|]);
  by apply elem_of_nil in Hin.

(** ** Swap extent *)

(** With an undefined current extent the width is the framebuffer width
    clamped into the capability range. *)
Lemma swapchain_image_extent_width caps fbw fbh :
  width (currentExtent caps) = UINT32_MAX →
  width (swapchain_image_extent caps fbw fbh)
  = clamp (width (minImageExtent caps)) (width (maxImageExtent caps))
          (to_uint32 fbw).
Proof.
  intros Hundef. unfold swapchain_image_extent, clamp.
  rewrite Hundef, Z.eqb_refl. simpl. reflexivity.
Qed.

(** The height is never strictly between the two bounds: it is the
    minimum when the framebuffer height does not exceed it and the maximum
    otherwise. *)
Lemma swapchain_image_extent_height caps fbw fbh :
  width (currentExtent caps) = UINT32_MAX →
  height (swapchain_image_extent caps fbw fbh)
  = if to_uint32 fbh <=? height (minImageExtent caps)
    then height (minImageExtent caps) else height (maxImageExtent caps).
Proof.
  intros Hundef. unfold swapchain_image_extent.
  rewrite Hundef, Z.eqb_refl. simpl.
  repeat case_match; lia.
Qed.

(** C1 (code defect).  For capabilities with an undefined current extent
    and the same range [1, 4096] on both axes, a 720 x 720 framebuffer
    yields the extent 720 x 4096: the width is clamped into the range, the
    height is replaced by the maximum although it lies inside the range,
    so equal inputs under equal bounds give different outputs. *)
Theorem C1_height_not_clamped_like_width :
  width (currentExtent good_capabilities) = UINT32_MAX
  ∧ minImageExtent good_capabilities = Extent2D 1 1
  ∧ maxImageExtent good_capabilities = Extent2D 4096 4096
  ∧ swapchain_image_extent good_capabilities 720 720 = Extent2D 720 4096
  ∧ width (swapchain_image_extent good_capabilities 720 720) = clamp 1 4096 720
  ∧ height (swapchain_image_extent good_capabilities 720 720) ≠ clamp 1 4096 720.
Proof. repeat split; try reflexivity. vm_compute. discriminate. Qed.

(** ** Image count *)

(** C6.  With minimum image count [m] and maximum image count [M]: when
    [m > 10] the derivation fails; otherwise it yields the least of
    [m + 1], [M] (only when [M > 0]) and [10].  The four sample values of
    the claim are listed. *)
Theorem C6_image_count caps (Hmin : 0 ≤ minImageCount caps < 2 ^ 32) :
  swapchain_image_count caps
  = (if minImageCount caps >? 10 then None
     else Some (Z.min (if maxImageCount caps >? 0
                       then Z.min (minImageCount caps + 1) (maxImageCount caps)
                       else minImageCount caps + 1)
                      10))
  ∧ swapchain_image_count (capabilities_with_counts 1 0) = Some 2
  ∧ swapchain_image_count (capabilities_with_counts 2 2) = Some 2
  ∧ swapchain_image_count (capabilities_with_counts 1 3) = Some 2
  ∧ swapchain_image_count (capabilities_with_counts 11 0) = None.
Proof.
  split; [|repeat split; reflexivity].
  unfold swapchain_image_count, MAX_SWAPCHAIN_IMAGES, to_uint32.
  destruct (minImageCount caps >? 10) eqn:Hm; [reflexivity|].
  rewrite Z.mod_small by lia.
  f_equal. repeat case_match; simpl in *; lia.
Qed.

(** C6 at minimum 2 and no advertised maximum: three images. *)
Lemma C6_image_count_witness :
  swapchain_image_count (capabilities_with_counts 2 0) = Some 3.
Proof.
  apply (proj1 (C6_image_count (capabilities_with_counts 2 0)
                  ltac:(simpl; lia))).
Defined.

(** ** Queue-family collapsing *)

(** C7, as stated, fails when the two indices are equal: the swapchain
    descriptor then lists no queue family at all, not exactly one. *)
Lemma C7_counterexample :
  ¬ (queueFamilyIndexCount
       (swapchain_create_info (vulkan_with_families 0 0) good_capabilities
          (SurfaceFormat 50 0) (Extent2D 1280 720) 3) = 1).
Proof. vm_compute. discriminate. Qed.

(** C7 (amended).  When the graphics and present queue family indices are
    equal, the device descriptor lists exactly one queue family and the
    swapchain descriptor uses exclusive sharing with no queue-family index
    list (index count 0).  When they differ, both descriptors list exactly
    two queue families, the two indices, and the swapchain uses concurrent
    sharing. *)
Theorem C7_queue_family_collapsing vk caps fmt extent count :
  let dci := device_create_info vk in
  let sci := swapchain_create_info vk caps fmt extent count in
  if graphics_queuefamily_index vk =? present_queuefamily_index vk then
    queueCreateInfoCount dci = 1
    ∧ imageSharingMode sci = VK_SHARING_MODE_EXCLUSIVE
    ∧ queueFamilyIndexCount sci = 0
    ∧ pQueueFamilyIndices sci = None
  else
    queueCreateInfoCount dci = 2
    ∧ queueFamilyIndex <$> pQueueCreateInfos dci
      = [graphics_queuefamily_index vk; present_queuefamily_index vk]
    ∧ imageSharingMode sci = VK_SHARING_MODE_CONCURRENT
    ∧ queueFamilyIndexCount sci = 2
    ∧ pQueueFamilyIndices sci
      = Some [graphics_queuefamily_index vk; present_queuefamily_index vk].
Proof.
  unfold device_create_info, swapchain_create_info. simpl.
  destruct (graphics_queuefamily_index vk =? present_queuefamily_index vk);
    simpl; repeat split; reflexivity.
Qed.

(** The descriptors are the ones the two creation calls receive. *)
Lemma vulkan_device_create_descriptor d vk h phys ci r :
  vkCreateDevice phys ci r ∈ calls (vulkan_device_create d vk h) →
  ci = device_create_info vk.
Proof.
  unfold vulkan_device_create. unfold_M.
  destruct (enumerate_device_extensions d) as [exts|]; simpl;
    [|by intros ?%elem_of_nil].
  destruct (existsb _ exts); simpl; [|by intros ?%elem_of_nil].
  destruct (drv_device d); simpl;
    intros [[= _ <- _]|?%elem_of_nil]%elem_of_cons; done.
Qed.

Lemma vulkan_swapchain_create_descriptor d vk h dev ci r :
  vkCreateSwapchainKHR dev ci r ∈ calls (vulkan_swapchain_create d vk h) →
  ∃ fmt extent count,
    ci = swapchain_create_info vk (drv_capabilities d) fmt extent count.
Proof.
  unfold vulkan_swapchain_create. unfold_M.
  destruct (enumerate_surface_formats d) as [fmts|]; simpl;
    [|by intros ?%elem_of_nil].
  destruct (enumerate_present_modes d) as [modes|]; simpl;
    [|by intros ?%elem_of_nil].
  destruct (find is_wanted_format fmts) as [fmt|]; simpl;
    [|by intros ?%elem_of_nil].
  destruct (swapchain_image_count (drv_capabilities d)) as [n|]; simpl;
    [|by intros ?%elem_of_nil].
  destruct (drv_swapchain d); simpl;
    intros [[= _ -> _]|?%elem_of_nil]%elem_of_cons; try done; eauto.
Qed.

(** ** Bounded enumeration *)

Lemma vk_fill_all {A} (available : list A) :
  vk_fill (vk_count available) available = available.
Proof.
  unfold vk_fill, vk_count. rewrite Nat2Z.id. apply take_ge. lia.
Qed.

Lemma vk_count_nonneg {A} (available : list A) : 0 ≤ vk_count available.
Proof. unfold vk_count. lia. Qed.

Lemma vk_count_zero {A} (available : list A) :
  vk_count available = 0 → available = [].
Proof. unfold vk_count. destruct available; simpl; [done|lia]. Qed.

Ltac enumerate_cases :=
  rewrite ?vk_fill_all;
  repeat match goal with
         | |- context [Z.gtb ?a ?b] => destruct (Z.gtb_spec a b)
         | |- context [Z.eqb ?a ?b] => destruct (Z.eqb_spec a b)
         end; simpl; try reflexivity; try lia.

Lemma enumerate_layers_eq d :
  enumerate_layers d
  = if vk_count (drv_layers d) >? MAX_TMP_BUFFER then None
    else Some (drv_layers d).
Proof. unfold enumerate_layers. enumerate_cases. Qed.

Lemma enumerate_physicaldevices_eq d :
  enumerate_physicaldevices d
  = if (vk_count (drv_devices d) =? 0)
       || (vk_count (drv_devices d) >? MAX_TMP_BUFFER) then None
    else Some (drv_devices d).
Proof. unfold enumerate_physicaldevices. enumerate_cases. Qed.

Lemma enumerate_queuefamilies_eq d :
  enumerate_queuefamilies d
  = if vk_count (drv_queuefamilies d) >? MAX_TMP_BUFFER then None
    else Some (drv_queuefamilies d).
Proof. unfold enumerate_queuefamilies. enumerate_cases. Qed.

Lemma enumerate_device_extensions_eq d :
  enumerate_device_extensions d
  = if vk_count (drv_extensions d) >? MAX_TMP_BUFFER then None
    else Some (drv_extensions d).
Proof. unfold enumerate_device_extensions. enumerate_cases. Qed.

Lemma enumerate_surface_formats_eq d :
  enumerate_surface_formats d
  = if (vk_count (drv_surface_formats d) =? 0)
       || (vk_count (drv_surface_formats d) >? MAX_TMP_BUFFER) then None
    else Some (drv_surface_formats d).
Proof. unfold enumerate_surface_formats. enumerate_cases. Qed.

Lemma enumerate_present_modes_eq d :
  enumerate_present_modes d
  = if (vk_count (drv_present_modes d) =? 0)
       || (vk_count (drv_present_modes d) >? MAX_TMP_BUFFER) then None
    else Some (drv_present_modes d).
Proof. unfold enumerate_present_modes. enumerate_cases. Qed.

(** C8, as stated, fails for an adapter list of length 0: it is within
    the capacity of 256, yet the physical-device enumeration fails. *)
Lemma C8_counterexample :
  ¬ (vk_count (drv_devices no_device_driver) ≤ MAX_TMP_BUFFER →
     ∃ devices,
       enumerate_physicaldevices no_device_driver = Some devices
       ∧ vk_count devices = vk_count (drv_devices no_device_driver)).
Proof.
  intros Hclaim. destruct Hclaim as (devices & Hsome & _).
  - vm_compute. discriminate.
  - vm_compute in Hsome. discriminate.
Qed.

(** C8 (amended).  For a driver list of length [L]: layers, queue
    families and device extensions enumerate to exactly the [L] reported
    entries when [L ≤ 256]; physical devices, surface formats and present
    modes do so when [1 ≤ L ≤ 256] and fail when [L = 0]; and whenever
    [L > 256] the enclosing operation returns failure, leaves
    [struct vulkan] and the heap as they were and makes no call. *)
Theorem C8_bounded_enumeration d vk h :
  (enumerate_layers d
   = if vk_count (drv_layers d) >? 256 then None else Some (drv_layers d))
  ∧ (enumerate_queuefamilies d
     = if vk_count (drv_queuefamilies d) >? 256 then None
       else Some (drv_queuefamilies d))
  ∧ (enumerate_device_extensions d
     = if vk_count (drv_extensions d) >? 256 then None
       else Some (drv_extensions d))
  ∧ (enumerate_physicaldevices d
     = if (vk_count (drv_devices d) =? 0) || (vk_count (drv_devices d) >? 256)
       then None else Some (drv_devices d))
  ∧ (enumerate_surface_formats d
     = if (vk_count (drv_surface_formats d) =? 0)
          || (vk_count (drv_surface_formats d) >? 256)
       then None else Some (drv_surface_formats d))
  ∧ (enumerate_present_modes d
     = if (vk_count (drv_present_modes d) =? 0)
          || (vk_count (drv_present_modes d) >? 256)
       then None else Some (drv_present_modes d))
  ∧ (256 < vk_count (drv_layers d) → enable_validation_layers vk = true →
     vulkan_instance_create d vk h = ((false, vk), h, []))
  ∧ (256 < vk_count (drv_devices d) →
     vulkan_physicaldevice_find d vk h = ((false, vk), h, []))
  ∧ (256 < vk_count (drv_queuefamilies d) →
     vulkan_queuefamily_find d vk h = ((false, vk), h, []))
  ∧ (256 < vk_count (drv_extensions d) →
     vulkan_device_create d vk h = ((false, vk), h, []))
  ∧ (256 < vk_count (drv_surface_formats d)
     ∨ 256 < vk_count (drv_present_modes d) →
     vulkan_swapchain_create d vk h = ((false, vk), h, [])).
Proof.
  repeat split.
  - apply enumerate_layers_eq.
  - apply enumerate_queuefamilies_eq.
  - apply enumerate_device_extensions_eq.
  - apply enumerate_physicaldevices_eq.
  - apply enumerate_surface_formats_eq.
  - apply enumerate_present_modes_eq.
  - intros HL Hen. unfold vulkan_instance_create, vulkan_validationlayers_check.
    rewrite Hen, enumerate_layers_eq. unfold MAX_TMP_BUFFER.
    destruct (Z.gtb_spec (vk_count (drv_layers d)) 256); [reflexivity|lia].
  - intros HL. unfold vulkan_physicaldevice_find.
    rewrite enumerate_physicaldevices_eq. unfold MAX_TMP_BUFFER.
    destruct (Z.gtb_spec (vk_count (drv_devices d)) 256); [|lia].
    rewrite orb_true_r. reflexivity.
  - intros HL. unfold vulkan_queuefamily_find.
    rewrite enumerate_queuefamilies_eq. unfold MAX_TMP_BUFFER.
    destruct (Z.gtb_spec (vk_count (drv_queuefamilies d)) 256); [reflexivity|lia].
  - intros HL. unfold vulkan_device_create.
    rewrite enumerate_device_extensions_eq. unfold MAX_TMP_BUFFER.
    destruct (Z.gtb_spec (vk_count (drv_extensions d)) 256); [reflexivity|lia].
  - intros HL. unfold vulkan_swapchain_create.
    rewrite enumerate_surface_formats_eq, enumerate_present_modes_eq.
    unfold MAX_TMP_BUFFER.
    destruct (Z.gtb_spec (vk_count (drv_surface_formats d)) 256);
      [rewrite orb_true_r; reflexivity|].
    destruct (Z.gtb_spec (vk_count (drv_present_modes d)) 256); [|lia].
    rewrite orb_true_r.
    destruct (vk_count (drv_surface_formats d) =? 0); reflexivity.
Qed.

(** C8 (amended) at an adapter whose lists all have 257 entries, and at
    the well-behaved adapter for the layer list. *)
Lemma C8_bounded_enumeration_witness :
  vulkan_instance_create oversized_driver
    (set_enable_validation_layers true vulkan_zero) ∅
  = ((false, set_enable_validation_layers true vulkan_zero), ∅, [])
  ∧ vulkan_physicaldevice_find oversized_driver vulkan_zero ∅
    = ((false, vulkan_zero), ∅, [])
  ∧ vulkan_queuefamily_find oversized_driver vulkan_zero ∅
    = ((false, vulkan_zero), ∅, [])
  ∧ vulkan_device_create oversized_driver vulkan_zero ∅
    = ((false, vulkan_zero), ∅, [])
  ∧ vulkan_swapchain_create oversized_driver vulkan_zero ∅
    = ((false, vulkan_zero), ∅, [])
  ∧ enumerate_layers good_driver = Some [VK_LAYER_KHRONOS_validation].
Proof.
  destruct (C8_bounded_enumeration oversized_driver
              (set_enable_validation_layers true vulkan_zero) ∅)
    as (_ & _ & _ & _ & _ & _ & Hlayers & _).
  destruct (C8_bounded_enumeration oversized_driver vulkan_zero ∅)
    as (_ & _ & _ & _ & _ & _ & _ & Hdev & Hqf & Hext & Hsc).
  destruct (C8_bounded_enumeration good_driver vulkan_zero ∅)
    as (Hl & _).
  split; [apply Hlayers; [vm_compute|]; reflexivity|].
  split; [apply Hdev; vm_compute; reflexivity|].
  split; [apply Hqf; vm_compute; reflexivity|].
  split; [apply Hext; vm_compute; reflexivity|].
  split; [apply Hsc; left; vm_compute; reflexivity|].
  rewrite Hl. reflexivity.
Defined.

(** ** Queue-family resolution *)

Lemma scan_first_Some {A} (p : A → bool) a i0 i :
  scan_first p a i0 = Some i →
  i0 ≤ i
  ∧ (∃ x, a !! Z.to_nat (i - i0) = Some x ∧ p x = true)
  ∧ ∀ (j : nat) x, (j < Z.to_nat (i - i0))%nat → a !! j = Some x → p x = false.
Proof.
  revert i0. induction a as [|y a IH]; intros i0 Hscan; simpl in Hscan.
  - discriminate.
  - destruct (p y) eqn:Hpy.
    + injection Hscan as <-. rewrite Z.sub_diag. simpl.
      split; [lia|]. split; [eauto|]. intros j x Hj. lia.
    + apply IH in Hscan as (Hle & (x & Hx & Hpx) & Hbefore).
      assert (Z.to_nat (i - i0) = S (Z.to_nat (i - (i0 + 1)))) as -> by lia.
      split; [lia|]. split; [exists x; auto|].
      intros [|j] x' Hj Hlook; simpl in Hlook.
      * congruence.
      * apply (Hbefore j); [lia|done].
Qed.

Lemma scan_first_None {A} (p : A → bool) a i0 :
  scan_first p a i0 = None ↔ ∀ x, x ∈ a → p x = false.
Proof.
  revert i0. induction a as [|y a IH]; intros i0; simpl.
  - split; [|done]. intros _ x Hx. by apply elem_of_nil in Hx.
  - destruct (p y) eqn:Hpy.
    + split; [done|]. intros Hall. rewrite Hall in Hpy; [done|]. left.
    + rewrite IH. split.
      * intros Hall x Hx. apply elem_of_cons in Hx as [->|Hx]; auto.
      * intros Hall x Hx. apply Hall. by right.
Qed.

Lemma scan_first_first_index {A} (p : A → bool) a i :
  scan_first p a 0 = Some i → first_index p a i.
Proof.
  intros Hscan. apply scan_first_Some in Hscan.
  rewrite Z.sub_0_r in Hscan. exact Hscan.
Qed.

(** Drawing capability is bit 0 of [queueFlags]. *)
Lemma has_graphics_testbit q : has_graphics q = Z.testbit (queueFlags q) 0.
Proof.
  unfold has_graphics, VK_QUEUE_GRAPHICS_BIT.
  change 1 with (Z.ones 1). rewrite Z.land_ones by lia.
  rewrite Z.bit0_odd, Zodd_mod. change (2 ^ 1) with 2.
  generalize (Z.mod_pos_bound (queueFlags q) 2 ltac:(lia)). intros Hb.
  destruct (Z.eqb_spec (queueFlags q mod 2) 0) as [->| Hne]; [reflexivity|].
  replace (queueFlags q mod 2) with 1 by lia. reflexivity.
Qed.

(** C9.  Whenever queue-family resolution succeeds, the stored graphics
    index is the first family of the table with the draw bit set and the
    stored present index is the first family reporting presentation
    support, each found by its own scan; it fails whenever no family
    draws or no family presents; it succeeds whenever the table has at
    most 256 rows, some family draws and some family presents; and there
    are tables for which the two indices differ. *)
Theorem C9_queue_family_resolution d vk h :
  let table := drv_queuefamilies d in
  let r := vulkan_queuefamily_find d vk h in
  ((result r).1 = true →
     first_index has_graphics table (graphics_queuefamily_index (result r).2)
     ∧ first_index has_present table (present_queuefamily_index (result r).2))
  ∧ ((∀ q, q ∈ table → has_graphics q = false)
     ∨ (∀ q, q ∈ table → has_present q = false) → (result r).1 = false)
  ∧ (vk_count table ≤ 256 →
     (∃ q, q ∈ table ∧ has_graphics q = true) →
     (∃ q, q ∈ table ∧ has_present q = true) → (result r).1 = true)
  ∧ (let r' := vulkan_queuefamily_find split_families_driver vulkan_zero h in
     (result r').1 = true
     ∧ graphics_queuefamily_index (result r').2 = 0
     ∧ present_queuefamily_index (result r').2 = 1).
Proof.
  intros table r. subst r. unfold vulkan_queuefamily_find.
  rewrite enumerate_queuefamilies_eq. fold table. unfold MAX_TMP_BUFFER.
  split; [|split; [|split]].
  - destruct (vk_count table >? 256); [simpl; discriminate|].
    destruct (scan_first has_graphics table 0) as [g|] eqn:Hg;
      destruct (scan_first has_present table 0) as [p|] eqn:Hp;
      simpl; try discriminate.
    intros _. split; destruct vk; simpl; by apply scan_first_first_index.
  - intros Hnone. destruct (vk_count table >? 256); [reflexivity|].
    destruct Hnone as [Hnone|Hnone]; apply scan_first_None with (i0 := 0) in Hnone;
      rewrite Hnone.
    + destruct (scan_first has_present table 0); reflexivity.
    + destruct (scan_first has_graphics table 0); reflexivity.
  - intros Hfit (qg & Hqg & Hpg) (qp & Hqp & Hpp).
    destruct (Z.gtb_spec (vk_count table) 256); [lia|].
    destruct (scan_first has_graphics table 0) as [g|] eqn:Hg.
    2:{ rewrite scan_first_None in Hg. rewrite (Hg qg Hqg) in Hpg. done. }
    destruct (scan_first has_present table 0) as [p|] eqn:Hp.
    2:{ rewrite scan_first_None in Hp. rewrite (Hp qp Hqp) in Hpp. done. }
    reflexivity.
  - repeat split; reflexivity.
Qed.

(** C9 at the well-behaved adapter. *)
Lemma C9_queue_family_resolution_witness :
  (result (vulkan_queuefamily_find good_driver vulkan_zero ∅)).1 = true
  ∧ first_index has_graphics (drv_queuefamilies good_driver)
      (graphics_queuefamily_index
         (result (vulkan_queuefamily_find good_driver vulkan_zero ∅)).2)
  ∧ first_index has_present (drv_queuefamilies good_driver)
      (present_queuefamily_index
         (result (vulkan_queuefamily_find good_driver vulkan_zero ∅)).2).
Proof.
  destruct (C9_queue_family_resolution good_driver vulkan_zero ∅)
    as (Hfirst & _ & Hsucc & _).
  assert ((result (vulkan_queuefamily_find good_driver vulkan_zero ∅)).1 = true)
    as Hok.
  { apply Hsucc.
    - vm_compute. discriminate.
    - exists (QueueFamily 1 1). split; [left|reflexivity].
    - exists (QueueFamily 1 1). split; [left|reflexivity]. }
  split; [exact Hok|]. exact (Hfirst Hok).
Defined.

(** ** Reading a shader file *)

Lemma malloc_fresh (h : heap) :
  let p : ptr := fresh ({[nullptr]} ∪ dom h) in p ≠ nullptr ∧ h !! p = None.
Proof.
  intros p. pose proof (is_fresh ({[nullptr]} ∪ dom h)) as Hf. fold p in Hf.
  split.
  - intros Heq. apply Hf. rewrite Heq. set_solver.
  - apply not_elem_of_dom. set_solver.
Qed.

Lemma c_ftell_size f :
  to_size_t (c_ftell f) ≠ to_size_t (-1) →
  to_size_t (c_ftell f) = Z.of_nat (length (file_data f)).
Proof.
  unfold c_ftell, to_size_t, LONG_MAX.
  destruct (ftell_ok f); simpl; [|done].
  destruct (Z.leb_spec (Z.of_nat (length (file_data f))) 9223372036854775807);
    [|done].
  intros _. apply Z.mod_small. lia.
Qed.

(** C10.  When [file_read] returns failure, the out-parameters hold what
    they held before, the heap is what it was, and every block the call
    obtained from [malloc] was passed to [free].  When it returns success,
    [*content] is a non-null block that was not allocated before, the heap
    now maps it to the bytes of the file, [*content_size] is their number,
    nothing else in the heap changed, and the call freed nothing.  The
    function returns whenever [fopen] gave it a stream; when [fopen]
    failed it does not return. *)
Theorem C10_file_read c filename content content_size h :
  let r := file_read c filename content content_size h in
  (∀ out, result r = Some (false, out) →
     out = (content, content_size)
     ∧ heap_after r = h
     ∧ ∀ size p, p ≠ nullptr → malloc size p ∈ calls r → free p ∈ calls r)
  ∧ (∀ out, result r = Some (true, out) →
     ∃ f, fs c filename = Some f
       ∧ out.1 ≠ nullptr
       ∧ h !! out.1 = None
       ∧ out.2 = Z.of_nat (length (file_data f))
       ∧ heap_after r = <[out.1 := file_data f]> h
       ∧ ∀ q, free q ∉ calls r)
  ∧ (is_Some (result r) ↔ is_Some (fs c filename)).
Proof.
  intros r. subst r. unfold file_read, file_read_cleanup, c_fclose. unfold_M.
  destruct (fs c filename) as [f|]; simpl.
  2:{ split; [discriminate|]. split; [discriminate|].
      split; intros [? [=]]. }
  destruct (fseek_ok f); simpl.
  2:{ split; [|split; [discriminate|by split; eauto]].
      intros out [= <-]. repeat split.
      intros size p Hp Hin. exfalso. revert Hin. not_in_calls. }
  destruct (Z.eqb_spec (to_size_t (c_ftell f)) (to_size_t (-1))) as [|Hsize];
    simpl.
  { split; [|split; [discriminate|by split; eauto]].
    intros out [= <-]. repeat split.
    intros size p Hp Hin. exfalso. revert Hin. not_in_calls. }
  apply c_ftell_size in Hsize. rewrite Hsize.
  unfold c_malloc, c_fread, c_free.
  destruct (malloc_ok c h _); simpl.
  2:{ split; [|split; [discriminate|by split; eauto]].
      intros out [= <-]. repeat split.
      intros size p Hp Hin. exfalso.
      repeat (apply elem_of_cons in Hin as [Hin|Hin];
              [first [discriminate Hin | injection Hin as _ Hq; congruence]|]).
      by apply elem_of_nil in Hin. }
  destruct (malloc_fresh h) as [Hnn Hfresh].
  set (p := fresh ({[nullptr]} ∪ dom h)) in *.
  destruct (decide (p = nullptr)) as [|_]; [done|]. simpl.
  destruct (fread_ok f && (0 <? Z.of_nat (length (file_data f)))); simpl.
  - split; [discriminate|]. split; [|by split; eauto].
    intros out [= <-]. exists f.
    repeat split; try done.
    + rewrite Nat2Z.id, take_ge by lia. apply insert_insert_eq.
    + intros q. not_in_calls.
  - split; [|split; [discriminate|by split; eauto]].
    intros out [= <-].
    destruct (decide (p = nullptr)) as [|_]; [done|].
    repeat split.
    + by apply delete_insert_id.
    + intros size q Hq Hin.
      repeat (apply elem_of_cons in Hin as [Hin|Hin];
              [first [discriminate Hin | injection Hin as _ <-]|]).
      * set_solver.
      * by apply elem_of_nil in Hin.
Qed.

(** C10 at the vertex shader file of [good_libc], and at a file that
    opens and cannot be read: the block obtained for it is freed again. *)
Lemma C10_file_read_witness :
  let r := file_read good_libc "./shaders/vertex.spv" nullptr 0 ∅ in
  (∃ p, result r = Some (true, (p, 4))
        ∧ p ≠ nullptr ∧ heap_after r !! p = Some shader_bytes)
  ∧ (let r' := file_read unreadable_libc "./shaders/vertex.spv" 7%N 9 ∅ in
     result r' = Some (false, (7%N, 9)) ∧ heap_after r' = ∅
     ∧ ∃ p, p ≠ nullptr ∧ malloc 4 p ∈ calls r' ∧ free p ∈ calls r').
Proof.
  intros r.
  destruct (C10_file_read good_libc "./shaders/vertex.spv" nullptr 0 ∅)
    as (_ & Hsucc & _).
  assert (result r = Some (true, (1%N, 4))) as Hr by (vm_compute; reflexivity).
  destruct (Hsucc _ Hr) as (f & Hf & Hnn & _ & _ & Hheap & _).
  injection Hf as <-.
  split.
  { exists 1%N. split; [exact Hr|]. split; [exact Hnn|].
    subst r. rewrite Hheap. apply lookup_insert_eq. }
  intros r'.
  destruct (C10_file_read unreadable_libc "./shaders/vertex.spv" 7%N 9 ∅)
    as (Hfail & _ & _).
  assert (result r' = Some (false, (7%N, 9))) as Hr'
    by (vm_compute; reflexivity).
  destruct (Hfail _ Hr') as (_ & Hheap' & Hfreed).
  split; [exact Hr'|]. split; [exact Hheap'|].
  assert (malloc 4 1%N ∈ calls r') as Hin.
  { vm_compute. do 4 right. left. }
  exists 1%N. split; [done|]. split; [exact Hin|].
  by apply (Hfreed 4).
Defined.

(** ** Graphics pipeline: shader modules and file buffers *)

(** When [vkCreatePipelineLayout] fails, both modules are destroyed once
    and both buffers freed once, and the heap is empty again. *)
Example layout_failure_releases_everything :
  let r := vulkan_graphicspipeline_create layout_failing_driver vulkan_zero ∅ in
  fst <$> result r = Some false
  ∧ created_shadermodules (calls r) = [44%N; 48%N]
  ∧ allocated_blocks (calls r) = [1%N; 2%N]
  ∧ count_calls (is_destroy_shadermodule 44%N) (calls r) = 1%nat
  ∧ count_calls (is_destroy_shadermodule 48%N) (calls r) = 1%nat
  ∧ count_calls (is_free 1%N) (calls r) = 1%nat
  ∧ count_calls (is_free 2%N) (calls r) = 1%nat
  ∧ heap_after r = ∅.
Proof. vm_compute. repeat split; reflexivity. Qed.

(** C2 (code defect).  When every step succeeds except the final
    [vkCreateGraphicsPipelines], the function returns failure with two
    shader modules created and two file buffers allocated, none of which
    is destroyed or freed: no [vkDestroyShaderModule] and no [free] names
    them, and both buffers are still in the heap. *)
Theorem C2_pipeline_failure_skips_cleanup :
  let r := vulkan_graphicspipeline_create pipeline_failing_driver vulkan_zero ∅ in
  fst <$> result r = Some false
  ∧ created_shadermodules (calls r) = [44%N; 48%N]
  ∧ allocated_blocks (calls r) = [1%N; 2%N]
  ∧ count_calls (is_destroy_shadermodule 44%N) (calls r) = 0%nat
  ∧ count_calls (is_destroy_shadermodule 48%N) (calls r) = 0%nat
  ∧ count_calls (is_free 1%N) (calls r) = 0%nat
  ∧ count_calls (is_free 2%N) (calls r) = 0%nat
  ∧ heap_after r !! 1%N = Some shader_bytes
  ∧ heap_after r !! 2%N = Some (shader_bytes ++ shader_bytes).
Proof. vm_compute. repeat split; reflexivity. Qed.

Ltac file_read_quiet :=
  split; [done|]; split; [done|];
  intros (? & ? & ? & ? & ? & Hin); revert Hin; not_in_calls.

Ltac no_fopen_failed :=
  let Hin := fresh "Hin" in
  intros (? & Hin); revert Hin; not_in_calls.

(** The three ways one call of [file_read] can end, with what it did to
    the heap and which blocks it allocated and freed: killed after a
    failed [fopen], returned with a failure, returned with the file. *)
Lemma file_read_outcome c filename content content_size h :
  let r := file_read c filename content content_size h in
  ((result r = None ∧ heap_after r = h
    ∧ calls r = [fopen filename false; free nullptr; fclose false])
   ∨ (result r = Some (false, (content, content_size))
      ∧ ¬ fopen_failed (calls r) ∧ heap_after r = h
      ∧ ((allocated_blocks (calls r) = [] ∧ freed_blocks (calls r) = [])
         ∨ ∃ p, p ≠ nullptr ∧ h !! p = None
                ∧ allocated_blocks (calls r) = [p]
                ∧ freed_blocks (calls r) = [p]))
   ∨ (∃ p size data,
        p ≠ nullptr ∧ h !! p = None
        ∧ result r = Some (true, (p, size))
        ∧ ¬ fopen_failed (calls r)
        ∧ heap_after r = <[p := data]> h
        ∧ allocated_blocks (calls r) = [p]
        ∧ freed_blocks (calls r) = []))
  ∧ created_shadermodules (calls r) = []
  ∧ destroyed_shadermodules (calls r) = []
  ∧ ¬ pipeline_creation_failed (calls r).
Proof.
  intros r. subst r.
  unfold file_read, file_read_cleanup, c_fclose, c_malloc, c_fread, c_free.
  unfold_M.
  destruct (fs c filename) as [f|]; simpl.
  2:{ split; [left; auto|]. file_read_quiet. }
  destruct (fseek_ok f); simpl.
  2:{ split; [right; left|file_read_quiet].
      split; [done|]. split; [no_fopen_failed|]. auto. }
  destruct (to_size_t (c_ftell f) =? to_size_t (-1)); simpl.
  { split; [right; left|file_read_quiet].
    split; [done|]. split; [no_fopen_failed|]. auto. }
  destruct (malloc_ok c h _); simpl.
  2:{ split; [right; left|file_read_quiet].
      split; [done|]. split; [no_fopen_failed|]. auto. }
  destruct (malloc_fresh h) as [Hnn Hfresh].
  set (p := fresh ({[nullptr]} ∪ dom h)) in *.
  destruct (decide (p = nullptr)) as [|_]; [done|]. simpl.
  destruct (fread_ok f && _); simpl.
  - split; [right; right|file_read_quiet].
    exists p, (to_size_t (c_ftell f)),
      (take (Z.to_nat (to_size_t (c_ftell f))) (file_data f)).
    split; [done|]. split; [done|]. split; [done|].
    split; [no_fopen_failed|].
    split; [apply insert_insert_eq|].
    unfold allocated_blocks. simpl. by destruct (decide (p = nullptr)).
  - destruct (decide (p = nullptr)) as [|_]; [done|].
    split; [right; left|file_read_quiet].
    split; [done|]. split; [no_fopen_failed|].
    split; [by apply delete_insert_id|]. right. exists p.
    unfold allocated_blocks, freed_blocks. simpl.
    by destruct (decide (p = nullptr)).
Qed.

Lemma pipeline_creation_failed_app l1 l2 :
  pipeline_creation_failed (l1 ++ l2)
  ↔ pipeline_creation_failed l1 ∨ pipeline_creation_failed l2.
Proof.
  unfold pipeline_creation_failed. split.
  - intros (dev & v & f & la & pa & Hin). apply elem_of_app in Hin as [Hin|Hin];
      [left|right]; by exists dev, v, f, la, pa.
  - intros [(dev & v & f & la & pa & Hin)|(dev & v & f & la & pa & Hin)];
      exists dev, v, f, la, pa; apply elem_of_app; auto.
Qed.

Lemma fopen_failed_app l1 l2 :
  fopen_failed (l1 ++ l2) ↔ fopen_failed l1 ∨ fopen_failed l2.
Proof.
  unfold fopen_failed. split.
  - intros (name & Hin). apply elem_of_app in Hin as [Hin|Hin];
      [left|right]; by exists name.
  - intros [(name & Hin)|(name & Hin)]; exists name; apply elem_of_app; auto.
Qed.

Lemma allocated_blocks_app l1 l2 :
  allocated_blocks (l1 ++ l2) = allocated_blocks l1 ++ allocated_blocks l2.
Proof. apply omap_app. Qed.
Lemma freed_blocks_app l1 l2 :
  freed_blocks (l1 ++ l2) = freed_blocks l1 ++ freed_blocks l2.
Proof. apply omap_app. Qed.
Lemma created_shadermodules_app l1 l2 :
  created_shadermodules (l1 ++ l2)
  = created_shadermodules l1 ++ created_shadermodules l2.
Proof. apply omap_app. Qed.
Lemma destroyed_shadermodules_app l1 l2 :
  destroyed_shadermodules (l1 ++ l2)
  = destroyed_shadermodules l1 ++ destroyed_shadermodules l2.
Proof. apply omap_app. Qed.

Ltac no_pipeline_failure :=
  let Hfail := fresh "Hfail" in
  let Hin := fresh "Hin" in
  intros Hfail;
  repeat (apply pipeline_creation_failed_app in Hfail as [Hfail|Hfail];
          [contradiction|]);
  destruct Hfail as (? & ? & ? & ? & ? & Hin);
  revert Hin; not_in_calls.

Ltac modules_not_null Hvalid :=
  repeat match goal with
         | H : drv_shadermodule _ _ = Some ?m
           |- context [decide (?m = VK_NULL_HANDLE)] =>
             destruct (decide (m = VK_NULL_HANDLE)) as [->|_];
             [by apply Hvalid in H|]
         end.

Ltac no_fopen_failure :=
  let Hfail := fresh "Hfail" in
  let Hin := fresh "Hin" in
  intros Hfail;
  repeat (apply fopen_failed_app in Hfail as [Hfail|Hfail];
          [contradiction|]);
  destruct Hfail as (? & Hin);
  revert Hin; not_in_calls.

(** The three ways [vulkan_graphicspipeline_create] can end.  It returns
    and [vkCreateGraphicsPipelines] did not fail: then the heap is what it
    was, every allocated block was freed once and every created shader
    module destroyed once (provided the driver never hands out the null
    handle as a shader module).  Or [vkCreateGraphicsPipelines] failed: then
    the function returns failure having freed and destroyed nothing, with
    both file buffers still allocated and both shader modules still
    alive.  Or an [fopen] failed: then the process is killed in the
    [fclose] that follows, before any shader module is created, with
    nothing freed and the first file buffer still allocated if the second
    file was the missing one. *)
Lemma graphicspipeline_outcome d vk h res :
  vulkan_graphicspipeline_create d vk h = res →
  (is_Some (result res)
   ∧ ¬ fopen_failed (calls res)
   ∧ ¬ pipeline_creation_failed (calls res)
   ∧ heap_after res = h
   ∧ NoDup (allocated_blocks (calls res))
   ∧ freed_blocks (calls res) = rev (allocated_blocks (calls res))
   ∧ ((∀ code, drv_shadermodule d code ≠ Some VK_NULL_HANDLE) →
      destroyed_shadermodules (calls res)
      = rev (created_shadermodules (calls res))))
  ∨ ((∃ vk', result res = Some (false, vk'))
     ∧ ¬ fopen_failed (calls res)
     ∧ pipeline_creation_failed (calls res)
     ∧ freed_blocks (calls res) = []
     ∧ destroyed_shadermodules (calls res) = []
     ∧ ∃ p1 p2 data1 data2 vm fm,
         p1 ≠ p2 ∧ h !! p1 = None ∧ h !! p2 = None
         ∧ allocated_blocks (calls res) = [p1; p2]
         ∧ created_shadermodules (calls res) = [vm; fm]
         ∧ heap_after res = <[p2:=data2]> (<[p1:=data1]> h))
  ∨ (result res = None
     ∧ fopen_failed (calls res)
     ∧ ¬ pipeline_creation_failed (calls res)
     ∧ last (calls res) = Some (fclose false)
     ∧ freed_blocks (calls res) = []
     ∧ created_shadermodules (calls res) = []
     ∧ destroyed_shadermodules (calls res) = []
     ∧ ((allocated_blocks (calls res) = [] ∧ heap_after res = h)
        ∨ ∃ p data, p ≠ nullptr ∧ h !! p = None
                    ∧ allocated_blocks (calls res) = [p]
                    ∧ heap_after res = <[p:=data]> h)).
Proof.
  intros Hrun.
  unfold vulkan_graphicspipeline_create, graphicspipeline_cleanup,
    vulkan_shadermodule_create in Hrun.
  unfold bindK at 1 in Hrun. unfold bind at 1 in Hrun.
  pose proof (file_read_outcome (drv_libc d) "./shaders/vertex.spv"
                nullptr 0 h) as Hread1.
  destruct (file_read (drv_libc d) "./shaders/vertex.spv" nullptr 0 h)
    as [[o1 h1] l1].
  unfold result, heap_after, calls in Hread1. simpl in Hread1.
  destruct Hread1 as (Hout1 & Hc1 & Hd1 & Hp1).
  destruct Hout1
    as [(-> & -> & ->)
       |[(-> & Hfo1 & -> & Hblocks1)
        |(p1 & s1 & data1 & Hnn1 & Hf1 & -> & Hfo1 & -> & Ha1 & Hfr1)]];
    simpl in Hrun.
  { unfold killed, ret in Hrun. subst res.
    right. right. unfold result, heap_after, calls. simpl.
    split; [done|]. split; [by eexists; left|].
    split; [intros (? & ? & ? & ? & ? & Hin); revert Hin; not_in_calls|].
    split; [done|]. split; [done|]. split; [done|]. split; [done|].
    left. done. }
  { unfold c_free, bind, emit, ret in Hrun. simpl in Hrun. subst res.
    left. unfold result, heap_after, calls. simpl.
    split; [by eexists|].
    split; [no_fopen_failure|].
    split; [no_pipeline_failure|].
    rewrite allocated_blocks_app, freed_blocks_app, created_shadermodules_app,
      destroyed_shadermodules_app, Hc1, Hd1. simpl.
    rewrite !app_nil_r.
    destruct Hblocks1 as [[-> ->]|(p & Hp & Hfp & -> & ->)]; simpl;
      repeat split; try done; apply NoDup_nil_2 || apply NoDup_singleton. }
  unfold bindK at 1 in Hrun. unfold bind at 1 in Hrun.
  pose proof (file_read_outcome (drv_libc d) "./shaders/fragment.spv"
                nullptr 0 (<[p1:=data1]> h)) as Hread2.
  destruct (file_read (drv_libc d) "./shaders/fragment.spv" nullptr 0 _)
    as [[o2 h2] l2].
  unfold result, heap_after, calls in Hread2. simpl in Hread2.
  destruct Hread2 as (Hout2 & Hc2 & Hd2 & Hp2).
  destruct Hout2
    as [(-> & -> & ->)
       |[(-> & Hfo2 & -> & Hblocks2)
        |(p2 & s2 & data2 & Hnn2 & Hf2 & -> & Hfo2 & -> & Ha2 & Hfr2)]];
    simpl in Hrun.
  { unfold killed, ret in Hrun. subst res.
    right. right. unfold result, heap_after, calls. simpl.
    split; [done|].
    split; [apply fopen_failed_app; right; by eexists; left|].
    split; [no_pipeline_failure|].
    split; [by rewrite last_app|].
    rewrite !allocated_blocks_app, !freed_blocks_app,
      !created_shadermodules_app, !destroyed_shadermodules_app,
      Hc1, Hd1, Ha1, Hfr1.
    split; [done|]. split; [done|]. split; [done|].
    right. by exists p1, data1. }
  { unfold c_free, bind, emit, ret in Hrun. simpl in Hrun. subst res.
    left. unfold result, heap_after, calls. simpl.
    split; [by eexists|].
    split; [no_fopen_failure|].
    split; [no_pipeline_failure|].
    destruct (decide (p1 = nullptr)) as [|_]; [done|].
    rewrite !allocated_blocks_app, !freed_blocks_app, !created_shadermodules_app,
      !destroyed_shadermodules_app, Hc1, Hd1, Hc2, Hd2, Ha1, Hfr1.
    split; [by apply delete_insert_id|].
    destruct Hblocks2 as [[-> ->]|(p & Hp & Hfp & -> & ->)];
      unfold freed_blocks, allocated_blocks; simpl;
      (destruct (decide (p1 = nullptr)) as [|_]; [done|]).
    - repeat split; try done. apply NoDup_singleton.
    - repeat split; try done.
      apply NoDup_cons. split; [|apply NoDup_singleton].
      intros Hin. apply list_elem_of_singleton in Hin as <-.
      by rewrite lookup_insert_eq in Hfp. }
  assert (p2 ≠ p1) as Hne.
  { intros ->. by rewrite lookup_insert_eq in Hf2. }
  unfold c_free, bind, emit, ret, get_heap in Hrun. simpl in Hrun.
  destruct (decide (p1 = nullptr)) as [|_]; [done|].
  destruct (decide (p2 = nullptr)) as [|_]; [done|].
  assert (delete p1 (delete p2 (<[p2:=data2]> (<[p1:=data1]> h))) = h) as Hheap.
  { rewrite delete_insert_id by done. by apply delete_insert_id. }
  assert (NoDup [p1; p2]) as Hnodup.
  { apply NoDup_cons. split; [|apply NoDup_singleton].
    intros Hin. apply list_elem_of_singleton in Hin. congruence. }
  destruct (drv_shadermodule d (default [] (_ !! p1))) as [vm|] eqn:Hvm;
    simpl in Hrun.
  2:{ subst res. left. unfold result, heap_after, calls. simpl.
      split; [by eexists|].
      split; [no_fopen_failure|].
      split; [no_pipeline_failure|].
      rewrite !allocated_blocks_app, !freed_blocks_app,
        !created_shadermodules_app, !destroyed_shadermodules_app,
        Hc1, Hd1, Hc2, Hd2, Ha1, Hfr1, Ha2, Hfr2.
      unfold freed_blocks, allocated_blocks. simpl.
      destruct (decide (p1 = nullptr)) as [|_]; [done|].
      destruct (decide (p2 = nullptr)) as [|_]; [done|].
      done. }
  destruct (drv_shadermodule d (default [] (_ !! p2))) as [fm|] eqn:Hfm;
    simpl in Hrun.
  2:{ subst res. left. unfold result, heap_after, calls. simpl.
      split; [by eexists|].
      split; [no_fopen_failure|].
      split; [no_pipeline_failure|].
      rewrite !allocated_blocks_app, !freed_blocks_app,
        !created_shadermodules_app, !destroyed_shadermodules_app,
        Hc1, Hd1, Hc2, Hd2, Ha1, Hfr1, Ha2, Hfr2.
      unfold freed_blocks, allocated_blocks, created_shadermodules,
        destroyed_shadermodules. simpl.
      destruct (decide (p1 = nullptr)) as [|_]; [done|].
      destruct (decide (p2 = nullptr)) as [|_]; [done|].
      do 3 (split; [done|]). intros Hvalid. modules_not_null Hvalid. done. }
  destruct (drv_pipeline_layout d) as [layout|]; simpl in Hrun.
  2:{ subst res. left. unfold result, heap_after, calls. simpl.
      split; [by eexists|].
      split; [no_fopen_failure|].
      split; [no_pipeline_failure|].
      rewrite !allocated_blocks_app, !freed_blocks_app,
        !created_shadermodules_app, !destroyed_shadermodules_app,
        Hc1, Hd1, Hc2, Hd2, Ha1, Hfr1, Ha2, Hfr2.
      unfold freed_blocks, allocated_blocks, created_shadermodules,
        destroyed_shadermodules. simpl.
      destruct (decide (p1 = nullptr)) as [|_]; [done|].
      destruct (decide (p2 = nullptr)) as [|_]; [done|].
      do 3 (split; [done|]). intros Hvalid. modules_not_null Hvalid. done. }
  destruct (drv_pipeline d) as [pipeline|]; simpl in Hrun.
  - subst res. left. unfold result, heap_after, calls. simpl.
    split; [by eexists|].
    split; [no_fopen_failure|].
    split; [no_pipeline_failure|].
    rewrite !allocated_blocks_app, !freed_blocks_app,
      !created_shadermodules_app, !destroyed_shadermodules_app,
      Hc1, Hd1, Hc2, Hd2, Ha1, Hfr1, Ha2, Hfr2.
    unfold freed_blocks, allocated_blocks, created_shadermodules,
      destroyed_shadermodules. simpl.
    destruct (decide (p1 = nullptr)) as [|_]; [done|].
    destruct (decide (p2 = nullptr)) as [|_]; [done|].
    do 3 (split; [done|]). intros Hvalid. modules_not_null Hvalid. done.
  - subst res. right. left. unfold result, heap_after, calls. simpl.
    split; [by eexists|].
    split; [no_fopen_failure|].
    split.
    { apply pipeline_creation_failed_app. right.
      apply pipeline_creation_failed_app. right.
      eexists _, _, _, _, _. do 3 right. left. }
    rewrite !allocated_blocks_app, !freed_blocks_app,
      !created_shadermodules_app, !destroyed_shadermodules_app,
      Hc1, Hd1, Hc2, Hd2, Ha1, Hfr1, Ha2, Hfr2.
    split; [done|]. split; [done|].
    exists p1, p2, data1, data2, vm, fm.
    split; [done|]. split; [done|].
    split; [by rewrite lookup_insert_ne in Hf2|]. done.
Qed.

(** ** One frame *)

(** A frame does not touch the heap, and its calls do not depend on it. *)
Lemma vulkan_frame_draw_heap fd vk h :
  vulkan_frame_draw fd vk h
  = (result (vulkan_frame_draw fd vk ∅), h, calls (vulkan_frame_draw fd vk ∅)).
Proof.
  unfold vulkan_frame_draw, vulkan_commandbuffer_record. unfold_M.
  destruct (fd_acquire fd); simpl; [|reflexivity].
  destruct (fd_reset_ok fd); simpl; [|reflexivity].
  destruct (fd_begin_ok fd); simpl; [|reflexivity].
  destruct (fd_end_ok fd); simpl; [|reflexivity].
  destruct (fd_submit_ok fd); simpl; [|reflexivity].
  destruct (fd_present_ok fd); simpl; reflexivity.
Qed.

(** The calls of a frame are an initial part of [frame_sequence] that
    reaches at least the image acquisition. *)
Lemma vulkan_frame_draw_calls fd vk h :
  ∃ n, (3 ≤ n)%nat
       ∧ calls (vulkan_frame_draw fd vk h)
         = take n (frame_sequence vk (default 0 (fd_acquire fd))).
Proof.
  unfold vulkan_frame_draw, vulkan_commandbuffer_record, frame_sequence.
  unfold_M.
  destruct (fd_acquire fd) as [i|]; simpl; [|exists 3%nat; split; [lia|done]].
  destruct (fd_reset_ok fd); simpl; [|exists 4%nat; split; [lia|done]].
  destruct (fd_begin_ok fd); simpl; [|exists 5%nat; split; [lia|done]].
  destruct (fd_end_ok fd); simpl; [|exists 12%nat; split; [lia|done]].
  destruct (fd_submit_ok fd); simpl; [|exists 13%nat; split; [lia|done]].
  destruct (fd_present_ok fd); simpl; exists 14%nat; split; (lia || done).
Qed.

(** C3 (code defect).  Every frame starts with [vkWaitForFences] on the
    in-flight fence followed by [vkResetFences] on it, before anything
    else; but the timeout passed to the wait is [UINT32_MAX] nanoseconds,
    which is less than the all-ones 64-bit value that stands for an
    unbounded wait, and the outcome of the wait is not looked at. *)
Theorem C3_fence_wait_is_bounded fd vk h :
  (∃ rest,
     calls (vulkan_frame_draw fd vk h)
     = vkWaitForFences (device vk) (frame_in_flight vk) true 4294967295
       :: vkResetFences (device vk) (frame_in_flight vk)
       :: rest)
  ∧ 4294967295 = UINT32_MAX
  ∧ UINT32_MAX < UINT64_MAX.
Proof.
  split; [|split; [reflexivity|reflexivity]].
  destruct (vulkan_frame_draw_calls fd vk h) as (n & Hn & ->).
  destruct n as [|[|n]]; [lia|lia|]. simpl. eauto.
Qed.

(** ** The frame loop *)

Lemma acquire_follows_fence_nil vk : acquire_follows_fence vk [].
Proof. intros [|c0 pre] c post Hsplit; discriminate Hsplit. Qed.

Lemma acquire_follows_fence_app vk l1 l2 :
  acquire_follows_fence vk l1 → acquire_follows_fence vk l2 →
  acquire_follows_fence vk (l1 ++ l2).
Proof.
  intros H1 H2 pre c post Hsplit Hstep.
  apply app_eq_app in Hsplit as (l & [[-> Hl]|[-> ->]]).
  - destruct l as [|c' l]; simpl in Hl.
    + destruct (H2 [] c post) as (pre' & Hpre'); [by rewrite Hl|done|].
      destruct pre'; discriminate Hpre'.
    + injection Hl as <- ->. by apply (H1 pre c l).
  - destruct (H2 l c post) as (pre' & ->); [done|done|].
    exists (l1 ++ pre'). by rewrite app_assoc.
Qed.

Lemma vulkan_frame_draw_acquire_follows_fence fd vk h :
  acquire_follows_fence vk (glfwPollEvents :: calls (vulkan_frame_draw fd vk h)).
Proof.
  intros pre c post Hsplit Hstep.
  destruct (vulkan_frame_draw_calls fd vk h) as (n & Hn & Hcalls).
  rewrite Hcalls in Hsplit. clear Hcalls.
  destruct pre as [|c0 pre]; simpl in Hsplit;
    [injection Hsplit as <- _; discriminate Hstep|injection Hsplit as <- Hsplit].
  do 3 (destruct n as [|n]; [lia|]). simpl in Hsplit.
  destruct pre as [|c1 pre]; simpl in Hsplit;
    [injection Hsplit as <- _; discriminate Hstep|injection Hsplit as <- Hsplit].
  destruct pre as [|c2 pre]; simpl in Hsplit;
    [injection Hsplit as <- _; discriminate Hstep|injection Hsplit as <- Hsplit].
  destruct pre as [|c3 pre]; simpl in Hsplit.
  { by exists [glfwPollEvents]. }
  injection Hsplit as <- Hsplit. exfalso.
  do 11 (destruct n as [|n]; simpl in Hsplit;
         [by destruct pre|];
         destruct pre as [|? pre]; simpl in Hsplit;
         [injection Hsplit as <- _; discriminate Hstep
         |injection Hsplit as <- Hsplit]).
  rewrite take_nil in Hsplit. by destruct pre.
Qed.

Lemma application_mainloop_eq frames app h :
  application_mainloop frames app h
  = (true, h,
     concat ((λ fd, glfwPollEvents
                    :: calls (vulkan_frame_draw fd (app_vulkan app) h))
             <$> frames)).
Proof.
  induction frames as [|fd frames IH]; [reflexivity|].
  simpl. unfold bind at 1 2. simpl.
  rewrite (vulkan_frame_draw_heap fd (app_vulkan app) h). rewrite IH.
  reflexivity.
Qed.

(** C5.  The calls of [N] iterations are the calls of the first
    iteration, then those of the second, and so on; each iteration polls
    events and then makes an initial part, at least three calls long, of
    the sequence fence wait, fence reset, image acquire, command-buffer
    reset and record, queue submit, present; and in the whole log every
    image acquisition comes directly after the wait on the in-flight fence
    and its reset. *)
Theorem C5_frame_order frames app h :
  let vk := app_vulkan app in
  let log := calls (application_mainloop frames app h) in
  log = concat ((λ fd, glfwPollEvents :: calls (vulkan_frame_draw fd vk h))
                <$> frames)
  ∧ (∀ fd, ∃ n, (3 ≤ n)%nat
       ∧ calls (vulkan_frame_draw fd vk h)
         = take n (frame_sequence vk (default 0 (fd_acquire fd))))
  ∧ (∀ i, omap step_of (frame_sequence vk i)
          = [FenceWait; FenceReset; ImageAcquire]
            ++ replicate 9 Record ++ [Submit; Present])
  ∧ acquire_follows_fence vk log.
Proof.
  intros vk log. subst log. rewrite application_mainloop_eq. fold vk.
  unfold calls at 1 3. simpl.
  split; [reflexivity|]. split; [intros fd; apply vulkan_frame_draw_calls|].
  split; [reflexivity|].
  induction frames as [|fd frames IH]; simpl.
  - apply acquire_follows_fence_nil.
  - apply (acquire_follows_fence_app vk
             (glfwPollEvents :: calls (vulkan_frame_draw fd vk h))); [|exact IH].
    apply vulkan_frame_draw_acquire_follows_fence.
Qed.

(** C5 at two frames in which nothing fails. *)
Lemma C5_frame_order_witness :
  length (calls (application_mainloop [good_frame; good_frame]
                   application_zero ∅)) = 30%nat
  ∧ acquire_follows_fence vulkan_zero
      (calls (application_mainloop [good_frame; good_frame] application_zero ∅)).
Proof.
  split; [reflexivity|].
  apply (C5_frame_order [good_frame; good_frame] application_zero ∅).
Defined.

(** ** Creation order *)

Lemma objects_created_app l1 l2 :
  objects_created (l1 ++ l2) = objects_created l1 ++ objects_created l2.
Proof. unfold objects_created. rewrite omap_app. apply List.filter_app. Qed.

Lemma returns_Some {A} (m : M A) h a h' l :
  returns m h = (Some a, h', l) → m h = (a, h', l).
Proof.
  unfold returns, bind, ret. destruct (m h) as [[a0 h0] l0].
  rewrite app_nil_r. by intros [= -> -> ->].
Qed.

Lemma stage_then_true stage rest h vk' h' l :
  stage_then stage rest h = (Some (true, vk'), h', l) →
  ∃ vk1 h1 l1 l2,
    stage h = (Some (true, vk1), h1, l1)
    ∧ rest vk1 h1 = (Some (true, vk'), h', l2)
    ∧ l = l1 ++ l2.
Proof.
  unfold stage_then, bindK, bind.
  destruct (stage h) as [[[[ok vk1]|] h1] l1]; [|discriminate].
  destruct ok; simpl.
  - destruct (rest vk1 h1) as [[o2 h2] l2] eqn:Hrest.
    intros [= -> -> <-]. by exists vk1, h1, l1, l2.
  - discriminate.
Qed.

Lemma swapchain_image_count_le caps n :
  swapchain_image_count caps = Some n → n ≤ MAX_SWAPCHAIN_IMAGES.
Proof.
  unfold swapchain_image_count, MAX_SWAPCHAIN_IMAGES.
  destruct (minImageCount caps >? 10); [discriminate|].
  intros [= <-]. repeat case_match; lia.
Qed.

Lemma vk_count_fill_le {A} count (available : list A) :
  0 ≤ vk_count (vk_fill count available) ∧
  (0 ≤ count → vk_count (vk_fill count available) ≤ count).
Proof.
  unfold vk_count, vk_fill. rewrite length_take. lia.
Qed.

Lemma at_index_insert_eq (a : list handle) i x :
  (i < length a)%nat → at_index (<[i:=x]> a) i = x.
Proof.
  intros Hi. unfold at_index.
  apply nth_lookup_Some with (d := VK_NULL_HANDLE).
  by apply list_lookup_insert_eq.
Qed.

Lemma at_index_insert_ne (a : list handle) i j x :
  i ≠ j → at_index (<[i:=x]> a) j = at_index a j.
Proof.
  intros Hne. unfold at_index. rewrite !nth_lookup.
  by rewrite list_lookup_insert_ne.
Qed.

Lemma set_swapchain_imageviews_twice a b vk :
  set_swapchain_imageviews a (set_swapchain_imageviews b vk)
  = set_swapchain_imageviews a vk.
Proof. by destruct vk. Qed.

Lemma set_swapchain_framebuffers_twice a b vk :
  set_swapchain_framebuffers a (set_swapchain_framebuffers b vk)
  = set_swapchain_framebuffers a vk.
Proof. by destruct vk. Qed.

Lemma set_swapchain_imageviews_same vk :
  set_swapchain_imageviews (swapchain_imageviews vk) vk = vk.
Proof. by destruct vk. Qed.

Lemma set_swapchain_framebuffers_same vk :
  set_swapchain_framebuffers (swapchain_framebuffers vk) vk = vk.
Proof. by destruct vk. Qed.

Lemma file_read_creates_nothing c filename content content_size h :
  omap created_by (calls (file_read c filename content content_size h)) = [].
Proof.
  unfold file_read, file_read_cleanup, c_fclose, c_malloc, c_fread, c_free.
  unfold_M.
  destruct (fs c filename) as [f|]; simpl; [|reflexivity].
  destruct (fseek_ok f); simpl; [|reflexivity].
  destruct (to_size_t (c_ftell f) =? to_size_t (-1)); simpl; [reflexivity|].
  destruct (malloc_ok c h _); simpl; [|reflexivity].
  destruct (decide (_ = nullptr)); simpl; [reflexivity|].
  destruct (fread_ok f && _); simpl; reflexivity.
Qed.

(** The creation steps against one driver: what each leaves in
    [struct vulkan] and which objects it creates when it succeeds. *)
Section Steps.

Context (d : driver).

Lemma vulkan_instance_create_true vk h vk' h' l :
  vulkan_instance_create d vk h = ((true, vk'), h', l) →
  ∃ i, vk' = set_instance i vk ∧ h' = h ∧ objects_created l = [(ObjInstance, i)].
Proof.
  unfold vulkan_instance_create. unfold_M.
  destruct (enable_validation_layers vk && _); simpl; [discriminate|].
  destruct (drv_instance d) as [i|]; simpl; [|discriminate].
  intros [= <- <- <-]. by exists i.
Qed.

Lemma vulkan_surface_create_true vk h vk' h' l :
  vulkan_surface_create d vk h = ((true, vk'), h', l) →
  ∃ s, vk' = set_surface s vk ∧ h' = h ∧ objects_created l = [(ObjSurface, s)].
Proof.
  unfold vulkan_surface_create. unfold_M.
  destruct (drv_surface d) as [s|]; simpl; [|discriminate].
  intros [= <- <- <-]. by exists s.
Qed.

Lemma vulkan_physicaldevice_find_true vk h vk' h' l :
  vulkan_physicaldevice_find d vk h = ((true, vk'), h', l) →
  ∃ p, vk' = set_physicaldevice p vk ∧ h' = h ∧ l = [].
Proof.
  unfold vulkan_physicaldevice_find. unfold_M.
  destruct (enumerate_physicaldevices d) as [devices|]; simpl; [|discriminate].
  intros [= <- <- <-]. by eexists.
Qed.

Lemma vulkan_queuefamily_find_true vk h vk' h' l :
  vulkan_queuefamily_find d vk h = ((true, vk'), h', l) →
  ∃ g p, vk' = set_present_queuefamily_index p
                 (set_graphics_queuefamily_index g vk)
         ∧ h' = h ∧ l = [].
Proof.
  unfold vulkan_queuefamily_find. unfold_M.
  destruct (enumerate_queuefamilies d) as [table|]; simpl; [|discriminate].
  destruct (scan_first has_graphics table 0) as [g|];
    destruct (scan_first has_present table 0) as [p|]; simpl;
    try discriminate.
  intros [= <- <- <-]. by exists g, p.
Qed.

Lemma vulkan_device_create_true vk h vk' h' l :
  vulkan_device_create d vk h = ((true, vk'), h', l) →
  ∃ dv gq pq,
    vk' = set_present_queue pq (set_graphics_queue gq (set_device dv vk))
    ∧ h' = h ∧ objects_created l = [(ObjDevice, dv)].
Proof.
  unfold vulkan_device_create. unfold_M.
  destruct (enumerate_device_extensions d) as [exts|]; simpl; [|discriminate].
  destruct (existsb _ exts); simpl; [|discriminate].
  destruct (drv_device d) as [dv|]; simpl; [|discriminate].
  intros [= <- <- <-]. by eexists dv, _, _.
Qed.

Lemma vulkan_swapchain_create_true vk h vk' h' l :
  vulkan_swapchain_create d vk h = ((true, vk'), h', l) →
  ∃ sc imgs n fmt ext,
    vk' = set_swapchain_extent ext
            (set_swapchain_image_format fmt
               (set_swapchain_images_count n
                  (set_swapchain_images imgs (set_swapchain sc vk))))
    ∧ 0 ≤ n ≤ MAX_SWAPCHAIN_IMAGES
    ∧ h' = h ∧ objects_created l = [(ObjSwapchain, sc)].
Proof.
  unfold vulkan_swapchain_create. unfold_M.
  destruct (enumerate_surface_formats d) as [fmts|]; simpl; [|discriminate].
  destruct (enumerate_present_modes d) as [modes|]; simpl; [|discriminate].
  destruct (find is_wanted_format fmts) as [fmt|]; simpl; [|discriminate].
  destruct (swapchain_image_count (drv_capabilities d)) as [n|] eqn:Hn; simpl;
    [|discriminate].
  destruct (drv_swapchain d) as [sc|]; simpl; [|discriminate].
  intros [= <- <- <-]. eexists sc, _, _, _, _.
  split; [reflexivity|]. split; [|done].
  apply swapchain_image_count_le in Hn.
  pose proof (vk_count_fill_le n (drv_swapchain_images d)) as [H0 Hle].
  split; [exact H0|].
  destruct (Z.le_gt_cases 0 n) as [Hpos|Hneg]; [specialize (Hle Hpos); lia|].
  unfold vk_count, vk_fill, MAX_SWAPCHAIN_IMAGES.
  replace (Z.to_nat n) with 0%nat by lia. simpl. lia.
Qed.

Lemma imageviews_loop_true m : ∀ k vk h vk' h' l,
  imageviews_loop d (seq k m) vk h = ((true, vk'), h', l) →
  (k + m ≤ length (swapchain_imageviews vk))%nat →
  ∃ views,
    vk' = set_swapchain_imageviews views vk
    ∧ length views = length (swapchain_imageviews vk)
    ∧ (∀ j, (j < k)%nat →
            at_index views j = at_index (swapchain_imageviews vk) j)
    ∧ h' = h
    ∧ objects_created l = (λ i, (ObjImageView, at_index views i)) <$> seq k m.
Proof.
  induction m as [|m IH]; intros k vk h vk' h' l; simpl.
  - unfold_M. intros [= <- <- <-] _. exists (swapchain_imageviews vk).
    by rewrite set_swapchain_imageviews_same.
  - unfold bind at 1. unfold emit at 1.
    destruct (drv_imageview d k) as [v|]; [|discriminate].
    destruct (imageviews_loop d (seq (S k) m) _ h) as [[[ok vk2] h2] l2] eqn:Hloop.
    intros [= -> -> -> <-] Hlen.
    apply IH in Hloop as (views & -> & Hlenv & Hprefix & -> & Hobjs).
    2:{ destruct vk; simpl in *. rewrite length_insert. lia. }
    exists views. rewrite set_swapchain_imageviews_twice.
    assert (swapchain_imageviews
              (set_swapchain_imageviews (<[k:=v]> (swapchain_imageviews vk)) vk)
            = <[k:=v]> (swapchain_imageviews vk)) as Hset by (by destruct vk).
    rewrite Hset in *. rewrite length_insert in Hlenv.
    split; [done|]. split; [done|]. split; [|split; [done|]].
    + intros j Hj. rewrite Hprefix by lia. apply at_index_insert_ne. lia.
    + change (vkCreateImageView ?a ?b ?c ?r :: l2)
        with ([vkCreateImageView a b c r] ++ l2).
      rewrite objects_created_app, Hobjs. simpl. f_equal.
      rewrite Hprefix by lia. f_equal. symmetry. apply at_index_insert_eq. lia.
Qed.

Lemma vulkan_imageviews_create_true vk h vk' h' l :
  vulkan_imageviews_create d vk h = ((true, vk'), h', l) →
  (Z.to_nat (swapchain_images_count vk) ≤ length (swapchain_imageviews vk))%nat →
  ∃ views,
    vk' = set_swapchain_imageviews_count (swapchain_images_count vk)
            (set_swapchain_imageviews views vk)
    ∧ h' = h
    ∧ objects_created l
      = (λ i, (ObjImageView, at_index views i))
        <$> seq 0 (Z.to_nat (swapchain_images_count vk)).
Proof.
  unfold vulkan_imageviews_create, bind.
  destruct (imageviews_loop d _ vk h) as [[[ok vk1] h1] l1] eqn:Hloop.
  destruct ok; simpl; [|discriminate].
  intros [= <- <- <-] Hlen.
  apply imageviews_loop_true in Hloop as (views & -> & _ & _ & -> & Hobjs);
    [|simpl; lia].
  exists views. rewrite app_nil_r.
  split; [by destruct vk|]. done.
Qed.

Lemma vulkan_renderpass_create_true vk h vk' h' l :
  vulkan_renderpass_create d vk h = ((true, vk'), h', l) →
  ∃ rp, vk' = set_render_pass rp vk ∧ h' = h
        ∧ objects_created l = [(ObjRenderPass, rp)].
Proof.
  unfold vulkan_renderpass_create. unfold_M.
  destruct (drv_renderpass d) as [rp|]; simpl; [|discriminate].
  intros [= <- <- <-]. by exists rp.
Qed.

Lemma vulkan_graphicspipeline_create_true vk h vk' h' l :
  vulkan_graphicspipeline_create d vk h = (Some (true, vk'), h', l) →
  ∃ layout pipeline,
    vk' = set_graphics_pipeline pipeline (set_pipeline_layout layout vk)
    ∧ objects_created l
      = [(ObjPipelineLayout, layout); (ObjPipeline, pipeline)].
Proof.
  unfold vulkan_graphicspipeline_create, graphicspipeline_cleanup,
    vulkan_shadermodule_create.
  unfold bindK at 1. unfold bind at 1.
  pose proof (file_read_creates_nothing (drv_libc d) "./shaders/vertex.spv"
                nullptr 0 h) as Hread1.
  destruct (file_read (drv_libc d) "./shaders/vertex.spv" nullptr 0 h)
    as [[[[ok1 [vcode vsize]]|] h1] l1]; [|unfold_M; discriminate].
  destruct ok1; simpl; [|unfold_M; discriminate].
  unfold bindK at 1. unfold bind at 1.
  pose proof (file_read_creates_nothing (drv_libc d) "./shaders/fragment.spv"
                nullptr 0 h1) as Hread2.
  destruct (file_read (drv_libc d) "./shaders/fragment.spv" nullptr 0 h1)
    as [[[[ok2 [fcode fsize]]|] h2] l2]; [|unfold_M; discriminate].
  destruct ok2; simpl; [|unfold_M; discriminate].
  unfold calls in Hread1, Hread2. simpl in Hread1, Hread2.
  unfold c_free. unfold_M.
  destruct (drv_shadermodule d (default [] (h2 !! vcode))) as [vm|]; simpl;
    [|discriminate].
  destruct (drv_shadermodule d (default [] (h2 !! fcode))) as [fm|]; simpl;
    [|discriminate].
  destruct (drv_pipeline_layout d) as [layout|]; simpl; [|discriminate].
  destruct (drv_pipeline d) as [pipeline|]; simpl; [|discriminate].
  intros [= <- <- <-]. exists layout, pipeline. split; [reflexivity|].
  rewrite !objects_created_app. unfold objects_created at 1 2.
  rewrite Hread1, Hread2. reflexivity.
Qed.

Lemma framebuffers_loop_true m : ∀ k vk h vk' h' l,
  framebuffers_loop d (seq k m) vk h = ((true, vk'), h', l) →
  (k + m ≤ length (swapchain_framebuffers vk))%nat →
  ∃ fbs,
    vk' = set_swapchain_framebuffers fbs vk
    ∧ length fbs = length (swapchain_framebuffers vk)
    ∧ (∀ j, (j < k)%nat →
            at_index fbs j = at_index (swapchain_framebuffers vk) j)
    ∧ h' = h
    ∧ objects_created l = (λ i, (ObjFramebuffer, at_index fbs i)) <$> seq k m.
Proof.
  induction m as [|m IH]; intros k vk h vk' h' l; simpl.
  - unfold_M. intros [= <- <- <-] _. exists (swapchain_framebuffers vk).
    by rewrite set_swapchain_framebuffers_same.
  - unfold bind at 1. unfold emit at 1.
    destruct (drv_framebuffer d k) as [v|]; [|discriminate].
    destruct (framebuffers_loop d (seq (S k) m) _ h) as [[[ok vk2] h2] l2] eqn:Hloop.
    intros [= -> -> -> <-] Hlen.
    apply IH in Hloop as (fbs & -> & Hlenv & Hprefix & -> & Hobjs).
    2:{ destruct vk; simpl in *. rewrite length_insert. lia. }
    exists fbs. rewrite set_swapchain_framebuffers_twice.
    assert (swapchain_framebuffers
              (set_swapchain_framebuffers (<[k:=v]> (swapchain_framebuffers vk)) vk)
            = <[k:=v]> (swapchain_framebuffers vk)) as Hset by (by destruct vk).
    rewrite Hset in *. rewrite length_insert in Hlenv.
    split; [done|]. split; [done|]. split; [|split; [done|]].
    + intros j Hj. rewrite Hprefix by lia. apply at_index_insert_ne. lia.
    + change (vkCreateFramebuffer ?a ?b ?c ?e ?r :: l2)
        with ([vkCreateFramebuffer a b c e r] ++ l2).
      rewrite objects_created_app, Hobjs. simpl. f_equal.
      rewrite Hprefix by lia. f_equal. symmetry. apply at_index_insert_eq. lia.
Qed.

Lemma vulkan_framebuffers_create_true vk h vk' h' l :
  vulkan_framebuffers_create d vk h = ((true, vk'), h', l) →
  (Z.to_nat (swapchain_imageviews_count vk)
   ≤ length (swapchain_framebuffers vk))%nat →
  ∃ fbs,
    vk' = set_swapchain_framebuffers_count (swapchain_imageviews_count vk)
            (set_swapchain_framebuffers fbs vk)
    ∧ h' = h
    ∧ objects_created l
      = (λ i, (ObjFramebuffer, at_index fbs i))
        <$> seq 0 (Z.to_nat (swapchain_imageviews_count vk)).
Proof.
  unfold vulkan_framebuffers_create, bind.
  destruct (framebuffers_loop d _ vk h) as [[[ok vk1] h1] l1] eqn:Hloop.
  destruct ok; simpl; [|discriminate].
  intros [= <- <- <-] Hlen.
  apply framebuffers_loop_true in Hloop as (fbs & -> & _ & _ & -> & Hobjs);
    [|simpl; lia].
  exists fbs. rewrite app_nil_r.
  split; [by destruct vk|]. done.
Qed.

Lemma vulkan_commandpool_create_true vk h vk' h' l :
  vulkan_commandpool_create d vk h = ((true, vk'), h', l) →
  ∃ cp, vk' = set_command_pool cp vk ∧ h' = h
        ∧ objects_created l = [(ObjCommandPool, cp)].
Proof.
  unfold vulkan_commandpool_create. unfold_M.
  destruct (drv_commandpool d) as [cp|]; simpl; [|discriminate].
  intros [= <- <- <-]. by exists cp.
Qed.

Lemma vulkan_commandbuffer_allocate_true vk h vk' h' l :
  vulkan_commandbuffer_allocate d vk h = ((true, vk'), h', l) →
  ∃ cb, vk' = set_command_buffer cb vk ∧ h' = h ∧ objects_created l = [].
Proof.
  unfold vulkan_commandbuffer_allocate. unfold_M.
  destruct (drv_commandbuffer d) as [cb|]; simpl; [|discriminate].
  intros [= <- <- <-]. by exists cb.
Qed.

Lemma vulkan_synchronizationobjects_create_true vk h vk' h' l :
  vulkan_synchronizationobjects_create d vk h = ((true, vk'), h', l) →
  ∃ ia rf f,
    vk' = set_frame_in_flight f
            (set_render_finished rf (set_swapchain_image_available ia vk))
    ∧ h' = h
    ∧ objects_created l
      = [(ObjSemaphore, ia); (ObjSemaphore, rf); (ObjFence, f)].
Proof.
  unfold vulkan_synchronizationobjects_create. unfold_M.
  destruct (drv_image_available d) as [ia|]; simpl; [|discriminate].
  destruct (drv_render_finished d) as [rf|]; simpl; [|discriminate].
  destruct (drv_fence d) as [f|]; simpl; [|discriminate].
  intros [= <- <- <-]. by exists ia, rf, f.
Qed.

(** The objects a successful [vulkan_init] leaves behind, in the order
    it created them. *)
Lemma vulkan_init_true vk0 h vk h' l :
  vulkan_init d vk0 h = (Some (true, vk), h', l) →
  length (swapchain_imageviews vk0) = Z.to_nat MAX_SWAPCHAIN_IMAGES →
  length (swapchain_framebuffers vk0) = Z.to_nat MAX_SWAPCHAIN_IMAGES →
  window vk = window vk0
  ∧ objects_created l
    = concat (tail (teardown_groups (Application (window vk0) vk))).
Proof.
  unfold vulkan_init. intros Hinit Hviews Hfbs.
  repeat match type of Hinit with
         | stage_then _ _ _ = _ =>
             let vk1 := fresh "vk" in
             let h1 := fresh "h" in
             let l1 := fresh "l" in
             let Hs := fresh "Hstage" in
             apply stage_then_true in Hinit
               as (vk1 & h1 & l1 & ? & Hs & Hinit & ->);
             try apply returns_Some in Hs
         end.
  injection Hinit as <- <- <-.
  apply vulkan_instance_create_true in Hstage as (i & -> & -> & Hl1).
  apply vulkan_surface_create_true in Hstage0 as (s & -> & -> & Hl2).
  apply vulkan_physicaldevice_find_true in Hstage1 as (p & -> & -> & ->).
  apply vulkan_queuefamily_find_true in Hstage2 as (gi & pi & -> & -> & ->).
  apply vulkan_device_create_true in Hstage3 as (dv & gq & pq & -> & -> & Hl5).
  apply vulkan_swapchain_create_true in Hstage4
    as (sc & imgs & n & fmt & ext & -> & Hn & -> & Hl6).
  unfold MAX_SWAPCHAIN_IMAGES in *.
  apply vulkan_imageviews_create_true in Hstage5 as (views & -> & -> & Hl7).
  2:{ destruct vk0; simpl in *. lia. }
  apply vulkan_renderpass_create_true in Hstage6 as (rp & -> & -> & Hl8).
  apply vulkan_graphicspipeline_create_true in Hstage7
    as (layout & pipeline & -> & Hl9).
  apply vulkan_framebuffers_create_true in Hstage8 as (fbs & -> & -> & Hl10).
  2:{ destruct vk0; simpl in *. lia. }
  apply vulkan_commandpool_create_true in Hstage9 as (cp & -> & -> & Hl11).
  apply vulkan_commandbuffer_allocate_true in Hstage10 as (cb & -> & -> & Hl12).
  apply vulkan_synchronizationobjects_create_true in Hstage11
    as (ia & rf & f & -> & -> & Hl13).
  rewrite !objects_created_app.
  rewrite Hl1, Hl2, Hl5, Hl6, Hl7, Hl8, Hl9, Hl10, Hl11, Hl12, Hl13.
  destruct vk0; simpl. split; [reflexivity|].
  rewrite <- ?app_assoc. reflexivity.
Qed.

End Steps.

Lemma application_create_true d config h app h' l :
  application_create d config application_zero h = (Some (true, app), h', l) →
  objects_created l = concat (teardown_groups app).
Proof.
  unfold application_create, application_zero. unfold bind at 1. unfold emit at 1.
  destruct (drv_glfw_init d); simpl; [|unfold_M; discriminate].
  unfold bind at 1. unfold emit at 1.
  destruct (decide (drv_window d = nullptr)) as [|Hwin]; simpl;
    [unfold_M; discriminate|].
  unfold bindK at 1. unfold bind at 1.
  destruct (vulkan_init d _ h) as [[[[ok vk]|] h1] l1] eqn:Hinit;
    [|unfold_M; discriminate].
  unfold ret. intros [= -> <- <- <-].
  apply vulkan_init_true in Hinit as [Hw Hobjs]; [|reflexivity|reflexivity].
  rewrite app_nil_r.
  change (glfwInit true :: glfwCreateWindow ?w ?ht ?t ?r :: l1)
    with ([glfwInit true; glfwCreateWindow w ht t r] ++ l1).
  rewrite objects_created_app, Hobjs.
  unfold objects_created at 1. simpl.
  destruct (decide (drv_window d = nullptr)); [done|]. reflexivity.
Qed.

(** ** Destruction order *)

Lemma destroy_each_eq destroy a todo h :
  destroy_each destroy a todo h
  = (tt, h, (λ i, destroy (at_index a i)) <$> todo).
Proof.
  induction todo as [|i todo IH]; [reflexivity|].
  simpl. unfold bind, emit. rewrite IH. reflexivity.
Qed.

Lemma objects_destroyed_each destroy kind a todo :
  (∀ x, destroyed_by (destroy x) = Some (kind, x)) →
  objects_destroyed ((λ i, destroy (at_index a i)) <$> todo)
  = (λ i, (kind, at_index a i)) <$> todo.
Proof.
  intros Hd. unfold objects_destroyed.
  induction todo as [|i todo IH]; [reflexivity|].
  rewrite !fmap_cons. cbn [omap list_omap]. rewrite Hd. f_equal. exact IH.
Qed.

Lemma objects_destroyed_app l1 l2 :
  objects_destroyed (l1 ++ l2) = objects_destroyed l1 ++ objects_destroyed l2.
Proof. apply omap_app. Qed.

Lemma application_destroy_objects app h :
  objects_destroyed (calls (application_destroy app h))
  = concat (rev (teardown_groups app)).
Proof.
  unfold application_destroy, bind, emit. cbn beta iota zeta.
  rewrite !destroy_each_eq.
  unfold calls, teardown_groups. cbn beta iota zeta.
  cbn [snd].
  rewrite !objects_destroyed_app.
  rewrite (objects_destroyed_each _ ObjFramebuffer) by reflexivity.
  rewrite (objects_destroyed_each _ ObjImageView) by reflexivity.
  simpl. rewrite <- ?app_assoc. reflexivity.
Qed.

(** C4, as stated, fails: with the well-behaved driver initialisation
    succeeds, and the teardown does not destroy the objects in the reverse
    of their creation order (the image-available semaphore is created
    before the fence and also destroyed before it). *)
Lemma C4_counterexample :
  let r := application_create good_driver main_config application_zero ∅ in
  ¬ (∀ app, result r = Some (true, app) →
     objects_destroyed (calls (application_destroy app (heap_after r)))
     = rev (objects_created (calls r))).
Proof.
  intros r Hclaim.
  assert (∃ app, result r = Some (true, app)) as [app Happ]
    by (eexists; vm_compute; reflexivity).
  specialize (Hclaim app Happ).
  vm_compute in Happ. injection Happ as <-.
  vm_compute in Hclaim. discriminate Hclaim.
Qed.

(** C4 (amended).  After a successful [application_create], the objects
    left for the teardown were created group by group in the order of
    [teardown_groups] (window, instance, surface, device, swapchain, image
    views, render pass, pipeline layout, pipeline, framebuffers, command
    pool, synchronisation objects), and [application_destroy] destroys the
    groups in the reverse order while keeping creation order inside a
    group: image-available semaphore, render-finished semaphore, fence;
    framebuffers and image views by ascending index. *)
Theorem C4_teardown_order d config h app h' l
    (Hcreate : application_create d config application_zero h
               = (Some (true, app), h', l)) :
  objects_created l = concat (teardown_groups app)
  ∧ ∀ h'', objects_destroyed (calls (application_destroy app h''))
           = concat (rev (teardown_groups app)).
Proof.
  split; [by eapply application_create_true|].
  intros h''. apply application_destroy_objects.
Qed.

(** C4 (amended) at the well-behaved adapter. *)
Lemma C4_teardown_order_witness :
  let r := application_create good_driver main_config application_zero ∅ in
  ∃ app,
  result r = Some (true, app)
  ∧ objects_created (calls r)
  = [ (ObjWindow, 1%N); (ObjInstance, 2%N); (ObjSurface, 3%N);
      (ObjDevice, 5%N); (ObjSwapchain, 10%N);
      (ObjImageView, 20%N); (ObjImageView, 21%N); (ObjImageView, 22%N);
      (ObjRenderPass, 30%N); (ObjPipelineLayout, 50%N); (ObjPipeline, 51%N);
      (ObjFramebuffer, 60%N); (ObjFramebuffer, 61%N); (ObjFramebuffer, 62%N);
      (ObjCommandPool, 70%N);
      (ObjSemaphore, 80%N); (ObjSemaphore, 81%N); (ObjFence, 82%N) ]
  ∧ objects_destroyed (calls (application_destroy app ∅))
    = [ (ObjSemaphore, 80%N); (ObjSemaphore, 81%N); (ObjFence, 82%N);
        (ObjCommandPool, 70%N);
        (ObjFramebuffer, 60%N); (ObjFramebuffer, 61%N); (ObjFramebuffer, 62%N);
        (ObjPipeline, 51%N); (ObjPipelineLayout, 50%N); (ObjRenderPass, 30%N);
        (ObjImageView, 20%N); (ObjImageView, 21%N); (ObjImageView, 22%N);
        (ObjSwapchain, 10%N); (ObjDevice, 5%N); (ObjSurface, 3%N);
        (ObjInstance, 2%N); (ObjWindow, 1%N) ].
Proof.
  intros r.
  assert (∃ app, application_create good_driver main_config application_zero ∅
                 = (Some (true, app), heap_after r, calls r))
    as [app Hcreate] by (eexists; vm_compute; reflexivity).
  destruct (C4_teardown_order good_driver main_config ∅ app
              (heap_after r) (calls r) Hcreate) as [Hcreated Hdestroyed].
  exists app. split; [|split].
  - subst r. unfold result. by rewrite Hcreate.
  - rewrite Hcreated. vm_compute in Hcreate. injection Hcreate as <-.
    vm_compute. reflexivity.
  - rewrite Hdestroyed. vm_compute in Hcreate. injection Hcreate as <-.
    vm_compute. reflexivity.
Defined.

(** * Further properties *)

(** ** Validation layers and instance *)

Lemma vulkan_validationlayers_check_true d validation_layers :
  vulkan_validationlayers_check d validation_layers = true
  ↔ vk_count (drv_layers d) ≤ MAX_TMP_BUFFER
    ∧ ∀ name, name ∈ validation_layers → name ∈ drv_layers d.
Proof.
  unfold vulkan_validationlayers_check. rewrite enumerate_layers_eq.
  destruct (Z.gtb_spec (vk_count (drv_layers d)) MAX_TMP_BUFFER) as [Hbig|Hfit].
  - split; [discriminate|]. intros [Hle _]. lia.
  - rewrite forallb_forall. split.
    + intros Hall. split; [lia|]. intros name Hname.
      apply list_elem_of_In, Hall, existsb_exists in Hname as (l & Hl & Heq).
      apply String.eqb_eq in Heq as ->. by apply list_elem_of_In.
    + intros [_ Hall] name Hname. apply existsb_exists. exists name.
      split; [|apply String.eqb_refl].
      by apply list_elem_of_In, Hall, list_elem_of_In.
Qed.

(** X1.  The layer check answers yes exactly when the driver reports at
    most 256 layers and every requested name is among them; in particular
    an empty request passes whenever the list fits. *)
Theorem X1_validationlayers_check_iff d validation_layers :
  (vulkan_validationlayers_check d validation_layers = true
   ↔ vk_count (drv_layers d) ≤ MAX_TMP_BUFFER
     ∧ ∀ name, name ∈ validation_layers → name ∈ drv_layers d)
  ∧ (vulkan_validationlayers_check d [] = true
     ↔ vk_count (drv_layers d) ≤ MAX_TMP_BUFFER).
Proof.
  split; [apply vulkan_validationlayers_check_true|].
  rewrite vulkan_validationlayers_check_true. split; [tauto|].
  intros Hfit. split; [done|]. by intros name ?%elem_of_nil.
Qed.

(** X2.  [vulkan_instance_create] asks for the Khronos validation layer
    exactly when validation is enabled, and then only after finding that
    layer among at most 256 enumerated ones; when validation is enabled
    and the layer is absent it fails without calling [vkCreateInstance]
    and without touching [struct vulkan]. *)
Theorem X2_instance_create_layers d vk h :
  let r := vulkan_instance_create d vk h in
  (∀ layers answer,
     vkCreateInstance layers answer ∈ calls r →
     answer = drv_instance d
     ∧ layers = (if enable_validation_layers vk
                 then [VK_LAYER_KHRONOS_validation] else [])
     ∧ (enable_validation_layers vk = true →
        vk_count (drv_layers d) ≤ MAX_TMP_BUFFER
        ∧ VK_LAYER_KHRONOS_validation ∈ drv_layers d))
  ∧ (enable_validation_layers vk = true →
     VK_LAYER_KHRONOS_validation ∉ drv_layers d →
     r = ((false, vk), h, [])).
Proof.
  intros r. subst r. unfold vulkan_instance_create.
  destruct (enable_validation_layers vk) eqn:Hen; simpl.
  - destruct (vulkan_validationlayers_check d [VK_LAYER_KHRONOS_validation])
      eqn:Hcheck; simpl.
    + apply vulkan_validationlayers_check_true in Hcheck as [Hfit Hall].
      assert (VK_LAYER_KHRONOS_validation ∈ drv_layers d) as Hin
        by (apply Hall; left).
      split; [|done]. unfold_M.
      destruct (drv_instance d); simpl;
        intros layers answer [[= -> ->]|?%elem_of_nil]%elem_of_cons; done.
    + split; [unfold_M; by intros ?? ?%elem_of_nil|reflexivity].
  - split; [|discriminate]. unfold_M.
    destruct (drv_instance d); simpl;
      intros layers answer [[= -> ->]|?%elem_of_nil]%elem_of_cons; done.
Qed.

(** X2 at the well-behaved adapter with validation enabled. *)
Lemma X2_instance_create_layers_witness :
  let vk := set_enable_validation_layers true vulkan_zero in
  vk_count (drv_layers good_driver) ≤ MAX_TMP_BUFFER
  ∧ VK_LAYER_KHRONOS_validation ∈ drv_layers good_driver.
Proof.
  intros vk.
  destruct (X2_instance_create_layers good_driver vk ∅) as [Hcall _].
  destruct (Hcall [VK_LAYER_KHRONOS_validation] (Some 2%N)) as (_ & _ & Hlayer).
  - left.
  - by apply Hlayer.
Defined.

(** ** Adapter and queue families *)

(** X3.  [vulkan_physicaldevice_find] selects the first enumerated
    adapter, whatever else is enumerated after it: with between 1 and 256
    adapters it stores the first and changes nothing else; it creates
    nothing and leaves the heap alone. *)
Theorem X3_physicaldevice_find_first d vk h first others
    (Hdevices : drv_devices d = first :: others)
    (Hfit : vk_count (drv_devices d) ≤ MAX_TMP_BUFFER) :
  vulkan_physicaldevice_find d vk h
  = ((true, set_physicaldevice first vk), h, []).
Proof.
  unfold vulkan_physicaldevice_find. rewrite enumerate_physicaldevices_eq.
  destruct (Z.eqb_spec (vk_count (drv_devices d)) 0) as [Hzero|_].
  { apply vk_count_zero in Hzero. congruence. }
  destruct (Z.gtb_spec (vk_count (drv_devices d)) MAX_TMP_BUFFER); [lia|].
  simpl. rewrite Hdevices. reflexivity.
Qed.

(** X3 at an adapter list of two. *)
Lemma X3_physicaldevice_find_first_witness :
  physicaldevice
    (result (vulkan_physicaldevice_find
               (test_driver [4%N; 9%N] [QueueFamily 1 1] None None)
               vulkan_zero ∅)).2
  = 4%N.
Proof.
  rewrite (X3_physicaldevice_find_first
             (test_driver [4%N; 9%N] [QueueFamily 1 1] None None)
             vulkan_zero ∅ 4%N [9%N] eq_refl ltac:(vm_compute; discriminate)).
  reflexivity.
Defined.

Lemma first_index_lt {A} (p : A → bool) a i :
  first_index p a i → 0 ≤ i < vk_count a.
Proof.
  intros (Hpos & (x & Hx & _) & _). apply lookup_lt_Some in Hx.
  unfold vk_count. lia.
Qed.

(** X4.  After a successful queue-family resolution both stored indices
    are valid rows of the adapter's table, which has at most 256 rows. *)
Theorem X4_queuefamily_indices_in_range d vk h
    (Hok : (result (vulkan_queuefamily_find d vk h)).1 = true) :
  let vk' := (result (vulkan_queuefamily_find d vk h)).2 in
  0 ≤ graphics_queuefamily_index vk' < vk_count (drv_queuefamilies d)
  ∧ 0 ≤ present_queuefamily_index vk' < vk_count (drv_queuefamilies d)
  ∧ vk_count (drv_queuefamilies d) ≤ MAX_TMP_BUFFER.
Proof.
  revert Hok. unfold vulkan_queuefamily_find.
  rewrite enumerate_queuefamilies_eq.
  destruct (Z.gtb_spec (vk_count (drv_queuefamilies d)) MAX_TMP_BUFFER);
    [discriminate|].
  destruct (scan_first has_graphics (drv_queuefamilies d) 0) as [g|] eqn:Hg;
    destruct (scan_first has_present (drv_queuefamilies d) 0) as [p|] eqn:Hp;
    simpl; try discriminate.
  intros _.
  apply scan_first_first_index, first_index_lt in Hg.
  apply scan_first_first_index, first_index_lt in Hp.
  destruct vk; simpl. lia.
Qed.

(** X4 at the adapter whose family 0 draws and whose family 1 presents. *)
Lemma X4_queuefamily_indices_in_range_witness :
  let vk' := (result (vulkan_queuefamily_find split_families_driver
                        vulkan_zero ∅)).2 in
  0 ≤ graphics_queuefamily_index vk' < 2
  ∧ 0 ≤ present_queuefamily_index vk' < 2
  ∧ 2 ≤ MAX_TMP_BUFFER.
Proof.
  exact (X4_queuefamily_indices_in_range split_families_driver vulkan_zero ∅
           eq_refl).
Defined.

(** X5.  Queue-family resolution writes nothing but the two index fields
    and makes only queries; and a failure is not a no-op: when some family
    draws but none presents (in a table of at most 256 rows) it returns
    failure with the graphics index already overwritten by the first
    drawing family and the present index left as it was. *)
Theorem X5_queuefamily_find_partial_update d vk h :
  let r := vulkan_queuefamily_find d vk h in
  (∃ g p, (result r).2 = set_present_queuefamily_index p
                           (set_graphics_queuefamily_index g vk))
  ∧ heap_after r = h ∧ calls r = []
  ∧ (vk_count (drv_queuefamilies d) ≤ MAX_TMP_BUFFER →
     (∃ q, q ∈ drv_queuefamilies d ∧ has_graphics q = true) →
     (∀ q, q ∈ drv_queuefamilies d → has_present q = false) →
     (result r).1 = false
     ∧ first_index has_graphics (drv_queuefamilies d)
         (graphics_queuefamily_index (result r).2)
     ∧ present_queuefamily_index (result r).2 = present_queuefamily_index vk).
Proof.
  intros r. subst r. unfold vulkan_queuefamily_find.
  rewrite enumerate_queuefamilies_eq.
  destruct (Z.gtb_spec (vk_count (drv_queuefamilies d)) MAX_TMP_BUFFER).
  { simpl. split; [|split; [done|split; [done|lia]]].
    exists (graphics_queuefamily_index vk), (present_queuefamily_index vk).
    by destruct vk. }
  destruct (scan_first has_graphics (drv_queuefamilies d) 0) as [g|] eqn:Hg;
    destruct (scan_first has_present (drv_queuefamilies d) 0) as [p|] eqn:Hp;
    simpl.
  - split; [by exists g, p|]. split; [done|]. split; [done|].
    intros _ _ Hnone. apply scan_first_None with (i0 := 0) in Hnone. congruence.
  - split; [exists g, (present_queuefamily_index vk); by destruct vk|].
    split; [done|]. split; [done|]. intros _ _ _.
    split; [done|]. apply scan_first_first_index in Hg.
    destruct vk; simpl. done.
  - split; [exists (graphics_queuefamily_index vk), p; by destruct vk|].
    split; [done|]. split; [done|].
    intros _ _ Hnone. apply scan_first_None with (i0 := 0) in Hnone. congruence.
  - split.
    { exists (graphics_queuefamily_index vk), (present_queuefamily_index vk).
      by destruct vk. }
    split; [done|]. split; [done|].
    intros _ (q & Hq & Hdraw) _. rewrite scan_first_None in Hg.
    rewrite (Hg q Hq) in Hdraw. done.
Qed.

(** X5 at a one-row table whose family draws and does not present,
    starting from a graphics index of 7. *)
Lemma X5_queuefamily_find_partial_update_witness :
  let d := test_driver [4%N] [QueueFamily 1 0] None None in
  let r := vulkan_queuefamily_find d (vulkan_with_families 7 7) ∅ in
  (result r).1 = false
  ∧ graphics_queuefamily_index (result r).2 = 0
  ∧ present_queuefamily_index (result r).2 = 7.
Proof.
  intros d r.
  destruct (X5_queuefamily_find_partial_update d (vulkan_with_families 7 7) ∅)
    as (_ & _ & _ & Hfail).
  destruct Hfail as (Hres & _ & Hp).
  - vm_compute. discriminate.
  - exists (QueueFamily 1 0). split; [left|reflexivity].
  - intros q [->|?%elem_of_nil]%elem_of_cons; [reflexivity|done].
  - split; [exact Hres|]. split; [reflexivity|exact Hp].
Defined.

(** ** Logical device *)

Lemma existsb_swapchain_extension extensions :
  existsb (λ name, String.eqb name VK_KHR_SWAPCHAIN_EXTENSION_NAME) extensions
  = true
  ↔ VK_KHR_SWAPCHAIN_EXTENSION_NAME ∈ extensions.
Proof.
  rewrite existsb_exists. split.
  - intros (name & Hin & Heq). apply String.eqb_eq in Heq as ->.
    by apply list_elem_of_In.
  - intros Hin. exists VK_KHR_SWAPCHAIN_EXTENSION_NAME.
    split; [by apply list_elem_of_In|apply String.eqb_refl].
Qed.

(** X6.  [vulkan_device_create] succeeds exactly when the adapter reports
    at most 256 extensions, the swapchain extension is among them and the
    driver creates the device.  Without the extension it never reaches
    [vkCreateDevice], and whenever it does not [struct vulkan] is untouched.  On
    success the device and the two queues fetched for the graphics and
    present indices are stored and nothing else changes, so equal indices
    yield one and the same queue. *)
Theorem X6_device_create d vk h :
  let r := vulkan_device_create d vk h in
  ((result r).1 = true
   ↔ vk_count (drv_extensions d) ≤ MAX_TMP_BUFFER
     ∧ VK_KHR_SWAPCHAIN_EXTENSION_NAME ∈ drv_extensions d
     ∧ is_Some (drv_device d))
  ∧ (VK_KHR_SWAPCHAIN_EXTENSION_NAME ∉ drv_extensions d → calls r = [])
  ∧ (calls r = [] → (result r).2 = vk)
  ∧ heap_after r = h
  ∧ ((result r).1 = true →
     (result r).2
     = set_present_queue (drv_queue d (present_queuefamily_index vk))
         (set_graphics_queue (drv_queue d (graphics_queuefamily_index vk))
            (set_device (default VK_NULL_HANDLE (drv_device d)) vk)))
  ∧ ((result r).1 = true →
     graphics_queuefamily_index vk = present_queuefamily_index vk →
     graphics_queue (result r).2 = present_queue (result r).2).
Proof.
  intros r. subst r. unfold vulkan_device_create.
  rewrite enumerate_device_extensions_eq.
  destruct (Z.gtb_spec (vk_count (drv_extensions d)) MAX_TMP_BUFFER).
  { simpl. split; [split; [discriminate|lia]|]. repeat split; done. }
  destruct (existsb _ (drv_extensions d)) eqn:Hext; simpl.
  2:{ split.
      { split; [discriminate|]. intros (_ & Hin & _).
        apply existsb_swapchain_extension in Hin. congruence. }
      repeat split; done. }
  apply existsb_swapchain_extension in Hext. unfold_M.
  destruct (drv_device d) as [dev|]; simpl.
  - split; [split; [eauto|done]|]. split; [done|]. split; [done|].
    split; [done|]. split; [by destruct vk|].
    intros _ Heq. destruct vk; simpl in *. by rewrite Heq.
  - split; [split; [discriminate|]|].
    { intros (_ & _ & [? ?]). discriminate. }
    repeat split; done.
Qed.

(** X6 at the well-behaved adapter, whose single family draws and
    presents. *)
Lemma X6_device_create_witness :
  let r := vulkan_device_create good_driver vulkan_zero ∅ in
  (result r).1 = true
  ∧ graphics_queue (result r).2 = present_queue (result r).2.
Proof.
  intros r.
  destruct (X6_device_create good_driver vulkan_zero ∅)
    as (Hiff & _ & _ & _ & _ & Hsame).
  assert ((result r).1 = true) as Hok.
  { apply Hiff. split; [vm_compute; discriminate|]. split; [left|by eexists]. }
  split; [exact Hok|]. apply Hsame; [exact Hok|reflexivity].
Defined.

(** ** Swapchain parameters *)

(** X7.  For a minimum image count of at most 10 and a maximum that is
    either unadvertised (0) or not below the minimum, the requested image
    count lies between the minimum and 10, does not exceed an advertised
    maximum, and is at most one more than the minimum. *)
Theorem X7_image_count_bounds caps
    (Hmin : 0 ≤ minImageCount caps ≤ MAX_SWAPCHAIN_IMAGES)
    (Hmax : maxImageCount caps = 0
            ∨ minImageCount caps ≤ maxImageCount caps) :
  ∃ n, swapchain_image_count caps = Some n
       ∧ minImageCount caps ≤ n ≤ MAX_SWAPCHAIN_IMAGES
       ∧ n ≤ minImageCount caps + 1
       ∧ (0 < maxImageCount caps → n ≤ maxImageCount caps).
Proof.
  unfold swapchain_image_count, MAX_SWAPCHAIN_IMAGES, to_uint32 in *.
  destruct (Z.gtb_spec (minImageCount caps) 10); [lia|].
  rewrite Z.mod_small by lia.
  eexists. split; [reflexivity|].
  repeat case_match; simpl in *; lia.
Qed.

(** X7 at minimum 10 with no advertised maximum: the request is capped
    at 10. *)
Lemma X7_image_count_bounds_witness :
  ∃ n, swapchain_image_count (capabilities_with_counts 10 0) = Some n
       ∧ 10 ≤ n ≤ 10.
Proof.
  destruct (X7_image_count_bounds (capabilities_with_counts 10 0)
              ltac:(vm_compute; split; discriminate) ltac:(left; reflexivity))
    as (n & Hn & Hbounds & _).
  exists n. split; [exact Hn|exact Hbounds].
Defined.

(** X8.  A defined current extent is used as it is, whatever the window
    size.  With an undefined one and bounds that are ordered on both axes,
    the chosen extent lies within the bounds on both axes, and its width
    is the framebuffer width whenever that already lies within them. *)
Theorem X8_extent_within_bounds caps fb_width fb_height :
  (width (currentExtent caps) ≠ UINT32_MAX →
   swapchain_image_extent caps fb_width fb_height = currentExtent caps)
  ∧ (width (currentExtent caps) = UINT32_MAX →
     width (minImageExtent caps) ≤ width (maxImageExtent caps) →
     height (minImageExtent caps) ≤ height (maxImageExtent caps) →
     let e := swapchain_image_extent caps fb_width fb_height in
     width (minImageExtent caps) ≤ width e ≤ width (maxImageExtent caps)
     ∧ height (minImageExtent caps) ≤ height e ≤ height (maxImageExtent caps)
     ∧ (width (minImageExtent caps) ≤ to_uint32 fb_width
        ≤ width (maxImageExtent caps) → width e = to_uint32 fb_width)).
Proof.
  split.
  - intros Hdef. unfold swapchain_image_extent.
    destruct (Z.eqb_spec (width (currentExtent caps)) UINT32_MAX); done.
  - intros Hundef Hw Hh e. subst e.
    rewrite swapchain_image_extent_width, swapchain_image_extent_height by done.
    unfold clamp. repeat case_match; lia.
Qed.

(** X8 at the well-behaved capabilities and a 1280 x 720 framebuffer. *)
Lemma X8_extent_within_bounds_witness :
  let e := swapchain_image_extent good_capabilities 1280 720 in
  1 ≤ width e ≤ 4096 ∧ 1 ≤ height e ≤ 4096 ∧ width e = 1280.
Proof.
  intros e.
  destruct (X8_extent_within_bounds good_capabilities 1280 720) as [_ Hundef].
  destruct (Hundef eq_refl ltac:(vm_compute; discriminate)
              ltac:(vm_compute; discriminate)) as (Hw & Hh & Hkeep).
  split; [exact Hw|]. split; [exact Hh|].
  apply Hkeep. vm_compute. split; discriminate.
Defined.

(** ** Swapchain creation *)

Lemma find_is_wanted_format formats f :
  find is_wanted_format formats = Some f →
  format f = VK_FORMAT_B8G8R8A8_SRGB
  ∧ colorSpace f = VK_COLOR_SPACE_SRGB_NONLINEAR_KHR.
Proof.
  intros Hfind. apply find_some in Hfind as [_ Hwanted].
  unfold is_wanted_format in Hwanted.
  apply andb_prop in Hwanted as [Hf Hc]. lia.
Qed.

(** X9.  A successful [vulkan_swapchain_create] makes exactly one call,
    asking for the B8G8R8A8 sRGB format with the sRGB non-linear colour
    space, FIFO presentation and the derived image count and extent.  It
    then records the format and extent, and as image count the number of
    images the driver handed back within the requested count: at most 10,
    at most what the driver has.  The first that many slots of the image
    array hold the driver's images in order, and the array keeps its 10
    slots. *)
Theorem X9_swapchain_create_success d vk h
    (Hok : (result (vulkan_swapchain_create d vk h)).1 = true)
    (Hslots : length (swapchain_images vk) = Z.to_nat MAX_SWAPCHAIN_IMAGES) :
  let r := vulkan_swapchain_create d vk h in
  let vk' := (result r).2 in
  ∃ requested ci chain,
    swapchain_image_count (drv_capabilities d) = Some requested
    ∧ calls r = [vkCreateSwapchainKHR (device vk) ci (Some chain)]
    ∧ sci_minImageCount ci = requested
    ∧ imageFormat ci = VK_FORMAT_B8G8R8A8_SRGB
    ∧ imageColorSpace ci = VK_COLOR_SPACE_SRGB_NONLINEAR_KHR
    ∧ presentMode ci = VK_PRESENT_MODE_FIFO_KHR
    ∧ imageExtent ci = swapchain_extent vk'
    ∧ swapchain vk' = chain
    ∧ swapchain_image_format vk' = VK_FORMAT_B8G8R8A8_SRGB
    ∧ swapchain_extent vk'
      = swapchain_image_extent (drv_capabilities d)
          (drv_framebuffer_size d).1 (drv_framebuffer_size d).2
    ∧ swapchain_images_count vk'
      = Z.min (Z.max 0 requested) (vk_count (drv_swapchain_images d))
    ∧ 0 ≤ swapchain_images_count vk' ≤ MAX_SWAPCHAIN_IMAGES
    ∧ length (swapchain_images vk') = Z.to_nat MAX_SWAPCHAIN_IMAGES
    ∧ ∀ i, (Z.of_nat i < swapchain_images_count vk')%Z →
           at_index (swapchain_images vk') i
           = at_index (drv_swapchain_images d) i.
Proof.
  revert Hok. unfold vulkan_swapchain_create. unfold_M.
  destruct (enumerate_surface_formats d) as [fmts|]; simpl; [|discriminate].
  destruct (enumerate_present_modes d) as [modes|]; simpl; [|discriminate].
  destruct (find is_wanted_format fmts) as [fmt|] eqn:Hfmt; simpl;
    [|discriminate].
  destruct (swapchain_image_count (drv_capabilities d)) as [n|] eqn:Hn; simpl;
    [|discriminate].
  destruct (drv_swapchain d) as [chain|]; simpl; [|discriminate].
  intros _. apply find_is_wanted_format in Hfmt as [Hf Hc].
  pose proof (swapchain_image_count_le _ _ Hn) as Hle.
  unfold MAX_SWAPCHAIN_IMAGES in *.
  eexists n, _, chain. split; [reflexivity|]. split; [reflexivity|].
  destruct vk; simpl in *.
  assert (vk_count (vk_fill n (drv_swapchain_images d))
          = Z.min (Z.max 0 n) (vk_count (drv_swapchain_images d))) as Hcount.
  { unfold vk_count, vk_fill. rewrite length_take. lia. }
  pose proof (vk_count_nonneg (drv_swapchain_images d)) as Hnonneg.
  repeat split; try done; try lia.
  - rewrite length_app, length_drop. unfold vk_fill. rewrite length_take. lia.
  - intros i Hi. unfold at_index. rewrite Hcount in Hi.
    rewrite app_nth1 by (unfold vk_fill; rewrite length_take; unfold vk_count in Hi; lia).
    unfold vk_fill. rewrite !nth_lookup, lookup_take_lt by lia. reflexivity.
Qed.

(** X9 at the well-behaved adapter: three images requested, three
    recorded. *)
Lemma X9_swapchain_create_success_witness :
  swapchain_images_count
    (result (vulkan_swapchain_create good_driver vulkan_zero ∅)).2 = 3
  ∧ swapchain_image_format
      (result (vulkan_swapchain_create good_driver vulkan_zero ∅)).2 = 50.
Proof.
  destruct (X9_swapchain_create_success good_driver vulkan_zero ∅
              eq_refl eq_refl)
    as (requested & ci & chain & Hreq & _ & _ & _ & _ & _ & _ & _ & Hfmt & _
        & Hcount & _).
  injection Hreq as <-. split; [exact Hcount|exact Hfmt].
Defined.

(** X10.  There is no fallback format: when no enumerated surface format
    is exactly B8G8R8A8 sRGB with the sRGB non-linear colour space, the
    swapchain step fails before asking for a swapchain and without
    touching [struct vulkan], whatever else is enumerated. *)
Theorem X10_swapchain_create_no_fallback d vk h
    (Hnone : ∀ f, f ∈ drv_surface_formats d → is_wanted_format f = false) :
  vulkan_swapchain_create d vk h = ((false, vk), h, []).
Proof.
  unfold vulkan_swapchain_create.
  rewrite enumerate_surface_formats_eq.
  destruct (_ || _); [reflexivity|].
  destruct (enumerate_present_modes d); [|reflexivity].
  destruct (find is_wanted_format (drv_surface_formats d)) as [f|] eqn:Hfind;
    [|reflexivity].
  apply find_some in Hfind as [Hin Hwanted].
  apply list_elem_of_In, Hnone in Hin. congruence.
Qed.

(** X10 at an adapter offering only other formats. *)
Lemma X10_swapchain_create_no_fallback_witness :
  vulkan_swapchain_create other_formats_driver vulkan_zero ∅
  = ((false, vulkan_zero), ∅, []).
Proof.
  apply X10_swapchain_create_no_fallback.
  intros f Hin. vm_compute in Hin.
  repeat (apply elem_of_cons in Hin as [->|Hin]; [reflexivity|]).
  by apply elem_of_nil in Hin.
Defined.

(** ** Image views and framebuffers *)

Section Loops.

Context (d : driver).

Lemma imageviews_loop_run m : ∀ k vk h,
  let r := imageviews_loop d (seq k m) vk h in
  heap_after r = h
  ∧ (∃ views, (result r).2 = set_swapchain_imageviews views vk)
  ∧ ((result r).1 = true →
     (∀ i, (k ≤ i < k + m)%nat → is_Some (drv_imageview d i))
     ∧ calls r = imageview_call d vk <$> seq k m)
  ∧ ((result r).1 = false →
     ∃ j, (j < m)%nat
          ∧ drv_imageview d (k + j) = None
          ∧ (∀ i, (k ≤ i < k + j)%nat → is_Some (drv_imageview d i))
          ∧ calls r = imageview_call d vk <$> seq k (S j)).
Proof.
  induction m as [|m IH]; intros k vk h; simpl.
  - unfold_M. split; [done|]. split.
    { exists (swapchain_imageviews vk). by destruct vk. }
    split; [|discriminate]. intros _. split; [|done]. intros i Hi. lia.
  - unfold bind, emit.
    destruct (drv_imageview d k) as [v|] eqn:Hk.
    + specialize (IH (S k)
                    (set_swapchain_imageviews (<[k:=v]> (swapchain_imageviews vk)) vk)
                    h).
      destruct (imageviews_loop d (seq (S k) m) _ h) as [[[ok vk2] h2] l2].
      unfold result, heap_after, calls in *. simpl in *.
      destruct IH as (Hheap & (views & Hviews) & Htrue & Hfalse).
      split; [done|]. split.
      { exists views. rewrite Hviews. by destruct vk. }
      assert (imageview_call d
                (set_swapchain_imageviews (<[k:=v]> (swapchain_imageviews vk)) vk)
              = imageview_call d vk) as Hcall by (by destruct vk).
      rewrite Hcall in *. split.
      * intros Hok. destruct (Htrue Hok) as [Hall ->].
        split; [|apply (f_equal2 cons);
                  [unfold imageview_call; by rewrite Hk|reflexivity]].
        intros i Hi. destruct (decide (i = k)) as [->|Hne]; [by eexists|].
        apply Hall. lia.
      * intros Hok. destruct (Hfalse Hok) as (j & Hj & Hnone & Hall & ->).
        exists (S j). replace (k + S j)%nat with (S k + j)%nat by lia.
        split; [lia|]. split; [done|]. split.
        { intros i Hi. destruct (decide (i = k)) as [->|Hne]; [by eexists|].
          apply Hall. lia. }
        apply (f_equal2 cons);
          [unfold imageview_call; by rewrite Hk|reflexivity].
    + unfold_M. split; [done|]. split.
      { exists (swapchain_imageviews vk). by destruct vk. }
      split; [discriminate|]. intros _. exists 0%nat.
      rewrite Nat.add_0_r. split; [lia|]. split; [done|]. split.
      { intros i Hi. lia. }
      simpl. unfold imageview_call. by rewrite Hk.
Qed.

End Loops.

Section LoopsFramebuffer.

Context (d : driver).

Lemma framebuffers_loop_run m : ∀ k vk h,
  let r := framebuffers_loop d (seq k m) vk h in
  heap_after r = h
  ∧ (∃ fbs, (result r).2 = set_swapchain_framebuffers fbs vk)
  ∧ ((result r).1 = true →
     (∀ i, (k ≤ i < k + m)%nat → is_Some (drv_framebuffer d i))
     ∧ calls r = framebuffer_call d vk (swapchain_imageviews vk) <$> seq k m)
  ∧ ((result r).1 = false →
     ∃ j, (j < m)%nat
          ∧ drv_framebuffer d (k + j) = None
          ∧ (∀ i, (k ≤ i < k + j)%nat → is_Some (drv_framebuffer d i))
          ∧ calls r
            = framebuffer_call d vk (swapchain_imageviews vk) <$> seq k (S j)).
Proof.
  induction m as [|m IH]; intros k vk h; simpl.
  - unfold_M. split; [done|]. split.
    { exists (swapchain_framebuffers vk). by destruct vk. }
    split; [|discriminate]. intros _. split; [|done]. intros i Hi. lia.
  - unfold bind, emit.
    destruct (drv_framebuffer d k) as [v|] eqn:Hk.
    + specialize (IH (S k)
                    (set_swapchain_framebuffers
                       (<[k:=v]> (swapchain_framebuffers vk)) vk)
                    h).
      destruct (framebuffers_loop d (seq (S k) m) _ h) as [[[ok vk2] h2] l2].
      unfold result, heap_after, calls in *. simpl in *.
      destruct IH as (Hheap & (fbs & Hfbs) & Htrue & Hfalse).
      split; [done|]. split.
      { exists fbs. rewrite Hfbs. by destruct vk. }
      assert (framebuffer_call d
                (set_swapchain_framebuffers
                   (<[k:=v]> (swapchain_framebuffers vk)) vk)
                (swapchain_imageviews
                   (set_swapchain_framebuffers
                      (<[k:=v]> (swapchain_framebuffers vk)) vk))
              = framebuffer_call d vk (swapchain_imageviews vk)) as Hcall
        by (by destruct vk).
      rewrite Hcall in *. split.
      * intros Hok. destruct (Htrue Hok) as [Hall ->].
        split; [|apply (f_equal2 cons);
                  [unfold framebuffer_call; by rewrite Hk|reflexivity]].
        intros i Hi. destruct (decide (i = k)) as [->|Hne]; [by eexists|].
        apply Hall. lia.
      * intros Hok. destruct (Hfalse Hok) as (j & Hj & Hnone & Hall & ->).
        exists (S j). replace (k + S j)%nat with (S k + j)%nat by lia.
        split; [lia|]. split; [done|]. split.
        { intros i Hi. destruct (decide (i = k)) as [->|Hne]; [by eexists|].
          apply Hall. lia. }
        apply (f_equal2 cons);
          [unfold framebuffer_call; by rewrite Hk|reflexivity].
    + unfold_M. split; [done|]. split.
      { exists (swapchain_framebuffers vk). by destruct vk. }
      split; [discriminate|]. intros _. exists 0%nat.
      rewrite Nat.add_0_r. split; [lia|]. split; [done|]. split.
      { intros i Hi. lia. }
      simpl. unfold framebuffer_call. by rewrite Hk.
Qed.

End LoopsFramebuffer.

Lemma vulkan_imageviews_create_run d vk h :
  let n := Z.to_nat (swapchain_images_count vk) in
  let r := vulkan_imageviews_create d vk h in
  ((result r).1 = true ↔ ∀ i, (i < n)%nat → is_Some (drv_imageview d i))
  ∧ heap_after r = h
  ∧ ((result r).1 = true →
     calls r = imageview_call d vk <$> seq 0 n
     ∧ swapchain_imageviews_count (result r).2 = swapchain_images_count vk)
  ∧ ((result r).1 = false →
     ∃ j, (j < n)%nat
          ∧ drv_imageview d j = None
          ∧ (∀ i, (i < j)%nat → is_Some (drv_imageview d i))
          ∧ calls r = imageview_call d vk <$> seq 0 (S j)
          ∧ swapchain_imageviews_count (result r).2
            = swapchain_imageviews_count vk).
Proof.
  intros n r. subst r. unfold vulkan_imageviews_create, bind. fold n.
  pose proof (imageviews_loop_run d n 0 vk h) as Hrun.
  destruct (imageviews_loop d (seq 0 n) vk h) as [[[ok vk1] h1] l1].
  unfold result, heap_after, calls in *. simpl in *.
  destruct Hrun as (-> & (views & ->) & Htrue & Hfalse).
  destruct ok; simpl.
  - destruct (Htrue eq_refl) as [Hall ->].
    split; [split; [intros _ i Hi; apply Hall; lia|done]|].
    split; [done|]. split; [|discriminate]. intros _.
    rewrite app_nil_r. split; [done|]. by destruct vk.
  - destruct (Hfalse eq_refl) as (j & Hj & Hnone & Hall & ->).
    split.
    { split; [discriminate|]. intros Hsome.
      destruct (Hsome j Hj) as [v Hv]. congruence. }
    split; [done|]. split; [discriminate|]. intros _.
    exists j. rewrite app_nil_r. repeat split; try done.
    + intros i Hi. apply Hall. lia.
    + by destruct vk.
Qed.

(** X11.  [vulkan_imageviews_create] makes one [vkCreateImageView] call
    per swapchain image, slot by slot from 0, view [i] on image [i] in
    the swapchain format, and stops at the first one the driver refuses.
    It succeeds exactly when the driver accepts all of them, and only
    then sets the view count (to the image count); after a refusal at
    slot [j] it has made [j + 1] calls and the view count is what it was
    before. *)
Theorem X11_imageviews_create d vk h :
  let n := Z.to_nat (swapchain_images_count vk) in
  let r := vulkan_imageviews_create d vk h in
  ((result r).1 = true ↔ ∀ i, (i < n)%nat → is_Some (drv_imageview d i))
  ∧ heap_after r = h
  ∧ ((result r).1 = true →
     calls r = imageview_call d vk <$> seq 0 n
     ∧ swapchain_imageviews_count (result r).2 = swapchain_images_count vk)
  ∧ ((result r).1 = false →
     ∃ j, (j < n)%nat
          ∧ drv_imageview d j = None
          ∧ (∀ i, (i < j)%nat → is_Some (drv_imageview d i))
          ∧ calls r = imageview_call d vk <$> seq 0 (S j)
          ∧ swapchain_imageviews_count (result r).2
            = swapchain_imageviews_count vk).
Proof. apply vulkan_imageviews_create_run. Qed.

Lemma vulkan_framebuffers_create_run d vk h :
  let n := Z.to_nat (swapchain_imageviews_count vk) in
  let r := vulkan_framebuffers_create d vk h in
  ((result r).1 = true ↔ ∀ i, (i < n)%nat → is_Some (drv_framebuffer d i))
  ∧ heap_after r = h
  ∧ ((result r).1 = true →
     calls r = framebuffer_call d vk (swapchain_imageviews vk) <$> seq 0 n
     ∧ swapchain_framebuffers_count (result r).2
       = swapchain_imageviews_count vk)
  ∧ ((result r).1 = false →
     ∃ j, (j < n)%nat
          ∧ drv_framebuffer d j = None
          ∧ (∀ i, (i < j)%nat → is_Some (drv_framebuffer d i))
          ∧ calls r
            = framebuffer_call d vk (swapchain_imageviews vk) <$> seq 0 (S j)
          ∧ swapchain_framebuffers_count (result r).2
            = swapchain_framebuffers_count vk).
Proof.
  intros n r. subst r. unfold vulkan_framebuffers_create, bind. fold n.
  pose proof (framebuffers_loop_run d n 0 vk h) as Hrun.
  destruct (framebuffers_loop d (seq 0 n) vk h) as [[[ok vk1] h1] l1].
  unfold result, heap_after, calls in *. simpl in *.
  destruct Hrun as (-> & (fbs & ->) & Htrue & Hfalse).
  destruct ok; simpl.
  - destruct (Htrue eq_refl) as [Hall ->].
    split; [split; [intros _ i Hi; apply Hall; lia|done]|].
    split; [done|]. split; [|discriminate]. intros _.
    rewrite app_nil_r. split; [done|]. by destruct vk.
  - destruct (Hfalse eq_refl) as (j & Hj & Hnone & Hall & ->).
    split.
    { split; [discriminate|]. intros Hsome.
      destruct (Hsome j Hj) as [v Hv]. congruence. }
    split; [done|]. split; [discriminate|]. intros _.
    exists j. rewrite app_nil_r. repeat split; try done.
    + intros i Hi. apply Hall. lia.
    + by destruct vk.
Qed.

(** X13.  [vulkan_framebuffers_create] makes one [vkCreateFramebuffer]
    call per image view, slot by slot from 0, framebuffer [i] on view
    [i] of the render pass at the swap extent, and stops at the first one
    the driver refuses.  It succeeds exactly when the driver accepts all
    of them, and only then sets the framebuffer count (to the view
    count); after a refusal at slot [j], the first refused slot, it has
    made [j + 1] calls and the framebuffer count is what it was before. *)
Theorem X13_framebuffers_create d vk h :
  let n := Z.to_nat (swapchain_imageviews_count vk) in
  let r := vulkan_framebuffers_create d vk h in
  ((result r).1 = true ↔ ∀ i, (i < n)%nat → is_Some (drv_framebuffer d i))
  ∧ heap_after r = h
  ∧ ((result r).1 = true →
     calls r = framebuffer_call d vk (swapchain_imageviews vk) <$> seq 0 n
     ∧ swapchain_framebuffers_count (result r).2
       = swapchain_imageviews_count vk)
  ∧ ((result r).1 = false →
     ∃ j, (j < n)%nat
          ∧ drv_framebuffer d j = None
          ∧ (∀ i, (i < j)%nat → is_Some (drv_framebuffer d i))
          ∧ calls r
            = framebuffer_call d vk (swapchain_imageviews vk) <$> seq 0 (S j)
          ∧ swapchain_framebuffers_count (result r).2
            = swapchain_framebuffers_count vk).
Proof. apply vulkan_framebuffers_create_run. Qed.

(** X11 at an adapter that refuses the view for slot 1 of 3. *)
Lemma X11_imageviews_create_witness :
  let r := vulkan_imageviews_create second_view_failing_driver
             vulkan_after_swapchain ∅ in
  (result r).1 = false
  ∧ length (calls r) = 2%nat
  ∧ swapchain_imageviews_count (result r).2 = 0.
Proof.
  intros r.
  destruct (X11_imageviews_create second_view_failing_driver
              vulkan_after_swapchain ∅) as (_ & _ & _ & Hfalse).
  destruct (Hfalse eq_refl) as (j & _ & _ & _ & _ & Hcount).
  split; [reflexivity|]. split; [reflexivity|]. exact Hcount.
Defined.

(** X13 at the well-behaved adapter after the image-view step, and at
    an adapter that refuses the framebuffer for slot 1 of 3. *)
Lemma X13_framebuffers_create_witness :
  let r := vulkan_framebuffers_create good_driver vulkan_after_imageviews ∅ in
  let r' := vulkan_framebuffers_create second_framebuffer_failing_driver
              vulkan_after_imageviews ∅ in
  (result r).1 = true
  ∧ swapchain_framebuffers_count (result r).2 = 3
  ∧ (result r').1 = false
  ∧ length (calls r') = 2%nat
  ∧ swapchain_framebuffers_count (result r').2 = 0.
Proof.
  intros r r'.
  destruct (X13_framebuffers_create good_driver vulkan_after_imageviews ∅)
    as (Hiff & _ & Htrue & _).
  assert ((result r).1 = true) as Hok.
  { apply Hiff. intros i _. by eexists. }
  split; [exact Hok|]. destruct (Htrue Hok) as [_ Hcount].
  split; [subst r; rewrite Hcount; reflexivity|].
  destruct (X13_framebuffers_create second_framebuffer_failing_driver
              vulkan_after_imageviews ∅) as (_ & _ & _ & Hfalse).
  destruct (Hfalse eq_refl) as (j & _ & _ & _ & _ & Hcount').
  split; [reflexivity|]. split; [reflexivity|]. exact Hcount'.
Defined.

(** X12.  A failed image-view step is not undone by the teardown: the
    view count is only set on success, so starting from a view count of
    0 (as [main] does) [application_destroy] destroys no image view at
    all afterwards, although the step has created one view for every slot
    before the refused one. *)
Theorem X12_failed_imageviews_not_destroyed d vk h win h''
    (Hfail : (result (vulkan_imageviews_create d vk h)).1 = false)
    (Hzero : swapchain_imageviews_count vk = 0) :
  let r := vulkan_imageviews_create d vk h in
  (∀ view, (ObjImageView, view)
           ∉ objects_destroyed
               (calls (application_destroy (Application win (result r).2) h'')))
  ∧ ∃ j, drv_imageview d j = None
         ∧ omap created_by (calls r)
           = omap (λ i, (λ view, (ObjImageView, view)) <$> drv_imageview d i)
                  (seq 0 j).
Proof.
  intros r. subst r.
  destruct (vulkan_imageviews_create_run d vk h) as (_ & _ & _ & Hfalse).
  destruct (Hfalse Hfail) as (j & Hj & Hnone & Hall & Hcalls & Hcount).
  split.
  - intros view. rewrite application_destroy_objects.
    unfold teardown_groups. simpl. rewrite Hcount, Hzero. simpl.
    rewrite elem_of_cons, elem_of_cons, elem_of_cons, elem_of_cons.
    rewrite elem_of_app, list_elem_of_fmap.
    intros [?|[?|[?|[?|[(i & ? & _)|Hin]]]]]; try discriminate.
    repeat (apply elem_of_cons in Hin as [Hin|Hin]; [discriminate Hin|]).
    by apply elem_of_nil in Hin.
  - exists j. split; [done|]. rewrite Hcalls.
    rewrite seq_S, fmap_app, omap_app.
    assert (omap created_by (imageview_call d vk <$> [(0 + j)%nat]) = [])
      as ->.
    { simpl. unfold imageview_call. by rewrite Hnone. }
    rewrite app_nil_r.
    clear. induction (seq 0 j) as [|i s IH]; [done|].
    simpl in *. unfold imageview_call at 1.
    destruct (drv_imageview d i); simpl; [f_equal|]; exact IH.
Qed.

(** X12 at an adapter that refuses the view for slot 1: view 20 was
    created for slot 0 and no view is destroyed. *)
Lemma X12_failed_imageviews_not_destroyed_witness :
  let r := vulkan_imageviews_create second_view_failing_driver
             vulkan_after_swapchain ∅ in
  omap created_by (calls r) = [(ObjImageView, 20%N)]
  ∧ (ObjImageView, 20%N)
    ∉ objects_destroyed
        (calls (application_destroy (Application 1%N (result r).2) ∅)).
Proof.
  intros r.
  destruct (X12_failed_imageviews_not_destroyed second_view_failing_driver
              vulkan_after_swapchain ∅ 1%N ∅ eq_refl eq_refl)
    as [Hnone _].
  split; [reflexivity|]. apply Hnone.
Defined.

(** ** Frames and the main loop *)

Ltac no_is_Some_None :=
  repeat match goal with
         | H : is_Some None |- _ => destruct H as [? H]; discriminate H
         | H : _ ∧ _ |- _ => destruct H
         end.

Ltac step_membership :=
  intuition (try discriminate; no_is_Some_None; eauto);
  repeat match goal with
         | H : _ ∈ [] |- _ => by apply elem_of_nil in H
         | H : _ ∈ _ :: _ |- _ =>
             apply elem_of_cons in H as [H|H]; [by discriminate H|]
         | |- _ ∈ _ => by (apply list_elem_of_In; simpl; auto 20)
         end.

(** X14.  [vulkan_frame_draw] reports success exactly when the image is
    acquired and the command-buffer reset, both ends of the recording, the
    submission and the presentation all succeed, and then its calls are
    the whole [frame_sequence].  It submits only a command buffer whose
    recording was begun and ended without error, and it presents only
    after a successful submission.  It never touches the heap. *)
Theorem X14_frame_draw_outcome fd vk h :
  let r := vulkan_frame_draw fd vk h in
  let recorded :=
    is_Some (fd_acquire fd) ∧ fd_reset_ok fd = true
    ∧ fd_begin_ok fd = true ∧ fd_end_ok fd = true in
  (result r = true
   ↔ recorded ∧ fd_submit_ok fd = true ∧ fd_present_ok fd = true)
  ∧ (result r = true →
     calls r = frame_sequence vk (default 0 (fd_acquire fd)))
  ∧ (Submit ∈ omap step_of (calls r) ↔ recorded)
  ∧ (Present ∈ omap step_of (calls r) ↔ recorded ∧ fd_submit_ok fd = true)
  ∧ heap_after r = h.
Proof.
  intros r recorded. subst r recorded.
  unfold vulkan_frame_draw, vulkan_commandbuffer_record, frame_sequence.
  unfold_M.
  destruct (fd_acquire fd) as [i|]; simpl.
  2:{ repeat split; try done; step_membership. }
  destruct (fd_reset_ok fd); simpl;
    [|repeat split; try done; step_membership].
  destruct (fd_begin_ok fd); simpl;
    [|repeat split; try done; step_membership].
  destruct (fd_end_ok fd); simpl;
    [|repeat split; try done; step_membership].
  destruct (fd_submit_ok fd); simpl;
    [|repeat split; try done; step_membership].
  destruct (fd_present_ok fd); simpl;
    repeat split; try done; step_membership.
Qed.

Lemma filter_take_nil {A} (p : A → bool) (l : list A) n :
  List.filter p l = [] → List.filter p (take n l) = [].
Proof.
  revert n. induction l as [|x l IH]; intros [|n] Hnil; simpl in *; try done.
  destruct (p x); [done|]. by apply IH.
Qed.

Lemma vulkan_frame_draw_no_poll fd vk h :
  List.filter is_poll (calls (vulkan_frame_draw fd vk h)) = [].
Proof.
  destruct (vulkan_frame_draw_calls fd vk h) as (n & _ & ->).
  by apply filter_take_nil.
Qed.

(** X15.  Errors inside a frame never stop the loop: whatever the driver
    answers in each of the [N] iterations, [application_mainloop] polls
    events exactly [N] times, draws once per iteration, returns [true]
    and leaves the heap alone. *)
Theorem X15_mainloop_nonfatal frames app h :
  let r := application_mainloop frames app h in
  result r = true
  ∧ heap_after r = h
  ∧ count_calls is_poll (calls r) = length frames
  ∧ count_calls is_fence_wait (calls r) = length frames.
Proof.
  intros r. subst r. rewrite application_mainloop_eq.
  unfold result, heap_after, calls at 1 3. simpl.
  split; [done|]. split; [done|].
  unfold count_calls.
  set (f := λ fd, glfwPollEvents
                  :: calls (vulkan_frame_draw fd (app_vulkan app) h)).
  split; induction frames as [|fd frames IH]; try done;
    change (concat (f <$> fd :: frames)) with (f fd ++ concat (f <$> frames));
    rewrite List.filter_app, length_app, IH; unfold f; simpl.
  - by rewrite vulkan_frame_draw_no_poll.
  - destruct (vulkan_frame_draw_calls fd (app_vulkan app) h) as (n & Hn & ->).
    do 3 (destruct n as [|n]; [lia|]). simpl.
    rewrite filter_take_nil by reflexivity. reflexivity.
Qed.

(** ** The ways the program can end, and the heap it leaves *)

Lemma application_destroy_run app h :
  application_destroy app h = (tt, h, teardown_calls app).
Proof.
  unfold application_destroy, bind, emit. cbn beta iota zeta.
  rewrite !destroy_each_eq. unfold teardown_calls.
  cbn beta iota zeta. rewrite <- ?app_assoc. reflexivity.
Qed.


Lemma main_run d frames h :
  let create := application_create d main_config application_zero h in
  main d frames h
  = match result create with
    | Some (ok, app) =>
        (Some (if ok then EXIT_SUCCESS else EXIT_FAILURE),
         heap_after create,
         calls create
         ++ (if ok
             then calls (application_mainloop frames app (heap_after create))
             else [])
         ++ teardown_calls app)
    | None => (None, heap_after create, calls create)
    end.
Proof.
  intros create. subst create. unfold main, bindK, bind.
  destruct (application_create d main_config application_zero h)
    as [[[[ok app]|] h1] l1]; unfold result, heap_after, calls; cbn [fst snd].
  - destruct ok; cbn [negb].
    + rewrite application_mainloop_eq. cbn [negb fst snd].
      rewrite application_destroy_run. unfold ret. by rewrite app_nil_r.
    + rewrite application_destroy_run. unfold ret. by rewrite app_nil_r.
  - unfold killed, ret. by rewrite app_nil_r.
Qed.

Lemma quiet_nil : quiet [].
Proof. intros c Hin. by apply elem_of_nil in Hin. Qed.

Lemma quiet_app l1 l2 : quiet l1 → quiet l2 → quiet (l1 ++ l2).
Proof. intros H1 H2 c [Hin|Hin]%elem_of_app; auto. Qed.

Lemma quiet_fmap {A} (f : A → call) (s : list A) :
  (∀ x, is_failed_fopen (f x) = false
        ∧ is_failed_pipeline_creation (f x) = false) →
  quiet (f <$> s).
Proof. intros Hf c (x & -> & _)%list_elem_of_fmap. apply Hf. Qed.

Lemma quiet_take n l : quiet l → quiet (take n l).
Proof. intros Hl c Hin. apply Hl. by eapply subseteq_take. Qed.

Lemma quiet_not_failed l :
  quiet l → ¬ fopen_failed l ∧ ¬ pipeline_creation_failed l.
Proof.
  intros Hl. split.
  - intros (name & Hin). apply Hl in Hin as [Hin _]. discriminate Hin.
  - intros (dev & v & fr & la & pa & Hin). apply Hl in Hin as [_ Hin].
    discriminate Hin.
Qed.

Ltac quiet_calls :=
  let c := fresh "c" in
  let Hin := fresh "Hin" in
  intros c Hin;
  repeat (apply elem_of_cons in Hin as [->|Hin]; [by split|]);
  by apply elem_of_nil in Hin.

Ltac simple_step_heap :=
  unfold_M;
  repeat match goal with
         | |- context [match ?x with Some _ => _ | None => _ end] =>
             destruct x; simpl
         | |- context [if ?b then _ else _] => destruct b; simpl
         end;
  (split; [done|]); quiet_calls.

Section HeapOfSteps.

Context (d : driver).

Lemma vulkan_instance_create_heap vk h :
  heap_after (vulkan_instance_create d vk h) = h
  ∧ quiet (calls (vulkan_instance_create d vk h)).
Proof. unfold vulkan_instance_create. simple_step_heap. Qed.

Lemma vulkan_surface_create_heap vk h :
  heap_after (vulkan_surface_create d vk h) = h
  ∧ quiet (calls (vulkan_surface_create d vk h)).
Proof. unfold vulkan_surface_create. simple_step_heap. Qed.

Lemma vulkan_physicaldevice_find_heap vk h :
  heap_after (vulkan_physicaldevice_find d vk h) = h
  ∧ quiet (calls (vulkan_physicaldevice_find d vk h)).
Proof. unfold vulkan_physicaldevice_find. simple_step_heap. Qed.

Lemma vulkan_queuefamily_find_heap vk h :
  heap_after (vulkan_queuefamily_find d vk h) = h
  ∧ quiet (calls (vulkan_queuefamily_find d vk h)).
Proof. unfold vulkan_queuefamily_find. simple_step_heap. Qed.

Lemma vulkan_device_create_heap vk h :
  heap_after (vulkan_device_create d vk h) = h
  ∧ quiet (calls (vulkan_device_create d vk h)).
Proof. unfold vulkan_device_create. simple_step_heap. Qed.

Lemma vulkan_swapchain_create_heap vk h :
  heap_after (vulkan_swapchain_create d vk h) = h
  ∧ quiet (calls (vulkan_swapchain_create d vk h)).
Proof. unfold vulkan_swapchain_create. simple_step_heap. Qed.

Lemma vulkan_renderpass_create_heap vk h :
  heap_after (vulkan_renderpass_create d vk h) = h
  ∧ quiet (calls (vulkan_renderpass_create d vk h)).
Proof. unfold vulkan_renderpass_create. simple_step_heap. Qed.

Lemma vulkan_commandpool_create_heap vk h :
  heap_after (vulkan_commandpool_create d vk h) = h
  ∧ quiet (calls (vulkan_commandpool_create d vk h)).
Proof. unfold vulkan_commandpool_create. simple_step_heap. Qed.

Lemma vulkan_commandbuffer_allocate_heap vk h :
  heap_after (vulkan_commandbuffer_allocate d vk h) = h
  ∧ quiet (calls (vulkan_commandbuffer_allocate d vk h)).
Proof. unfold vulkan_commandbuffer_allocate. simple_step_heap. Qed.

Lemma vulkan_synchronizationobjects_create_heap vk h :
  heap_after (vulkan_synchronizationobjects_create d vk h) = h
  ∧ quiet (calls (vulkan_synchronizationobjects_create d vk h)).
Proof. unfold vulkan_synchronizationobjects_create. simple_step_heap. Qed.

End HeapOfSteps.

Lemma vulkan_imageviews_create_heap d vk h :
  heap_after (vulkan_imageviews_create d vk h) = h
  ∧ quiet (calls (vulkan_imageviews_create d vk h)).
Proof.
  destruct (vulkan_imageviews_create_run d vk h) as (_ & Hheap & Htrue & Hfalse).
  split; [done|].
  destruct (result (vulkan_imageviews_create d vk h)).1.
  - destruct (Htrue eq_refl) as [-> _]. by apply quiet_fmap.
  - destruct (Hfalse eq_refl) as (j & _ & _ & _ & -> & _). by apply quiet_fmap.
Qed.

Lemma vulkan_framebuffers_create_heap d vk h :
  heap_after (vulkan_framebuffers_create d vk h) = h
  ∧ quiet (calls (vulkan_framebuffers_create d vk h)).
Proof.
  destruct (vulkan_framebuffers_create_run d vk h)
    as (_ & Hheap & Htrue & Hfalse).
  split; [done|].
  destruct (result (vulkan_framebuffers_create d vk h)).1.
  - destruct (Htrue eq_refl) as [-> _]. by apply quiet_fmap.
  - destruct (Hfalse eq_refl) as (j & _ & _ & _ & -> & _). by apply quiet_fmap.
Qed.

Lemma heap_account_returns {A} (failed : A → Prop) (m : M A) h :
  heap_after (m h) = h ∧ quiet (calls (m h)) →
  heap_account failed (returns m h) h.
Proof.
  intros [Hheap [Hfo Hpi]%quiet_not_failed]. left.
  unfold returns, bind, ret, result, heap_after, calls in *.
  destruct (m h) as [[a h1] l1]. simpl in *. rewrite app_nil_r.
  split; [by eexists|]. done.
Qed.

Lemma vulkan_graphicspipeline_create_heap d vk h :
  heap_account init_failed (vulkan_graphicspipeline_create d vk h) h.
Proof.
  destruct (graphicspipeline_outcome d vk h _ eq_refl)
    as [(Hret & Hfo & Hnot & Hheap & _)
       |[([vk' Hres] & Hfo & Hfail & _ & _ & Hleak)
        |(Hres & Hfo & Hnot & Hlast & _ & _ & _ & Hleak)]].
  - by left.
  - right. left. split; [by exists (false, vk')|].
    split; [done|]. split; [done|].
    destruct Hleak as (p1 & p2 & d1 & d2 & vm & fm & ? & ? & ? & _ & _ & ?).
    by exists p1, p2, d1, d2.
  - right. right. repeat (split; [done|]).
    destruct Hleak as [[_ ->]|(p & data & _ & ? & _ & ->)]; [by left|].
    right. by exists p, data.
Qed.

Lemma stage_then_heap stage rest h :
  heap_account init_failed (stage h) h →
  (∀ vk h1, heap_account init_failed (rest vk h1) h1) →
  heap_account init_failed (stage_then stage rest h) h.
Proof.
  unfold stage_then, bindK, bind, heap_account, init_failed.
  destruct (stage h) as [[o1 h1] l1].
  unfold result, heap_after, calls. simpl.
  intros [(Hret & Hfo & Hnot & ->)
         |[([[ok1 vk1] [-> Hok]] & Hfo & Hfail & Hleak)
          |(-> & Hfo & Hnot & Hlast & Hleak)]] Hrest.
  - destruct Hret as [[ok vk1] ->]. destruct ok.
    + specialize (Hrest vk1 h).
      destruct (rest vk1 h) as [[o2 h2] l2]. simpl in *.
      rewrite fopen_failed_app, pipeline_creation_failed_app.
      destruct Hrest as [(Hret2 & Hfo2 & Hnot2 & ->)
                        |[(Hres2 & Hfo2 & Hfail2 & Hleak2)
                         |(-> & Hfo2 & Hnot2 & Hlast2 & Hleak2)]].
      * left. split; [done|]. split; [tauto|]. split; [tauto|]. done.
      * right. left. split; [done|]. split; [tauto|]. split; [tauto|]. done.
      * right. right. split; [done|]. split; [tauto|]. split; [tauto|].
        split; [|done]. by rewrite last_app, Hlast2.
    + simpl. rewrite app_nil_r. left. split; [by eexists|]. done.
  - simpl in Hok. subst ok1. simpl. rewrite app_nil_r. right. left.
    split; [by eexists|]. done.
  - simpl. unfold killed, ret. simpl. rewrite app_nil_r. right. right. done.
Qed.

Lemma vulkan_init_heap d vk h :
  heap_account init_failed (vulkan_init d vk h) h.
Proof.
  unfold vulkan_init.
  repeat (apply stage_then_heap;
          [first [ by apply vulkan_graphicspipeline_create_heap
                 | apply heap_account_returns;
                   first [ apply vulkan_instance_create_heap
                         | apply vulkan_surface_create_heap
                         | apply vulkan_physicaldevice_find_heap
                         | apply vulkan_queuefamily_find_heap
                         | apply vulkan_device_create_heap
                         | apply vulkan_swapchain_create_heap
                         | apply vulkan_imageviews_create_heap
                         | apply vulkan_renderpass_create_heap
                         | apply vulkan_framebuffers_create_heap
                         | apply vulkan_commandpool_create_heap
                         | apply vulkan_commandbuffer_allocate_heap
                         | apply vulkan_synchronizationobjects_create_heap ] ]
          | intros ? ? ]).
  left. unfold ret, result, heap_after, calls. simpl.
  destruct (quiet_not_failed [] quiet_nil). split; [by eexists|]. done.
Qed.

(** Calls that are neither a failed [fopen] nor a failed
    [vkCreateGraphicsPipelines] in front of a computation, and behind it
    when it returns, do not change its account. *)
Lemma heap_account_frame {A B} (failedA : A → Prop) (failedB : B → Prop)
    (o : option A) (f : A → B) (pre : list call) (post : A → list call)
    (h h1 : heap) (l : list call) :
  heap_account failedA (o, h1, l) h →
  quiet pre → (∀ a, quiet (post a)) →
  (∀ a, failedA a → failedB (f a)) →
  heap_account failedB
    (f <$> o, h1,
     pre ++ l ++ match o with Some a => post a | None => [] end) h.
Proof.
  unfold heap_account, result, heap_after, calls. simpl.
  intros Hacc [Hpre_fo Hpre_pi]%quiet_not_failed Hpost Hfailed.
  rewrite !fopen_failed_app, !pipeline_creation_failed_app.
  destruct Hacc as [([a ->] & Hfo & Hnot & ->)
                   |[([a [-> Hfa]] & Hfo & Hfail & Hleak)
                    |(-> & Hfo & Hnot & Hlast & Hleak)]].
  - destruct (quiet_not_failed _ (Hpost a)). left.
    split; [by eexists|]. split; [tauto|]. split; [tauto|]. done.
  - destruct (quiet_not_failed _ (Hpost a)). right. left.
    split; [exists (f a); by auto|]. split; [tauto|]. split; [tauto|]. done.
  - right. right. split; [done|]. split; [tauto|]. split.
    { intros [?|[?|Hnil]]; [done|done|].
      destruct Hnil as (? & ? & ? & ? & ? & Hin). by apply elem_of_nil in Hin. }
    split; [|done]. by rewrite app_nil_r, last_app, Hlast.
Qed.

Lemma application_create_heap d config app h :
  heap_account create_failed (application_create d config app h) h.
Proof.
  unfold application_create. unfold bind at 1. unfold emit at 1.
  destruct (drv_glfw_init d); cbn [negb].
  2:{ left. unfold ret, result, calls, heap_after. simpl.
      split; [by eexists|].
      assert (quiet [glfwInit false]) as [? ?]%quiet_not_failed by quiet_calls.
      done. }
  unfold bind at 1. unfold emit at 1.
  destruct (decide (drv_window d = nullptr)).
  { left. unfold ret, result, calls, heap_after. simpl.
    split; [by eexists|].
    match goal with
    | |- ¬ fopen_failed ?l ∧ _ =>
        assert (quiet l) as [? ?]%quiet_not_failed by quiet_calls
    end.
    done. }
  pose proof (vulkan_init_heap d
                (set_enable_validation_layers (cfg_debug config)
                   (set_application_name (cfg_title config)
                      (set_window (drv_window d) (app_vulkan app)))) h)
    as Hinit.
  unfold bindK, bind.
  destruct (vulkan_init d _ h) as [[o h1] l1].
  pose proof (heap_account_frame init_failed create_failed o
                (λ '(ok, vk), (ok, Application (drv_window d) vk))
                [glfwInit true;
                 glfwCreateWindow (cfg_width config) (cfg_height config)
                   (cfg_title config) (drv_window d)]
                (λ _, []) h h1 l1 Hinit) as Hframe.
  destruct o as [[ok vk]|]; simpl in *; unfold killed, ret; simpl;
    rewrite ?app_nil_r in *; apply Hframe; try quiet_calls;
    try (intros ?; apply quiet_nil); intros [? ?]; done.
Qed.

Lemma frame_sequence_quiet vk i : quiet (frame_sequence vk i).
Proof. unfold frame_sequence. quiet_calls. Qed.

Lemma application_mainloop_quiet frames app h :
  quiet (calls (application_mainloop frames app h)).
Proof.
  rewrite application_mainloop_eq. unfold calls at 1. simpl.
  intros c Hin.
  apply list_elem_of_In, in_concat in Hin as (l & Hl & Hc).
  apply list_elem_of_In in Hl, Hc.
  apply list_elem_of_fmap in Hl as (fd & -> & _).
  apply elem_of_cons in Hc as [->|Hc]; [by split|].
  destruct (vulkan_frame_draw_calls fd (app_vulkan app) h) as (n & _ & Hcalls).
  rewrite Hcalls in Hc. apply subseteq_take in Hc.
  by eapply frame_sequence_quiet.
Qed.

Lemma teardown_calls_quiet app : quiet (teardown_calls app).
Proof.
  intros c. unfold teardown_calls.
  rewrite !elem_of_app, !list_elem_of_fmap.
  intros [Hin|[(i & -> & _)|[Hin|[(i & -> & _)|Hin]]]]; try (by split);
    repeat (apply elem_of_cons in Hin as [->|Hin]; [by split|]);
    by apply elem_of_nil in Hin.
Qed.


Lemma main_heap d frames h :
  heap_account exit_failed (main d frames h) h.
Proof.
  rewrite (main_run d frames h).
  pose proof (application_create_heap d main_config application_zero h)
    as Hcreate.
  destruct (application_create d main_config application_zero h)
    as [[o h1] l1].
  unfold result, heap_after, calls. cbn [fst snd].
  pose proof (heap_account_frame create_failed exit_failed o
                (λ '(ok, _), if ok then EXIT_SUCCESS else EXIT_FAILURE)
                []
                (λ '(ok, app),
                   (if ok then calls (application_mainloop frames app h1)
                    else [])
                   ++ teardown_calls app)
                h h1 l1 Hcreate quiet_nil) as Hframe.
  destruct o as [[ok app]|]; simpl in Hframe; rewrite ?app_nil_r in Hframe;
    apply Hframe.
  - intros [ok' app']. apply quiet_app; [|apply teardown_calls_quiet].
    destruct ok'; [apply application_mainloop_quiet|apply quiet_nil].
  - intros [ok' app']. unfold create_failed, exit_failed. simpl. by intros ->.
  - intros [ok' app']. apply quiet_app; [|apply teardown_calls_quiet].
    destruct ok'; [apply application_mainloop_quiet|apply quiet_nil].
  - intros [ok' app']. unfold create_failed, exit_failed. simpl. by intros ->.
Qed.



(** X17.  The whole program gives back every block it allocated: when
    [main] returns and no [vkCreateGraphicsPipelines] call failed, the
    heap at exit is the heap at start.  When a [vkCreateGraphicsPipelines]
    call failed, [main] returns [EXIT_FAILURE] with exactly two blocks
    (the two shader files) still allocated.  When the process is killed,
    at most one block (the first shader file) is still allocated. *)
Theorem X17_main_heap d frames h :
  let r := main d frames h in
  (is_Some (result r) → ¬ pipeline_creation_failed (calls r) →
   heap_after r = h)
  ∧ (pipeline_creation_failed (calls r) →
     result r = Some EXIT_FAILURE ∧ two_blocks_leaked h (heap_after r))
  ∧ (result r = None → at_most_one_block_leaked h (heap_after r)).
Proof.
  intros r. pose proof (main_heap d frames h) as Hacc. fold r in Hacc.
  destruct Hacc as [(Hret & _ & Hnot & Hheap)
                   |[([code [Hres Hcode]] & _ & Hfail & Hleak)
                    |(Hres & _ & Hnot & _ & Hleak)]].
  - split; [done|]. split; [intros Hfail; contradiction|].
    intros Hres. rewrite Hres in Hret. by destruct Hret as [? [=]].
  - split; [intros _ Hnot; contradiction|]. split.
    + intros _. unfold exit_failed in Hcode. subst code. done.
    + intros Hnone. rewrite Hres in Hnone. discriminate Hnone.
  - split; [rewrite Hres; by intros [? [=]]|].
    split; [intros Hfail; contradiction|]. done.
Qed.

(** X17 at the well-behaved adapter, at the one whose pipeline creation
    fails, and on a machine without the fragment shader file. *)
Lemma X17_main_heap_witness :
  heap_after (main good_driver [good_frame] ∅) = ∅
  ∧ two_blocks_leaked ∅ (heap_after (main pipeline_failing_driver [] ∅))
  ∧ at_most_one_block_leaked ∅ (heap_after (main missing_fragment_driver [] ∅)).
Proof.
  split; [|split].
  - apply (X17_main_heap good_driver [good_frame] ∅).
    + by eexists.
    + apply quiet_not_failed. vm_compute calls. quiet_calls.
  - apply (X17_main_heap pipeline_failing_driver [] ∅).
    eexists _, _, _, _, _. vm_compute. do 27 right. left.
  - by apply (X17_main_heap missing_fragment_driver [] ∅).
Defined.

(** ** More on reading files *)

Lemma c_ftell_ok f :
  to_size_t (c_ftell f) ≠ to_size_t (-1)
  ↔ ftell_ok f = true ∧ Z.of_nat (length (file_data f)) ≤ LONG_MAX.
Proof.
  unfold c_ftell, to_size_t, LONG_MAX.
  destruct (ftell_ok f); simpl.
  - destruct (Z.leb_spec (Z.of_nat (length (file_data f))) 9223372036854775807).
    + split; [done|]. intros _. rewrite Z.mod_small by lia.
      change (-1 mod 2 ^ 64) with 18446744073709551615. lia.
    + split; [done|]. lia.
  - split; [done|]. by intros [? _].
Qed.

(** X18.  [file_read] returns success exactly when the file can be
    opened, the seek and the tell work, the size is positive and fits a
    [long], [malloc] hands out the block and the read works.  An empty
    file is therefore always rejected: the function returns failure,
    although nothing went wrong reading it. *)
Theorem X18_file_read_success_iff c filename content content_size h :
  let r := file_read c filename content content_size h in
  (fst <$> result r = Some true
   ↔ ∃ f, fs c filename = Some f
          ∧ fseek_ok f = true ∧ ftell_ok f = true
          ∧ 0 < Z.of_nat (length (file_data f)) ≤ LONG_MAX
          ∧ malloc_ok c h (Z.of_nat (length (file_data f))) = true
          ∧ fread_ok f = true)
  ∧ (∀ f, fs c filename = Some f → file_data f = [] →
          fst <$> result r = Some false).
Proof.
  intros r.
  assert ((fst <$> result r = Some true
           ↔ ∃ f, fs c filename = Some f
                  ∧ fseek_ok f = true ∧ ftell_ok f = true
                  ∧ 0 < Z.of_nat (length (file_data f)) ≤ LONG_MAX
                  ∧ malloc_ok c h (Z.of_nat (length (file_data f))) = true
                  ∧ fread_ok f = true)
          ∧ (is_Some (fs c filename) → is_Some (result r))) as [Hiff Hret].
  { subst r. unfold file_read, file_read_cleanup, c_fclose. unfold_M.
    destruct (fs c filename) as [f|]; simpl.
    2:{ split; [|by intros [? [=]]].
        split; [discriminate|]. by intros (f & ? & _). }
    destruct (fseek_ok f) eqn:Hseek; simpl.
    2:{ split; [|by eauto].
        split; [discriminate|]. intros (f' & [= <-] & ? & _). congruence. }
    destruct (Z.eqb_spec (to_size_t (c_ftell f)) (to_size_t (-1)))
      as [Hbad|Hsize]; simpl.
    { split; [|by eauto].
      split; [discriminate|]. intros (f' & [= <-] & _ & Htell & [_ Hfit] & _).
      assert (to_size_t (c_ftell f) ≠ to_size_t (-1)) by (by apply c_ftell_ok).
      done. }
    pose proof Hsize as Htell. apply c_ftell_ok in Htell as [Htell Hfit].
    apply c_ftell_size in Hsize. rewrite Hsize.
    unfold c_malloc, c_fread, c_free.
    destruct (malloc_ok c h _) eqn:Hmalloc; simpl.
    2:{ split; [|by eauto].
        split; [discriminate|]. intros (f' & [= <-] & _ & _ & _ & ? & _).
        congruence. }
    destruct (malloc_fresh h) as [Hnn _].
    destruct (decide (_ = nullptr)) as [|_]; [done|]. simpl.
    destruct (fread_ok f) eqn:Hread; simpl.
    - destruct (Z.ltb_spec 0 (Z.of_nat (length (file_data f)))); simpl.
      + split; [|by eauto].
        split; [|done]. intros _. exists f. repeat split; done.
      + split; [|by eauto].
        split; [discriminate|]. intros (f' & [= <-] & _ & _ & [? _] & _). lia.
    - split; [|by eauto].
      split; [discriminate|]. intros (f' & [= <-] & _ & _ & _ & _ & ?).
      congruence. }
  split; [exact Hiff|].
  intros f Hf Hempty.
  destruct Hret as [[ok out] Hres]; [by eexists|].
  rewrite Hres in *. simpl in *. destruct ok; [|done].
  destruct Hiff as [Hiff _].
  destruct (Hiff eq_refl) as (f' & Hf' & _ & _ & [Hpos _] & _).
  rewrite Hf in Hf'. injection Hf' as <-. rewrite Hempty in Hpos.
  simpl in Hpos. lia.
Qed.

(** X18 at a libc whose vertex shader file is empty. *)
Lemma X18_file_read_success_iff_witness :
  fst <$> result (file_read
                    {| fs := λ _, Some (good_file []);
                       malloc_ok := λ _ _, true |}
                    "./shaders/vertex.spv" nullptr 0 ∅)
  = Some false.
Proof.
  destruct (X18_file_read_success_iff
              {| fs := λ _, Some (good_file []); malloc_ok := λ _ _, true |}
              "./shaders/vertex.spv" nullptr 0 ∅) as [_ Hempty].
  by apply (Hempty (good_file [])).
Defined.

(** X19.  Every [file_read] opens once, first, and closes once, last,
    whichever way it ends; the close names an open stream exactly when
    the open succeeded, so after a failed [fopen] the function still
    calls [fclose], on the null stream. *)
Theorem X19_file_read_open_close c filename content content_size h :
  let l := calls (file_read c filename content content_size h) in
  let opened := bool_decide (is_Some (fs c filename)) in
  head l = Some (fopen filename opened)
  ∧ last l = Some (fclose opened)
  ∧ count_calls is_fopen l = 1%nat
  ∧ count_calls is_fclose l = 1%nat
  ∧ (fs c filename = None →
     l = [fopen filename false; free nullptr; fclose false]).
Proof.
  intros l opened. subst l opened.
  unfold file_read, file_read_cleanup, c_fclose, c_malloc, c_fread, c_free.
  unfold_M.
  destruct (fs c filename) as [f|]; simpl; [|done].
  destruct (fseek_ok f); simpl; [|done].
  destruct (to_size_t (c_ftell f) =? to_size_t (-1)); simpl; [done|].
  destruct (malloc_ok c h _); simpl; [|done].
  destruct (decide (_ = nullptr)); simpl; [done|].
  destruct (fread_ok f && _); simpl; done.
Qed.

(** ** What a successful initialisation leaves in the structure *)

Lemma vulkan_init_counts d vk0 h vk h' l :
  vulkan_init d vk0 h = (Some (true, vk), h', l) →
  length (swapchain_imageviews vk0) = Z.to_nat MAX_SWAPCHAIN_IMAGES →
  length (swapchain_framebuffers vk0) = Z.to_nat MAX_SWAPCHAIN_IMAGES →
  0 ≤ swapchain_images_count vk ≤ MAX_SWAPCHAIN_IMAGES
  ∧ swapchain_imageviews_count vk = swapchain_images_count vk
  ∧ swapchain_framebuffers_count vk = swapchain_images_count vk
  ∧ window vk = window vk0
  ∧ application_name vk = application_name vk0
  ∧ enable_validation_layers vk = enable_validation_layers vk0.
Proof.
  unfold vulkan_init. intros Hinit Hviews Hfbs.
  repeat match type of Hinit with
         | stage_then _ _ _ = _ =>
             let vk1 := fresh "vk" in
             let h1 := fresh "h" in
             let l1 := fresh "l" in
             let Hs := fresh "Hstage" in
             apply stage_then_true in Hinit
               as (vk1 & h1 & l1 & ? & Hs & Hinit & ->);
             try apply returns_Some in Hs
         end.
  injection Hinit as <- <- <-.
  apply vulkan_instance_create_true in Hstage as (i & -> & -> & Hl1).
  apply vulkan_surface_create_true in Hstage0 as (s & -> & -> & Hl2).
  apply vulkan_physicaldevice_find_true in Hstage1 as (p & -> & -> & ->).
  apply vulkan_queuefamily_find_true in Hstage2 as (gi & pi & -> & -> & ->).
  apply vulkan_device_create_true in Hstage3 as (dv & gq & pq & -> & -> & Hl5).
  apply vulkan_swapchain_create_true in Hstage4
    as (sc & imgs & n & fmt & ext & -> & Hn & -> & Hl6).
  unfold MAX_SWAPCHAIN_IMAGES in *.
  apply vulkan_imageviews_create_true in Hstage5 as (views & -> & -> & Hl7).
  2:{ destruct vk0; simpl in *. lia. }
  apply vulkan_renderpass_create_true in Hstage6 as (rp & -> & -> & Hl8).
  apply vulkan_graphicspipeline_create_true in Hstage7
    as (layout & pipeline & -> & Hl9).
  apply vulkan_framebuffers_create_true in Hstage8 as (fbs & -> & -> & Hl10).
  2:{ destruct vk0; simpl in *. lia. }
  apply vulkan_commandpool_create_true in Hstage9 as (cp & -> & -> & Hl11).
  apply vulkan_commandbuffer_allocate_true in Hstage10 as (cb & -> & -> & Hl12).
  apply vulkan_synchronizationobjects_create_true in Hstage11
    as (ia & rf & f & -> & -> & Hl13).
  destruct vk0; simpl. repeat split; try reflexivity; lia.
Qed.

(** X20.  After a successful [application_create] from the zeroed
    application, the three per-image counts agree and fit the arrays:
    there is one image view and one framebuffer per swapchain image, at
    most [MAX_SWAPCHAIN_IMAGES] of each.  The window is not null and is
    the one the Vulkan part was given, and title and debug flag are those
    of the configuration. *)
Theorem X20_application_create_counts d config h app h' l
    (Hcreate : application_create d config application_zero h
               = (Some (true, app), h', l)) :
  let vk := app_vulkan app in
  0 ≤ swapchain_images_count vk ≤ MAX_SWAPCHAIN_IMAGES
  ∧ swapchain_imageviews_count vk = swapchain_images_count vk
  ∧ swapchain_framebuffers_count vk = swapchain_images_count vk
  ∧ app_window app ≠ nullptr
  ∧ window vk = app_window app
  ∧ application_name vk = cfg_title config
  ∧ enable_validation_layers vk = cfg_debug config.
Proof.
  revert Hcreate.
  unfold application_create, application_zero. unfold bind at 1. unfold emit at 1.
  destruct (drv_glfw_init d); simpl; [|unfold_M; discriminate].
  unfold bind at 1. unfold emit at 1.
  destruct (decide (drv_window d = nullptr)) as [|Hwin]; simpl;
    [unfold_M; discriminate|].
  unfold bindK at 1. unfold bind at 1.
  destruct (vulkan_init d _ h) as [[[[ok vk]|] h1] l1] eqn:Hinit;
    [|unfold_M; discriminate].
  unfold ret. intros [= -> <- <- <-].
  apply vulkan_init_counts in Hinit
    as (Hn & Hv & Hf & Hw & Hname & Hdebug); [|reflexivity|reflexivity].
  simpl. repeat split; try done; lia.
Qed.

(** X20 at the well-behaved adapter: three images, three views, three
    framebuffers. *)
Lemma X20_application_create_counts_witness :
  let r := application_create good_driver main_config application_zero ∅ in
  ∃ app,
    result r = Some (true, app)
    ∧ swapchain_images_count (app_vulkan app) = 3
    ∧ swapchain_imageviews_count (app_vulkan app)
      = swapchain_images_count (app_vulkan app)
    ∧ swapchain_framebuffers_count (app_vulkan app)
      = swapchain_images_count (app_vulkan app).
Proof.
  intros r.
  assert (∃ app, application_create good_driver main_config application_zero ∅
                 = (Some (true, app), heap_after r, calls r))
    as [app Hrun] by (eexists; vm_compute; reflexivity).
  destruct (X20_application_create_counts _ _ _ _ _ _ Hrun)
    as (_ & Hv & Hf & _).
  exists app. split; [subst r; unfold result; by rewrite Hrun|].
  split; [|split; [exact Hv|exact Hf]].
  vm_compute in Hrun. injection Hrun as <-. reflexivity.
Defined.

(** ** Release of the shader files and modules *)

Lemma test_driver_modules_not_null devices families layout pipeline code :
  drv_shadermodule (test_driver devices families layout pipeline) code
  ≠ Some VK_NULL_HANDLE.
Proof. simpl. unfold VK_NULL_HANDLE. intros [= Hnull]. lia. Qed.

Lemma missing_fragment_driver_modules_not_null code :
  drv_shadermodule missing_fragment_driver code ≠ Some VK_NULL_HANDLE.
Proof. simpl. unfold VK_NULL_HANDLE. intros [= Hnull]. lia. Qed.

(** X21.  [vulkan_graphicspipeline_create] gives back what it took
    whenever it returns, on every path but one.  It fails to return
    exactly when an [fopen] failed.  When it returns and no
    [vkCreateGraphicsPipelines] call failed (a shader file could not be
    read, a shader module or the layout could not be created, or
    everything worked), the heap is what it was, the allocated blocks are
    distinct and freed once each in reverse order, and the created shader
    modules are destroyed once each in reverse order.  When the pipeline
    creation failed, the function returns failure having freed and
    destroyed nothing: two blocks and two shader modules are left.  When
    the process is killed, its last call is the [fclose] on the null
    stream, no shader module was created and nothing was freed: the
    buffer of the first file is still allocated if the second file is the
    one that could not be opened. *)
Theorem X21_graphicspipeline_release d vk h
    (Hvalid : ∀ code, drv_shadermodule d code ≠ Some VK_NULL_HANDLE) :
  let r := vulkan_graphicspipeline_create d vk h in
  (result r = None ↔ fopen_failed (calls r))
  ∧ (is_Some (result r) → ¬ pipeline_creation_failed (calls r) →
     heap_after r = h
     ∧ NoDup (allocated_blocks (calls r))
     ∧ freed_blocks (calls r) = rev (allocated_blocks (calls r))
     ∧ destroyed_shadermodules (calls r)
       = rev (created_shadermodules (calls r)))
  ∧ (pipeline_creation_failed (calls r) →
     fst <$> result r = Some false
     ∧ freed_blocks (calls r) = []
     ∧ destroyed_shadermodules (calls r) = []
     ∧ length (allocated_blocks (calls r)) = 2%nat
     ∧ length (created_shadermodules (calls r)) = 2%nat
     ∧ two_blocks_leaked h (heap_after r))
  ∧ (result r = None →
     last (calls r) = Some (fclose false)
     ∧ freed_blocks (calls r) = []
     ∧ created_shadermodules (calls r) = []
     ∧ destroyed_shadermodules (calls r) = []
     ∧ (length (allocated_blocks (calls r)) ≤ 1)%nat
     ∧ at_most_one_block_leaked h (heap_after r)).
Proof.
  intros r.
  destruct (graphicspipeline_outcome d vk h r eq_refl)
    as [(Hret & Hfo & Hno & Hheap & Hnodup & Hfreed & Hdestroyed)
       |[([vk' Hres] & Hfo & Hfailed & Hfreed & Hdestroyed
          & p1 & p2 & data1 & data2 & vm & fm
          & Hne & Hf1 & Hf2 & Halloc & Hcreated & Hheap)
        |(Hres & Hfo & Hno & Hlast & Hfreed & Hcreated & Hdestroyed & Hleak)]].
  - destruct Hret as [x Hres]. rewrite Hres.
    split; [split; [discriminate|done]|].
    split; [auto|]. split; [intros Hfailed; contradiction|]. discriminate.
  - rewrite Hres.
    split; [split; [discriminate|done]|].
    split; [intros _ Hno; contradiction|].
    split; [|discriminate]. intros _.
    rewrite Halloc, Hcreated. repeat split; try done.
    by exists p1, p2, data1, data2.
  - rewrite Hres.
    split; [done|]. split; [by intros [? [=]]|].
    split; [intros Hfailed; contradiction|]. intros _.
    do 4 (split; [done|]).
    destruct Hleak as [[-> ->]|(p & data & _ & Hp & -> & ->)].
    + split; [simpl; lia|by left].
    + split; [simpl; lia|]. right. by exists p, data.
Qed.

(** X21 at the adapter whose [vkCreatePipelineLayout] fails, and on a
    machine without the fragment shader file. *)
Lemma X21_graphicspipeline_release_witness :
  let r := vulkan_graphicspipeline_create layout_failing_driver vulkan_zero ∅ in
  let r' := vulkan_graphicspipeline_create missing_fragment_driver
              vulkan_zero ∅ in
  (heap_after r = ∅
   ∧ NoDup (allocated_blocks (calls r))
   ∧ freed_blocks (calls r) = rev (allocated_blocks (calls r))
   ∧ destroyed_shadermodules (calls r) = rev (created_shadermodules (calls r)))
  ∧ (result r' = None
     ∧ last (calls r') = Some (fclose false)
     ∧ freed_blocks (calls r') = []).
Proof.
  intros r r'. split.
  - destruct (X21_graphicspipeline_release layout_failing_driver vulkan_zero ∅
                (test_driver_modules_not_null _ _ _ _)) as (_ & Hreleased & _).
    apply Hreleased; [by eexists|].
    apply quiet_not_failed. vm_compute calls. quiet_calls.
  - destruct (X21_graphicspipeline_release missing_fragment_driver
                vulkan_zero ∅ missing_fragment_driver_modules_not_null)
      as (_ & _ & _ & Hkilled).
    assert (result r' = None) as Hres by reflexivity.
    destruct (Hkilled Hres) as (Hlast & Hfreed & _).
    done.
Defined.

(** ** Synchronisation objects *)

(** X22.  [vulkan_synchronizationobjects_create] succeeds exactly when
    the two semaphores and the fence can all be created; the fence is
    always asked for in the signalled state, on the device of the
    structure.  Whichever of the three creations fails, the objects
    created before it are recorded in the structure, so that the teardown
    of the resulting structure destroys every one of them. *)
Theorem X22_synchronizationobjects_create d vk h win :
  let r := vulkan_synchronizationobjects_create d vk h in
  ((result r).1 = true
   ↔ is_Some (drv_image_available d) ∧ is_Some (drv_render_finished d)
     ∧ is_Some (drv_fence d))
  ∧ (∀ dev signaled answer,
       vkCreateFence dev signaled answer ∈ calls r →
       dev = device vk ∧ signaled = true ∧ answer = drv_fence d)
  ∧ (∀ o, o ∈ objects_created (calls r) →
          o ∈ objects_destroyed (teardown_calls (Application win (result r).2)))
  ∧ heap_after r = h.
Proof.
  intros r. subst r. unfold vulkan_synchronizationobjects_create. unfold_M.
  unfold teardown_calls.
  destruct (drv_image_available d) as [ia|]; simpl.
  2:{ split; [split; [discriminate|by intros [[? [=]] _]]|].
      split; [intros ??? Hin; revert Hin; not_in_calls|].
      split; [|done]. intros o Hin. by apply elem_of_nil in Hin. }
  destruct (drv_render_finished d) as [rf|]; simpl.
  2:{ split; [split; [discriminate|by intros (_ & [? [=]] & _)]|].
      split; [intros ??? Hin; revert Hin; not_in_calls|].
      split; [|done]. intros o Hin.
      apply list_elem_of_singleton in Hin as ->.
      destruct vk; simpl. left. }
  destruct (drv_fence d) as [f|]; simpl.
  - split; [split; [by eauto|done]|].
    split.
    { intros dev s a Hin.
      repeat (apply elem_of_cons in Hin as [Heq|Hin]; [try discriminate Heq|]).
      - injection Heq as -> -> ->. by destruct vk.
      - by apply elem_of_nil in Hin. }
    split; [|done]. intros o Hin. destruct vk; simpl.
    repeat (apply elem_of_cons in Hin as [->|Hin]; [set_solver|]).
    by apply elem_of_nil in Hin.
  - split; [split; [discriminate|by intros (_ & _ & [? [=]])]|].
    split.
    { intros dev s a Hin.
      repeat (apply elem_of_cons in Hin as [Heq|Hin]; [try discriminate Heq|]).
      - injection Heq as -> -> ->. by destruct vk.
      - by apply elem_of_nil in Hin. }
    split; [|done]. intros o Hin. destruct vk; simpl.
    repeat (apply elem_of_cons in Hin as [->|Hin]; [set_solver|]).
    by apply elem_of_nil in Hin.
Qed.
